(** * react-blog-app: the handlers of the blog client, embedded and verified

    The client is glue around a hosted backend: every handler is a short
    sequence of React state updates and remote calls.  The embedding keeps
    that shape.  A handler is a program in a small free monad [Prog]:
    [Upd] is a call of a React state setter, [Vis] is a call that leaves
    the component (a table query, an object-storage call, a browser
    prompt, the router, the clock).  The backend is not part of the
    repository; programs are run against an arbitrary environment, and a
    reference store is given where a statement is about stored rows. *)

From Stdlib Require Import ZArith List String Ascii Bool Lia QArith Qround.
From Stdlib Require Import DecimalString Sorted.
Import ListNotations.
Local Open Scope string_scope.
Local Open Scope Z_scope.

Set Implicit Arguments.

(** ** JavaScript strings and arrays, as far as the handlers use them *)

Module JS.

(** A character of a Rocq [string] stands for the UTF-16 code unit of the
    same number, 0 to 255.  Of these [String.prototype.trim] removes TAB,
    LF, VT, FF, CR (9 to 13), SPACE (32) and NO-BREAK SPACE (160). *)
Definition is_white_space (c : ascii) : bool :=
  let n := nat_of_ascii c in
  (Nat.eqb n 32 || Nat.eqb n 160 || (Nat.leb 9 n && Nat.leb n 13))%bool.

Fixpoint trimStart (s : string) : string :=
  match s with
  | EmptyString => EmptyString
  | String c s' => if is_white_space c then trimStart s' else s
  end.

Definition reverse (s : string) : string :=
  string_of_list_ascii (rev (list_ascii_of_string s)).

Definition trimEnd (s : string) : string := reverse (trimStart (reverse s)).

Definition trim (s : string) : string := trimEnd (trimStart s).

(** Truthiness of a string: only the empty string is falsy. *)
Definition truthy (s : string) : bool := negb (s =? "")%string.

(** [a || b] on strings. *)
Definition or_else (a b : string) : string := if truthy a then a else b.

(** [a || b] where [a] may be [undefined] / [null]. *)
Definition opt_or_else (a : option string) (b : string) : string :=
  match a with
  | Some s => or_else s b
  | None => b
  end.

(** Truthiness of an optional string ([undefined] and [""] are falsy). *)
Definition opt_truthy (a : option string) : bool :=
  match a with
  | Some s => truthy s
  | None => false
  end.

Definition startsWith (s p : string) : bool := String.prefix p s.

Definition includes (s sub : string) : bool :=
  match String.index 0 sub s with
  | Some _ => true
  | None => false
  end.

(** [s.split(sep)] for a one-character separator. *)
Fixpoint split (sep : ascii) (s : string) : list string :=
  match s with
  | EmptyString => [EmptyString]
  | String c s' =>
      if Ascii.eqb c sep then EmptyString :: split sep s'
      else match split sep s' with
           | h :: t => String c h :: t
           | [] => [String c EmptyString]
           end
  end.

(** [parts.pop()] read as a value: the last element. *)
Definition pop (parts : list string) : string := last parts "undefined".

(** [parts.indexOf(x)]: the first position, [-1] when absent. *)
Fixpoint indexOf (x : string) (parts : list string) : Z :=
  match parts with
  | [] => -1
  | p :: rest =>
      if (p =? x)%string then 0
      else let i := indexOf x rest in if i <? 0 then -1 else i + 1
  end.

(** [parts.slice(start)]: a negative start counts from the end. *)
Definition slice (start : Z) (parts : list string) : list string :=
  let len := Z.of_nat (List.length parts) in
  let from := if start <? 0 then Z.max (len + start) 0 else Z.min start len in
  skipn (Z.to_nat from) parts.

Definition join (sep : string) (parts : list string) : string :=
  String.concat sep parts.

(** The one-character string holding a double quote. *)
Definition dquote : string := String (ascii_of_nat 34) EmptyString.

(** A number printed inside a template literal (integers only). *)
Definition number_to_string (n : Z) : string :=
  NilZero.string_of_int (Z.to_int n).

End JS.

(** ** Data model ([src/lib/types.ts] and the interfaces of the pages) *)

(** The value caught by a [catch]: only its [message] is ever read. *)
Record JsError := { message : string }.

(** The signed-in user, as the handlers read it ([user.id], [user.email]). *)
Module User.
Record t := mk { id : string; email : option string }.
End User.

Module Blog.
Record t := mk {
  id : string;
  title : string;
  content : string;
  author_id : string;
  author_email : option string;
  image_url : option string;
  image_path : option string;
  created_at : string;
  updated_at : string
}.
End Blog.

Module FileAttachment.
Record t := mk {
  id : option string;
  file_url : string;
  file_name : string;
  file_type : string;
  file_size : option Z;
  comment_id : option string;
  uploaded_at : option string
}.
End FileAttachment.

(** A row of the [comments] table, as [select("*")] returns it. *)
Module CommentRow.
Record t := mk {
  id : string;
  blog_id : string;
  author_id : string;
  author_email : option string;
  content : string;
  created_at : string;
  updated_at : string
}.
End CommentRow.

(** [Comment] of [types.ts]: a row with its attachments merged on. *)
Module Comment.
Record t := mk {
  row : CommentRow.t;
  attachments : list FileAttachment.t
}.
Definition id (c : t) : string := CommentRow.id (row c).
End Comment.

(** The browser's [File]: name, MIME type and size in bytes. *)
Module File.
Record t := mk { name : string; type : string; size : Z }.
End File.

Module UploadedFile.
Record t := mk { url : string; path : string; file : File.t }.
End UploadedFile.

(** ** Requests *)

(** The result of a table query: [{data, error}] with exactly one of the two
    set (supabase-js' [PostgrestResponseSuccess | PostgrestResponseFailure]). *)
Inductive PostgrestResponse (T : Type) : Type :=
| Success (data : T)
| Failure (error : JsError).
Arguments Success {T} data.
Arguments Failure {T} error.

(** [data || []] on the result of a list query. *)
Definition data_or_empty {T} (r : PostgrestResponse (list T)) : list T :=
  match r with
  | Success d => d
  | Failure _ => []
  end.

(** The list query on [blogs], as the query builder assembles it. *)
Module BlogQuery.
Record t := mk {
  order_column : string;
  ascending : bool;
  range_from : Z;
  range_to : Z;
  or_filter : option string
}.
End BlogQuery.

Module CommentInsert.
Record t := mk {
  blog_id : string;
  author_id : string;
  author_email : option string;
  content : string
}.
End CommentInsert.

Module BlogInsert.
Record t := mk {
  title : string;
  content : string;
  author_id : string;
  author_email : option string;
  image_url : string;
  image_path : string;
  created_at : string;
  updated_at : string
}.
End BlogInsert.

Module BlogUpdate.
Record t := mk {
  title : string;
  content : string;
  author_email : option string;
  image_url : string;
  image_path : string;
  updated_at : string
}.
End BlogUpdate.

(** Functions started without [await]: they run as tasks of their own. *)
Inductive Task := FetchCommentsTask | FetchBlogsTask | FetchTotalCountTask.

(** A [setTimeout] callback; the only ones in the pages navigate. *)
Inductive Callback := NavigateTo (path : string).

(** Every call that leaves a component, indexed by the type of its answer. *)
Inductive Eff : Type -> Type :=
(* table [blogs] *)
| SelectBlogs (q : BlogQuery.t) : Eff (PostgrestResponse (list Blog.t))
| CountBlogs : Eff (PostgrestResponse (option Z))
| SelectBlogById (id : option string) : Eff (PostgrestResponse Blog.t)
| InsertBlog (row : BlogInsert.t) : Eff (PostgrestResponse (list Blog.t))
| UpdateBlog (id : option string) (patch : BlogUpdate.t) : Eff (PostgrestResponse unit)
| DeleteBlog (id : option string) : Eff (PostgrestResponse unit)
(* table [comments] *)
| SelectComments (blog_id : string) : Eff (PostgrestResponse (list CommentRow.t))
| InsertComment (row : CommentInsert.t) : Eff (PostgrestResponse CommentRow.t)
| DeleteComment (id : string) (author_id : option string) : Eff (PostgrestResponse unit)
(* table [comment_attachments] *)
| SelectAttachments (comment_id : string) : Eff (PostgrestResponse (list FileAttachment.t))
| InsertAttachments (rows : list FileAttachment.t) : Eff (PostgrestResponse unit)
(* object storage *)
| StorageUpload (bucket path : string) (file : File.t) : Eff (PostgrestResponse unit)
| StorageGetPublicUrl (bucket path : string) : Eff string
| StorageRemove (bucket : string) (paths : list string) : Eff (PostgrestResponse unit)
(* browser and router *)
| WindowConfirm (prompt : string) : Eff bool
| WindowAlert (text : string) : Eff unit
| ConsoleError (label : string) (err : JsError) : Eff unit
| ConsoleLog (label : string) : Eff unit
| Navigate (path : string) : Eff unit
| SetTimeout (cb : Callback) (ms : Z) : Eff unit
| PreventDefault : Eff unit
| DateNow : Eff Z
| DateToISOString : Eff string
| MathRandomBase36 : Eff string
| CreateObjectURL (file : File.t) : Eff string
| RevokeObjectURL (url : string) : Eff unit
(* calls into other code of the application *)
| Spawn (t : Task) : Eff unit
| OnFilesUpload (files : list UploadedFile.t) : Eff unit
| OnImageUpload (url path : string) : Eff unit.

(** Calls that reach the hosted backend (tables or object storage). *)
Definition is_remote {X} (e : Eff X) : bool :=
  match e with
  | SelectBlogs _ | CountBlogs | SelectBlogById _ | InsertBlog _
  | UpdateBlog _ _ | DeleteBlog _ | SelectComments _ | InsertComment _
  | DeleteComment _ _ | SelectAttachments _ | InsertAttachments _
  | StorageUpload _ _ _ | StorageRemove _ _ => true
  | _ => false
  end.

(** ** Handler programs *)

Inductive Prog (U A : Type) : Type :=
| Ret (a : A)
| Upd (u : U) (k : Prog U A)
| Vis {X : Type} (e : Eff X) (k : X -> Prog U A).
Arguments Ret {U A} a.
Arguments Upd {U A} u k.
Arguments Vis {U A X} e k.

Fixpoint bind {U A B} (p : Prog U A) (f : A -> Prog U B) : Prog U B :=
  match p with
  | Ret a => f a
  | Upd u k => Upd u (bind k f)
  | Vis e k => Vis e (fun x => bind (k x) f)
  end.

Definition call {U X} (e : Eff X) : Prog U X := Vis e (fun x => Ret x).
Definition set {U} (u : U) : Prog U unit := Upd u (Ret tt).

Declare Scope prog_scope.
Delimit Scope prog_scope with prog.
Notation "x <- p ;; q" := (bind p (fun x => q))
  (at level 61, p at next level, right associativity) : prog_scope.
Notation "p ;; q" := (bind p (fun _ => q))
  (at level 61, right associativity) : prog_scope.
Local Open Scope prog_scope.

(** A component: its state and what each setter does to it. *)
Class Component (U St : Type) := { apply : U -> St -> St }.

(** What an observer of a handler sees, in order. *)
Inductive Event (U : Type) : Type :=
| Called {X : Type} (e : Eff X) (x : X)
| Updated (u : U).
Arguments Called {U X} e x.
Arguments Updated {U} u.

Definition event_is_remote {U} (ev : Event U) : bool :=
  match ev with
  | Called e _ => is_remote e
  | Updated _ => false
  end.

(** The environment answers a call from its own state [W]. *)
Definition Env (W : Type) : Type := forall X, Eff X -> W -> X * W.

Record Outcome (U St W A : Type) := {
  result : A;
  state : St;
  world : W;
  trace : list (Event U)
}.

(** Run a handler to its end, the answers coming from [h]. *)
Fixpoint run {U St W A} `{Component U St} (h : Env W) (p : Prog U A)
    (st : St) (w : W) : Outcome U St W A :=
  match p with
  | Ret a => {| result := a; state := st; world := w; trace := [] |}
  | Upd u k =>
      let o := run h k (apply u st) w in
      {| result := result o; state := state o; world := world o;
         trace := Updated u :: trace o |}
  | Vis e k =>
      let (x, w') := h _ e w in
      let o := run h (k x) st w' in
      {| result := result o; state := state o; world := world o;
         trace := Called e x :: trace o |}
  end.

(** The remote calls of a trace. *)
Definition remote_calls {U} (t : list (Event U)) : list (Event U) :=
  filter event_is_remote t.

(** [Promise.all(xs.map(async x => ...))]: the callbacks start in list order
    and the results are collected in list order. *)
Fixpoint mapM {U A B} (f : A -> Prog U B) (l : list A) : Prog U (list B) :=
  match l with
  | [] => Ret []
  | a :: rest =>
      b <- f a ;;
      bs <- mapM f rest ;;
      Ret (b :: bs)
  end.

(** ** [src/components/Comments.tsx] *)

Module Comments.

Record State := {
  comments : list Comment.t;
  loading : bool;
  submitting : bool;
  error : string;
  content : string;
  uploadedFiles : list UploadedFile.t;
  editingCommentId : option string;
  editContent : string
}.

Inductive Setter :=
| setComments (v : list Comment.t)
| setLoading (v : bool)
| setSubmitting (v : bool)
| setError (v : string)
| setContent (v : string)
| setUploadedFiles (v : list UploadedFile.t)
| setEditingCommentId (v : option string)
| setEditContent (v : string).

Definition apply_setter (u : Setter) (s : State) : State :=
  match u with
  | setComments v =>
      {| comments := v; loading := loading s; submitting := submitting s;
         error := error s; content := content s;
         uploadedFiles := uploadedFiles s;
         editingCommentId := editingCommentId s; editContent := editContent s |}
  | setLoading v =>
      {| comments := comments s; loading := v; submitting := submitting s;
         error := error s; content := content s;
         uploadedFiles := uploadedFiles s;
         editingCommentId := editingCommentId s; editContent := editContent s |}
  | setSubmitting v =>
      {| comments := comments s; loading := loading s; submitting := v;
         error := error s; content := content s;
         uploadedFiles := uploadedFiles s;
         editingCommentId := editingCommentId s; editContent := editContent s |}
  | setError v =>
      {| comments := comments s; loading := loading s; submitting := submitting s;
         error := v; content := content s;
         uploadedFiles := uploadedFiles s;
         editingCommentId := editingCommentId s; editContent := editContent s |}
  | setContent v =>
      {| comments := comments s; loading := loading s; submitting := submitting s;
         error := error s; content := v;
         uploadedFiles := uploadedFiles s;
         editingCommentId := editingCommentId s; editContent := editContent s |}
  | setUploadedFiles v =>
      {| comments := comments s; loading := loading s; submitting := submitting s;
         error := error s; content := content s;
         uploadedFiles := v;
         editingCommentId := editingCommentId s; editContent := editContent s |}
  | setEditingCommentId v =>
      {| comments := comments s; loading := loading s; submitting := submitting s;
         error := error s; content := content s;
         uploadedFiles := uploadedFiles s;
         editingCommentId := v; editContent := editContent s |}
  | setEditContent v =>
      {| comments := comments s; loading := loading s; submitting := submitting s;
         error := error s; content := content s;
         uploadedFiles := uploadedFiles s;
         editingCommentId := editingCommentId s; editContent := v |}
  end.

#[global] Instance component : Component Setter State :=
  {| apply := apply_setter |}.

(** The state of a freshly mounted component. *)
Definition initial : State :=
  {| comments := []; loading := true; submitting := false; error := "";
     content := ""; uploadedFiles := []; editingCommentId := None;
     editContent := "" |}.

(** The callback of the [map] inside [fetchComments]: one lookup for the
    comment, its rows (or nothing) merged onto it. *)
Definition withAttachments (comment : CommentRow.t) : Prog Setter Comment.t :=
  r <- call (SelectAttachments (CommentRow.id comment)) ;;
  Ret {| Comment.row := comment; Comment.attachments := data_or_empty r |}.

Definition fetchComments (blogId : string) : Prog Setter unit :=
  set (setLoading true) ;;
  r <- call (SelectComments blogId) ;;
  match r with
  | Failure err =>
      call (ConsoleError "Error fetching comments:" err) ;;
      set (setError (message err)) ;;
      set (setLoading false)
  | Success commentsData =>
      commentsWithAttachments <- mapM withAttachments commentsData ;;
      set (setComments commentsWithAttachments) ;;
      set (setLoading false)
  end.

Definition handleFilesUpload (files : list UploadedFile.t) : Prog Setter unit :=
  set (setUploadedFiles files).

(** One row of [attachmentsToInsert]. *)
Definition attachmentToInsert (commentData : CommentRow.t)
    (file : UploadedFile.t) : FileAttachment.t :=
  {| FileAttachment.id := None;
     FileAttachment.file_url := UploadedFile.url file;
     FileAttachment.file_name := File.name (UploadedFile.file file);
     FileAttachment.file_type := File.type (UploadedFile.file file);
     FileAttachment.file_size := Some (File.size (UploadedFile.file file));
     FileAttachment.comment_id := Some (CommentRow.id commentData);
     FileAttachment.uploaded_at := None |}.

Definition handleSubmit (user : option User.t) (blogId : string)
    (s : State) : Prog Setter unit :=
  let catch (err : JsError) :=
    set (setError (JS.or_else (message err) "Failed to post comment")) in
  let finally := set (setSubmitting false) in
  let reset :=
    set (setContent "") ;;
    set (setUploadedFiles []) ;;
    call (Spawn FetchCommentsTask) in
  call PreventDefault ;;
  match user with
  | None => Ret tt
  | Some u =>
      if negb (JS.truthy (JS.trim (content s))) then Ret tt
      else
        set (setSubmitting true) ;;
        set (setError "") ;;
        r <- call (InsertComment
                     {| CommentInsert.blog_id := blogId;
                        CommentInsert.author_id := User.id u;
                        CommentInsert.author_email := User.email u;
                        CommentInsert.content := JS.trim (content s) |}) ;;
        match r with
        | Failure commentError => catch commentError ;; finally
        | Success commentData =>
            if (0 <? Z.of_nat (List.length (uploadedFiles s))) then
              r2 <- call (InsertAttachments
                            (map (attachmentToInsert commentData)
                                 (uploadedFiles s))) ;;
              match r2 with
              | Failure attachmentsError => catch attachmentsError ;; finally
              | Success _ => reset ;; finally
              end
            else reset ;; finally
        end
  end.

(** The storage path of an attachment URL, as [handleDelete] derives it. *)
Definition storagePath (url : string) : string :=
  let parts := JS.split "/" url in
  JS.join "/" (JS.slice (JS.indexOf "comment-files" parts) parts).

(** [filePaths] of [handleDelete]: the storage paths of the attachments
    whose URL mentions the bucket. *)
Definition filePathsOf (comment : Comment.t) : list string :=
  map storagePath
    (filter (fun url => JS.includes url "comment-files")
       (map FileAttachment.file_url (Comment.attachments comment))).

Definition handleDelete (user : option User.t) (comment : Comment.t)
    : Prog Setter unit :=
  ok <- call (WindowConfirm "Are you sure you want to delete this comment?") ;;
  if negb ok then Ret tt
  else
    r <- call (DeleteComment (Comment.id comment) (option_map User.id user)) ;;
    match r with
    | Failure err => set (setError (message err))
    | Success _ =>
        (if (0 <? Z.of_nat (List.length (Comment.attachments comment))) then
           let filePaths := filePathsOf comment in
           if (0 <? Z.of_nat (List.length filePaths)) then
             _ <- call (StorageRemove "comment-files" filePaths) ;; Ret tt
           else Ret tt
         else Ret tt) ;;
        call (Spawn FetchCommentsTask)
    end.

End Comments.

(** ** [CreateBlog] page *)

Module CreateBlog.

Record State := {
  title : string;
  content : string;
  imageUrl : string;
  imagePath : string;
  loading : bool;
  error : string
}.

Inductive Setter :=
| setTitle (v : string)
| setContent (v : string)
| setImageUrl (v : string)
| setImagePath (v : string)
| setLoading (v : bool)
| setError (v : string).

Definition apply_setter (u : Setter) (s : State) : State :=
  match u with
  | setTitle v =>
      {| title := v; content := content s; imageUrl := imageUrl s;
         imagePath := imagePath s; loading := loading s; error := error s |}
  | setContent v =>
      {| title := title s; content := v; imageUrl := imageUrl s;
         imagePath := imagePath s; loading := loading s; error := error s |}
  | setImageUrl v =>
      {| title := title s; content := content s; imageUrl := v;
         imagePath := imagePath s; loading := loading s; error := error s |}
  | setImagePath v =>
      {| title := title s; content := content s; imageUrl := imageUrl s;
         imagePath := v; loading := loading s; error := error s |}
  | setLoading v =>
      {| title := title s; content := content s; imageUrl := imageUrl s;
         imagePath := imagePath s; loading := v; error := error s |}
  | setError v =>
      {| title := title s; content := content s; imageUrl := imageUrl s;
         imagePath := imagePath s; loading := loading s; error := v |}
  end.

#[global] Instance component : Component Setter State :=
  {| apply := apply_setter |}.

Definition handleSubmit (user : option User.t) (s : State) : Prog Setter unit :=
  let finally := set (setLoading false) in
  call PreventDefault ;;
  match user with
  | None => set (setError "You must be logged in to create a blog")
  | Some u =>
      if negb (JS.truthy (JS.trim (title s))) then
        set (setError "Please enter a title")
      else if negb (JS.truthy (JS.trim (content s))) then
        set (setError "Please enter blog content")
      else if negb (JS.opt_truthy (User.email u)) then
        set (setError "User email not found. Please check your account.")
      else
        match user with
        | None => set (setError "You must be logged in to create a blog")
        | Some _ =>
            set (setLoading true) ;;
            set (setError "") ;;
            created <- call DateToISOString ;;
            updated <- call DateToISOString ;;
            r <- call (InsertBlog
                         {| BlogInsert.title := JS.trim (title s);
                            BlogInsert.content := JS.trim (content s);
                            BlogInsert.author_id := User.id u;
                            BlogInsert.author_email := User.email u;
                            BlogInsert.image_url := imageUrl s;
                            BlogInsert.image_path := imagePath s;
                            BlogInsert.created_at := created;
                            BlogInsert.updated_at := updated |}) ;;
            match r with
            | Failure supabaseError =>
                call (ConsoleError "Error creating blog:" supabaseError) ;;
                set (setError (JS.or_else (message supabaseError)
                                 "Failed to create blog")) ;;
                finally
            | Success _ =>
                call (ConsoleLog "Blog created:") ;;
                set (setTitle "") ;;
                set (setContent "") ;;
                call (Navigate "/") ;;
                call (WindowAlert "Blog created successfully!") ;;
                finally
            end
        end
  end.

End CreateBlog.

(** ** [EditBlog] page *)

Module EditBlog.

Record State := {
  title : string;
  content : string;
  imageUrl : string;
  imagePath : string;
  loading : bool;
  saving : bool;
  error : string;
  success : string
}.

Inductive Setter :=
| setTitle (v : string)
| setContent (v : string)
| setImageUrl (v : string)
| setImagePath (v : string)
| setLoading (v : bool)
| setSaving (v : bool)
| setError (v : string)
| setSuccess (v : string).

Definition apply_setter (u : Setter) (s : State) : State :=
  match u with
  | setTitle v =>
      {| title := v; content := content s; imageUrl := imageUrl s;
         imagePath := imagePath s; loading := loading s; saving := saving s;
         error := error s; success := success s |}
  | setContent v =>
      {| title := title s; content := v; imageUrl := imageUrl s;
         imagePath := imagePath s; loading := loading s; saving := saving s;
         error := error s; success := success s |}
  | setImageUrl v =>
      {| title := title s; content := content s; imageUrl := v;
         imagePath := imagePath s; loading := loading s; saving := saving s;
         error := error s; success := success s |}
  | setImagePath v =>
      {| title := title s; content := content s; imageUrl := imageUrl s;
         imagePath := v; loading := loading s; saving := saving s;
         error := error s; success := success s |}
  | setLoading v =>
      {| title := title s; content := content s; imageUrl := imageUrl s;
         imagePath := imagePath s; loading := v; saving := saving s;
         error := error s; success := success s |}
  | setSaving v =>
      {| title := title s; content := content s; imageUrl := imageUrl s;
         imagePath := imagePath s; loading := loading s; saving := v;
         error := error s; success := success s |}
  | setError v =>
      {| title := title s; content := content s; imageUrl := imageUrl s;
         imagePath := imagePath s; loading := loading s; saving := saving s;
         error := v; success := success s |}
  | setSuccess v =>
      {| title := title s; content := content s; imageUrl := imageUrl s;
         imagePath := imagePath s; loading := loading s; saving := saving s;
         error := error s; success := v |}
  end.

#[global] Instance component : Component Setter State :=
  {| apply := apply_setter |}.

Definition initial : State :=
  {| title := ""; content := ""; imageUrl := ""; imagePath := "";
     loading := true; saving := false; error := ""; success := "" |}.

(** [id] is the route parameter, [undefined] when the route has none. *)
Definition fetchBlog (id : option string) (user : option User.t)
    : Prog Setter unit :=
  let finally := set (setLoading false) in
  r <- call (SelectBlogById id) ;;
  match r with
  | Failure err =>
      set (setError (JS.or_else (message err) "Failed to load blog")) ;;
      finally
  | Success data =>
      (* data.author_id !== user?.id *)
      if negb (match user with
               | Some u => (Blog.author_id data =? User.id u)%string
               | None => false
               end) then
        set (setError "You don't have permission to edit this blog") ;;
        call (SetTimeout (NavigateTo "/") 2000) ;;
        finally
      else
        set (setTitle (Blog.title data)) ;;
        set (setContent (Blog.content data)) ;;
        set (setImageUrl (JS.opt_or_else (Blog.image_url data) "")) ;;
        set (setImagePath (JS.opt_or_else (Blog.image_path data) "")) ;;
        call (ConsoleLog "Existing author email:") ;;
        finally
  end.

(** The effect run when the page opens. *)
Definition onMount (id : option string) (user : option User.t)
    : Prog Setter unit :=
  if negb (JS.opt_truthy id) then
    set (setError "No blog ID provided") ;;
    set (setLoading false)
  else fetchBlog id user.

(** The [onChange] handlers of the two inputs. *)
Definition onTitleChange (value : string) : Prog Setter unit :=
  set (setTitle value).
Definition onContentChange (value : string) : Prog Setter unit :=
  set (setContent value).

Definition handleSubmit (id : option string) (user : option User.t)
    (s : State) : Prog Setter unit :=
  let finally := set (setSaving false) in
  call PreventDefault ;;
  if negb (JS.truthy (JS.trim (title s))) then
    set (setError "Please enter a title")
  else if negb (JS.truthy (JS.trim (content s))) then
    set (setError "Please enter blog content")
  else
    match user with
    | None => set (setError "You must be logged in to edit a blog")
    | Some u =>
        if negb (JS.opt_truthy (User.email u)) then
          set (setError "User email not found. Please check your account.")
        else
          set (setSaving true) ;;
          set (setError "") ;;
          set (setSuccess "") ;;
          updated <- call DateToISOString ;;
          r <- call (UpdateBlog id
                       {| BlogUpdate.title := JS.trim (title s);
                          BlogUpdate.content := JS.trim (content s);
                          BlogUpdate.author_email := User.email u;
                          BlogUpdate.image_url := imageUrl s;
                          BlogUpdate.image_path := imagePath s;
                          BlogUpdate.updated_at := updated |}) ;;
          match r with
          | Failure err =>
              set (setError (JS.or_else (message err) "Failed to update blog")) ;;
              finally
          | Success _ =>
              set (setSuccess "Blog updated successfully!") ;;
              call (SetTimeout (NavigateTo "/") 1500) ;;
              finally
          end
    end.

Definition handleDelete (id : option string) (s : State) : Prog Setter unit :=
  ok <- call (WindowConfirm
        "Are you sure you want to delete this blog? This action cannot be undone.") ;;
  if negb ok then Ret tt
  else
    (if JS.truthy (imagePath s) then
       r <- call (StorageRemove "blog-images" [imagePath s]) ;;
       match r with
       | Failure storageError =>
           call (ConsoleError "Failed to delete image:" storageError)
       | Success _ => Ret tt
       end
     else Ret tt) ;;
    r <- call (DeleteBlog id) ;;
    match r with
    | Failure err =>
        set (setError ("Failed to delete blog: " ++ message err))
    | Success _ => call (Navigate "/")
    end.

End EditBlog.

(** ** [BlogDetail] page (its delete handler) *)

Module BlogDetail.

Record State := {
  blog : option Blog.t;
  loading : bool;
  error : string;
  deleting : bool
}.

Inductive Setter :=
| setBlog (v : option Blog.t)
| setLoading (v : bool)
| setError (v : string)
| setDeleting (v : bool).

Definition apply_setter (u : Setter) (s : State) : State :=
  match u with
  | setBlog v =>
      {| blog := v; loading := loading s; error := error s;
         deleting := deleting s |}
  | setLoading v =>
      {| blog := blog s; loading := v; error := error s;
         deleting := deleting s |}
  | setError v =>
      {| blog := blog s; loading := loading s; error := v;
         deleting := deleting s |}
  | setDeleting v =>
      {| blog := blog s; loading := loading s; error := error s;
         deleting := v |}
  end.

#[global] Instance component : Component Setter State :=
  {| apply := apply_setter |}.

Definition handleDelete (id : option string) (s : State) : Prog Setter unit :=
  match blog s with
  | None => Ret tt
  | Some b =>
      ok <- call (WindowConfirm
            ("Are you sure you want to delete " ++ JS.dquote ++ Blog.title b
               ++ JS.dquote ++ "?")) ;;
      if negb ok then Ret tt
      else
        set (setDeleting true) ;;
        r <- call (DeleteBlog id) ;;
        match r with
        | Failure err =>
            set (setError ("Failed to delete blog: " ++ message err)) ;;
            set (setDeleting false)
        | Success _ =>
            call (Navigate "/") ;;
            set (setDeleting false)
        end
  end.

End BlogDetail.


(** ** The list fetcher of [src/lib] and the [BlogList] page *)

(** A number of the client is an IEEE 754 binary64 value.  The handlers
    compute with integers (page numbers, offsets, counts): the result of
    [+], [-], [*] or [/] is the exact result rounded to the nearest value
    with a significand of 53 bits, ties to the even significand.  The
    exponent range is not modelled: a result of magnitude [2 ^ 1024] or
    more, which the code turns into [Infinity], is outside this model, and
    so is a division by 0. *)
Module JSMath.

(** The integer nearest to [num / den], for [0 <= num] and [0 < den]; of
    two nearest integers the even one. *)
Definition nearest_even (num den : Z) : Z :=
  let q := num / den in
  let r := num mod den in
  if 2 * r <? den then q
  else if den <? 2 * r then q + 1
  else if Z.even q then q else q + 1.

(** An integer as a number: below [2 ^ 53] in magnitude it is itself; from
    there on the 53 leading bits are kept, rounded to nearest, ties to even. *)
Definition round (z : Z) : Z :=
  let a := Z.abs z in
  if a <? 2 ^ 53 then z
  else
    let ulp := 2 ^ (Z.log2 a - 52) in
    Z.sgn z * (nearest_even a ulp * ulp).

(** [a + b], [a - b] and [a * b] on integers. *)
Definition add (a b : Z) : Z := round (a + b).
Definition sub (a b : Z) : Z := round (a - b).
Definition mul (a b : Z) : Z := round (a * b).

(** The exponent of [a / b]: the [e] with [2 ^ e <= a / b < 2 ^ (e + 1)],
    for [0 < a] and [0 < b]. *)
Definition binade (a b : Z) : Z :=
  let e := Z.log2 a - Z.log2 b in
  if (if 0 <=? e then a <? b * 2 ^ e else a * 2 ^ (- e) <? b) then e - 1 else e.

(** The number nearest to [a / b], for [0 <= a] and [0 < b]. *)
Definition quotient (a b : Z) : Q :=
  if a =? 0 then 0%Q
  else
    let e := binade a b in
    if e <=? 52 then
      let scale := 2 ^ (52 - e) in
      Qmake (nearest_even (a * scale) b) (Z.to_pos scale)
    else
      let ulp := 2 ^ (e - 52) in
      inject_Z (nearest_even a (b * ulp) * ulp).

(** [a / b] on integers, [b] not 0. *)
Definition div (a b : Z) : Q :=
  let q := quotient (Z.abs a) (Z.abs b) in
  if Z.sgn a * Z.sgn b <? 0 then Qopp q else q.

(** [Math.ceil]: exact on every number. *)
Definition ceil (q : Q) : Z := Qceiling q.

(** [count || 0]. *)
Definition or_zero (count : option Z) : Z :=
  match count with
  | Some n => n
  | None => 0
  end.

End JSMath.

Arguments JSMath.round : simpl never.
Arguments JSMath.add : simpl never.
Arguments JSMath.sub : simpl never.
Arguments JSMath.mul : simpl never.
Arguments JSMath.div : simpl never.

(** How a function of the library ends: it returns or it throws. *)
Inductive Completion (A : Type) : Type :=
| Return (a : A)
| Throw (err : JsError).
Arguments Return {A} a.
Arguments Throw {A} err.

Module Lib.

(** [fetchBlogs(page = 1, limit = 5)]. *)
Definition fetchBlogs {U} (page limit : Z) : Prog U (Completion (list Blog.t)) :=
  let from := JSMath.mul (JSMath.sub page 1) limit in
  let to := JSMath.sub (JSMath.add from limit) 1 in
  r <- call (SelectBlogs
               {| BlogQuery.order_column := "created_at";
                  BlogQuery.ascending := false;
                  BlogQuery.range_from := from;
                  BlogQuery.range_to := to;
                  BlogQuery.or_filter := None |}) ;;
  match r with
  | Failure error => Ret (Throw error)
  | Success data => Ret (Return data)
  end.

Definition default_page : Z := 1.
Definition default_limit : Z := 5.

End Lib.

Module BlogList.

Definition ITEMS_PER_PAGE : Z := 6.

Record State := {
  blogs : list Blog.t;
  loading : bool;
  error : string;
  search : string;
  currentPage : Z;
  totalBlogs : Z;
  totalPages : Z;
  commentCounts : list (string * Z)
}.

Inductive Setter :=
| setBlogs (v : list Blog.t)
| setLoading (v : bool)
| setError (v : string)
| setSearch (v : string)
| setCurrentPage (v : Z)
| setTotalBlogs (v : Z)
| setTotalPages (v : Z)
| setCommentCounts (v : list (string * Z)).

Definition apply_setter (u : Setter) (s : State) : State :=
  match u with
  | setBlogs v =>
      {| blogs := v; loading := loading s; error := error s; search := search s;
         currentPage := currentPage s; totalBlogs := totalBlogs s;
         totalPages := totalPages s; commentCounts := commentCounts s |}
  | setLoading v =>
      {| blogs := blogs s; loading := v; error := error s; search := search s;
         currentPage := currentPage s; totalBlogs := totalBlogs s;
         totalPages := totalPages s; commentCounts := commentCounts s |}
  | setError v =>
      {| blogs := blogs s; loading := loading s; error := v; search := search s;
         currentPage := currentPage s; totalBlogs := totalBlogs s;
         totalPages := totalPages s; commentCounts := commentCounts s |}
  | setSearch v =>
      {| blogs := blogs s; loading := loading s; error := error s; search := v;
         currentPage := currentPage s; totalBlogs := totalBlogs s;
         totalPages := totalPages s; commentCounts := commentCounts s |}
  | setCurrentPage v =>
      {| blogs := blogs s; loading := loading s; error := error s;
         search := search s; currentPage := v; totalBlogs := totalBlogs s;
         totalPages := totalPages s; commentCounts := commentCounts s |}
  | setTotalBlogs v =>
      {| blogs := blogs s; loading := loading s; error := error s;
         search := search s; currentPage := currentPage s; totalBlogs := v;
         totalPages := totalPages s; commentCounts := commentCounts s |}
  | setTotalPages v =>
      {| blogs := blogs s; loading := loading s; error := error s;
         search := search s; currentPage := currentPage s;
         totalBlogs := totalBlogs s; totalPages := v;
         commentCounts := commentCounts s |}
  | setCommentCounts v =>
      {| blogs := blogs s; loading := loading s; error := error s;
         search := search s; currentPage := currentPage s;
         totalBlogs := totalBlogs s; totalPages := totalPages s;
         commentCounts := v |}
  end.

#[global] Instance component : Component Setter State :=
  {| apply := apply_setter |}.

Definition initial : State :=
  {| blogs := []; loading := true; error := ""; search := ""; currentPage := 1;
     totalBlogs := 0; totalPages := 0; commentCounts := [] |}.

Definition fetchTotalCount : Prog Setter unit :=
  r <- call CountBlogs ;;
  match r with
  | Failure err => call (ConsoleError "Error fetching count:" err)
  | Success count =>
      set (setTotalBlogs (JSMath.or_zero count)) ;;
      set (setTotalPages
             (JSMath.ceil (JSMath.div (JSMath.or_zero count) ITEMS_PER_PAGE)))
  end.

(** [totalPages || 1], the number of pages the header of the list shows. *)
Definition pagesShown (s : State) : Z :=
  if totalPages s =? 0 then 1 else totalPages s.

(** The query [fetchBlogs] builds from the page and the search box. *)
Definition blogsQuery (s : State) : BlogQuery.t :=
  let from := JSMath.mul (JSMath.sub (currentPage s) 1) ITEMS_PER_PAGE in
  let to := JSMath.sub (JSMath.add from ITEMS_PER_PAGE) 1 in
  {| BlogQuery.order_column := "created_at";
     BlogQuery.ascending := false;
     BlogQuery.range_from := from;
     BlogQuery.range_to := to;
     BlogQuery.or_filter :=
       if JS.truthy (JS.trim (search s)) then
         Some ("title.ilike.%" ++ search s ++ "%,content.ilike.%"
                 ++ search s ++ "%")
       else None |}.

Definition fetchBlogs (s : State) : Prog Setter unit :=
  let finally := set (setLoading false) in
  set (setLoading true) ;;
  r <- call (SelectBlogs (blogsQuery s)) ;;
  match r with
  | Failure err =>
      set (setError (JS.or_else (message err) "Failed to load blogs")) ;;
      finally
  | Success data =>
      set (setBlogs data) ;;
      finally
  end.

Definition handleDelete (id title : string) (imagePath : option string)
    (s : State) : Prog Setter unit :=
  ok <- call (WindowConfirm
        ("Are you sure you want to delete " ++ JS.dquote ++ title
           ++ JS.dquote ++ "?")) ;;
  if negb ok then Ret tt
  else
    (match imagePath with
     | Some path =>
         if JS.truthy path then
           _ <- call (StorageRemove "blog-images" [path]) ;; Ret tt
         else Ret tt
     | None => Ret tt
     end) ;;
    r <- call (DeleteBlog (Some id)) ;;
    match r with
    | Failure err =>
        call (WindowAlert ("Failed to delete blog: " ++ message err))
    | Success _ =>
        call (Spawn FetchBlogsTask) ;;
        call (Spawn FetchTotalCountTask) ;;
        if ((Z.of_nat (List.length (blogs s)) =? 1) && (1 <? currentPage s))%bool
        then set (setCurrentPage (currentPage s - 1))
        else Ret tt
    end.

End BlogList.

(** ** [src/components/CommentFileUpload.tsx] *)

Module CommentFileUpload.

(** [previews]: an object used as a map from file name to preview URL. *)
Definition Previews : Type := list (string * string).

(** [obj[key] = value]: an existing key keeps its place. *)
Fixpoint assign (key value : string) (obj : Previews) : Previews :=
  match obj with
  | [] => [(key, value)]
  | (k, v) :: rest =>
      if (k =? key)%string then (k, value) :: rest
      else (k, v) :: assign key value rest
  end.

Definition values (obj : Previews) : list string := map snd obj.

Record State := {
  uploading : bool;
  error : string;
  uploadedFiles : list UploadedFile.t;
  previews : Previews
}.

Inductive Setter :=
| setUploading (v : bool)
| setError (v : string)
| setUploadedFiles (v : list UploadedFile.t)
| setPreviews (v : Previews).

Definition apply_setter (u : Setter) (s : State) : State :=
  match u with
  | setUploading v =>
      {| uploading := v; error := error s; uploadedFiles := uploadedFiles s;
         previews := previews s |}
  | setError v =>
      {| uploading := uploading s; error := v;
         uploadedFiles := uploadedFiles s; previews := previews s |}
  | setUploadedFiles v =>
      {| uploading := uploading s; error := error s; uploadedFiles := v;
         previews := previews s |}
  | setPreviews v =>
      {| uploading := uploading s; error := error s;
         uploadedFiles := uploadedFiles s; previews := v |}
  end.

#[global] Instance component : Component Setter State :=
  {| apply := apply_setter |}.

Definition initial : State :=
  {| uploading := false; error := ""; uploadedFiles := []; previews := [] |}.

Definition maxSize : Z := 10 * 1024 * 1024.

(** The body of the [for] loop of [onDrop]: the two accumulators go in and
    come out, with the thrown error when the loop was left by a [throw]. *)
Fixpoint uploadEach (files : list File.t) (uploadedResults : list UploadedFile.t)
    (newPreviews : Previews)
    : Prog Setter (option JsError * list UploadedFile.t * Previews) :=
  match files with
  | [] => Ret (None, uploadedResults, newPreviews)
  | file :: rest =>
      if (maxSize <? File.size file) then
        Ret (Some {| message := JS.dquote ++ File.name file ++ JS.dquote
                                  ++ " exceeds 10MB limit" |},
             uploadedResults, newPreviews)
      else
        newPreviews' <-
          (if JS.startsWith (File.type file) "image/" then
             previewUrl <- call (CreateObjectURL file) ;;
             Ret (assign (File.name file) previewUrl newPreviews)
           else Ret newPreviews) ;;
        let fileExt := JS.pop (JS.split "." (File.name file)) in
        now <- call DateNow ;;
        rnd <- call MathRandomBase36 ;;
        let fileName := JS.number_to_string now ++ "_" ++ rnd ++ "." ++ fileExt in
        let filePath := "comment-files/" ++ fileName in
        r <- call (StorageUpload "comment-files" filePath file) ;;
        match r with
        | Failure uploadError => Ret (Some uploadError, uploadedResults, newPreviews')
        | Success _ =>
            publicUrl <- call (StorageGetPublicUrl "comment-files" filePath) ;;
            uploadEach rest
              (uploadedResults ++
                 [{| UploadedFile.url := publicUrl;
                     UploadedFile.path := filePath;
                     UploadedFile.file := file |}])%list
              newPreviews'
        end
  end.

Definition onDrop (acceptedFiles : list File.t) (s : State) : Prog Setter unit :=
  if (Z.of_nat (List.length acceptedFiles) =? 0) then Ret tt
  else
    set (setUploading true) ;;
    set (setError "") ;;
    looped <- uploadEach acceptedFiles [] (previews s) ;;
    (match looped with
     | (None, uploadedResults, newPreviews) =>
         let allUploadedFiles := (uploadedFiles s ++ uploadedResults)%list in
         set (setUploadedFiles allUploadedFiles) ;;
         set (setPreviews newPreviews) ;;
         call (OnFilesUpload allUploadedFiles)
     | (Some err, _, newPreviews) =>
         set (setError (JS.or_else (message err) "Failed to upload files")) ;;
         _ <- mapM (fun url => call (RevokeObjectURL url)) (values newPreviews) ;;
         Ret tt
     end) ;;
    set (setUploading false).

End CommentFileUpload.

(** ** [src/components/ImageUpload.tsx] *)

Module ImageUpload.

Record State := {
  uploading : bool;
  error : string;
  preview : string
}.

Inductive Setter :=
| setUploading (v : bool)
| setError (v : string)
| setPreview (v : string).

Definition apply_setter (u : Setter) (s : State) : State :=
  match u with
  | setUploading v => {| uploading := v; error := error s; preview := preview s |}
  | setError v => {| uploading := uploading s; error := v; preview := preview s |}
  | setPreview v => {| uploading := uploading s; error := error s; preview := v |}
  end.

#[global] Instance component : Component Setter State :=
  {| apply := apply_setter |}.

Definition maxImageSize : Z := 5 * 1024 * 1024.

Definition onDrop (currentImage : option string) (acceptedFiles : list File.t)
    : Prog Setter unit :=
  match acceptedFiles with
  | [] => Ret tt
  | file :: _ =>
      if negb (JS.startsWith (File.type file) "image/") then
        set (setError "Please upload an image file (JPEG, PNG, GIF, etc.)")
      else if (maxImageSize <? File.size file) then
        set (setError "Image size must be less than 5MB")
      else
        set (setUploading true) ;;
        set (setError "") ;;
        previewUrl <- call (CreateObjectURL file) ;;
        set (setPreview previewUrl) ;;
        let fileExt := JS.pop (JS.split "." (File.name file)) in
        now <- call DateNow ;;
        rnd <- call MathRandomBase36 ;;
        let fileName := JS.number_to_string now ++ "_" ++ rnd ++ "." ++ fileExt in
        let filePath := "blog-images/" ++ fileName in
        r <- call (StorageUpload "blog-images" filePath file) ;;
        match r with
        | Failure uploadError =>
            set (setError (JS.or_else (message uploadError)
                             "Failed to upload image")) ;;
            set (setPreview (JS.opt_or_else currentImage "")) ;;
            set (setUploading false)
        | Success _ =>
            publicUrl <- call (StorageGetPublicUrl "blog-images" filePath) ;;
            call (OnImageUpload publicUrl filePath) ;;
            set (setUploading false)
        end
  end.

End ImageUpload.


(** ** A reference store

    The hosted backend is outside the repository.  Where a statement is
    about rows rather than about the calls a handler makes, the calls are
    answered by this store: three tables, a bucket listing, and the
    answers of the person at the browser.  [faults] says, call by call,
    which remote calls fail; [confirms] holds the answers to the prompts. *)

Module Store.

Record t := {
  blogs : list Blog.t;
  comments : list CommentRow.t;
  attachments : list FileAttachment.t;
  objects : list (string * string);
  next_id : Z;
  now_ms : Z;
  now_iso : string;
  faults : list bool;
  confirms : list bool
}.

Definition with_blogs (v : list Blog.t) (w : t) : t :=
  {| blogs := v; comments := comments w; attachments := attachments w;
     objects := objects w; next_id := next_id w; now_ms := now_ms w;
     now_iso := now_iso w; faults := faults w; confirms := confirms w |}.

Definition with_comments (v : list CommentRow.t) (w : t) : t :=
  {| blogs := blogs w; comments := v; attachments := attachments w;
     objects := objects w; next_id := next_id w; now_ms := now_ms w;
     now_iso := now_iso w; faults := faults w; confirms := confirms w |}.

Definition with_attachments (v : list FileAttachment.t) (w : t) : t :=
  {| blogs := blogs w; comments := comments w; attachments := v;
     objects := objects w; next_id := next_id w; now_ms := now_ms w;
     now_iso := now_iso w; faults := faults w; confirms := confirms w |}.

Definition with_objects (v : list (string * string)) (w : t) : t :=
  {| blogs := blogs w; comments := comments w; attachments := attachments w;
     objects := v; next_id := next_id w; now_ms := now_ms w;
     now_iso := now_iso w; faults := faults w; confirms := confirms w |}.

Definition with_next_id (v : Z) (w : t) : t :=
  {| blogs := blogs w; comments := comments w; attachments := attachments w;
     objects := objects w; next_id := v; now_ms := now_ms w;
     now_iso := now_iso w; faults := faults w; confirms := confirms w |}.

Definition with_faults (v : list bool) (w : t) : t :=
  {| blogs := blogs w; comments := comments w; attachments := attachments w;
     objects := objects w; next_id := next_id w; now_ms := now_ms w;
     now_iso := now_iso w; faults := v; confirms := confirms w |}.

Definition with_confirms (v : list bool) (w : t) : t :=
  {| blogs := blogs w; comments := comments w; attachments := attachments w;
     objects := objects w; next_id := next_id w; now_ms := now_ms w;
     now_iso := now_iso w; faults := faults w; confirms := v |}.

(** [order(column, {ascending: false})] on a text of ISO timestamps: newest
    first, rows of equal time in table order. *)
Fixpoint insert_desc {A} (key : A -> string) (x : A) (l : list A) : list A :=
  match l with
  | [] => [x]
  | y :: rest =>
      if String.leb (key y) (key x) then x :: y :: rest
      else y :: insert_desc key x rest
  end.

Definition order_desc {A} (key : A -> string) (l : list A) : list A :=
  fold_right (insert_desc key) [] l.

(** [range(from, to)]: rows [from] to [to] of the ordered result, both
    included; a range past the end holds no row. *)
Definition window {A} (from to : Z) (rows : list A) : list A :=
  firstn (Z.to_nat (to - from + 1)) (skipn (Z.to_nat from) rows).

Definition opt_eqb (a : option string) (b : string) : bool :=
  match a with
  | Some s => (s =? b)%string
  | None => false
  end.

Definition remote_failure : JsError := {| message := "remote call failed" |}.

Section Semantics.

(** How the backend reads an [or(...)] filter text against a row. *)
Variable matches_or : string -> Blog.t -> bool.

(** The rows a list query on [blogs] ranges over: filtered, then ordered. *)
Definition ordered_blogs (q : BlogQuery.t) (w : t) : list Blog.t :=
  let kept :=
    match BlogQuery.or_filter q with
    | Some f => filter (matches_or f) (blogs w)
    | None => blogs w
    end in
  if (BlogQuery.order_column q =? "created_at")%string then
    if BlogQuery.ascending q then rev (order_desc Blog.created_at kept)
    else order_desc Blog.created_at kept
  else kept.

Definition select_blogs (q : BlogQuery.t) (w : t) : list Blog.t :=
  window (BlogQuery.range_from q) (BlogQuery.range_to q) (ordered_blogs q w).

Definition select_comments (blog_id : string) (w : t) : list CommentRow.t :=
  order_desc CommentRow.created_at
    (filter (fun c => (CommentRow.blog_id c =? blog_id)%string) (comments w)).

Definition select_attachments (comment_id : string) (w : t)
    : list FileAttachment.t :=
  filter (fun a => opt_eqb (FileAttachment.comment_id a) comment_id)
    (attachments w).

Definition new_comment (row : CommentInsert.t) (w : t) : CommentRow.t :=
  {| CommentRow.id := JS.number_to_string (next_id w);
     CommentRow.blog_id := CommentInsert.blog_id row;
     CommentRow.author_id := CommentInsert.author_id row;
     CommentRow.author_email := CommentInsert.author_email row;
     CommentRow.content := CommentInsert.content row;
     CommentRow.created_at := now_iso w;
     CommentRow.updated_at := now_iso w |}.

Definition new_blog (row : BlogInsert.t) (w : t) : Blog.t :=
  {| Blog.id := JS.number_to_string (next_id w);
     Blog.title := BlogInsert.title row;
     Blog.content := BlogInsert.content row;
     Blog.author_id := BlogInsert.author_id row;
     Blog.author_email := BlogInsert.author_email row;
     Blog.image_url := Some (BlogInsert.image_url row);
     Blog.image_path := Some (BlogInsert.image_path row);
     Blog.created_at := BlogInsert.created_at row;
     Blog.updated_at := BlogInsert.updated_at row |}.

Definition patch_blog (patch : BlogUpdate.t) (b : Blog.t) : Blog.t :=
  {| Blog.id := Blog.id b;
     Blog.title := BlogUpdate.title patch;
     Blog.content := BlogUpdate.content patch;
     Blog.author_id := Blog.author_id b;
     Blog.author_email := BlogUpdate.author_email patch;
     Blog.image_url := Some (BlogUpdate.image_url patch);
     Blog.image_path := Some (BlogUpdate.image_path patch);
     Blog.created_at := Blog.created_at b;
     Blog.updated_at := BlogUpdate.updated_at patch |}.

Definition object_eqb (a b : string * string) : bool :=
  ((fst a =? fst b)%string && (snd a =? snd b)%string)%bool.

(** The answer to a call that does not fail. *)
Definition serve {X} (e : Eff X) : t -> X * t :=
  match e in Eff X return t -> X * t with
  | SelectBlogs q => fun w => (Success (select_blogs q w), w)
  | CountBlogs => fun w => (Success (Some (Z.of_nat (List.length (blogs w)))), w)
  | SelectBlogById id => fun w =>
      match find (fun b => opt_eqb id (Blog.id b)) (blogs w) with
      | Some b => (Success b, w)
      | None => (Failure {| message := "no row" |}, w)
      end
  | InsertBlog row => fun w =>
      let b := new_blog row w in
      (Success [b], with_next_id (next_id w + 1) (with_blogs (blogs w ++ [b]) w))
  | UpdateBlog id patch => fun w =>
      (Success tt,
       with_blogs
         (map (fun b => if opt_eqb id (Blog.id b) then patch_blog patch b else b)
            (blogs w)) w)
  | DeleteBlog id => fun w =>
      (Success tt,
       with_blogs (filter (fun b => negb (opt_eqb id (Blog.id b))) (blogs w)) w)
  | SelectComments blog_id => fun w => (Success (select_comments blog_id w), w)
  | InsertComment row => fun w =>
      let c := new_comment row w in
      (Success c,
       with_next_id (next_id w + 1) (with_comments (comments w ++ [c]) w))
  | DeleteComment id author_id => fun w =>
      let hit (c : CommentRow.t) :=
        ((CommentRow.id c =? id)%string
         && opt_eqb author_id (CommentRow.author_id c))%bool in
      if existsb hit (comments w) then
        (Success tt,
         with_attachments
           (filter (fun a => negb (opt_eqb (FileAttachment.comment_id a) id))
              (attachments w))
           (with_comments (filter (fun c => negb (hit c)) (comments w)) w))
      else (Success tt, w)
  | SelectAttachments comment_id => fun w =>
      (Success (select_attachments comment_id w), w)
  | InsertAttachments rows => fun w =>
      (Success tt, with_attachments (attachments w ++ rows) w)
  | StorageUpload bucket path _ => fun w =>
      if existsb (object_eqb (bucket, path)) (objects w) then
        (Failure {| message := "The resource already exists" |}, w)
      else (Success tt, with_objects (objects w ++ [(bucket, path)]) w)
  | StorageGetPublicUrl bucket path => fun w =>
      ("https://storage.example/" ++ bucket ++ "/" ++ path, w)
  | StorageRemove bucket paths => fun w =>
      (Success tt,
       with_objects
         (filter (fun o => negb (existsb (fun p => object_eqb (bucket, p) o) paths))
            (objects w)) w)
  | WindowConfirm _ => fun w =>
      match confirms w with
      | yes :: rest => (yes, with_confirms rest w)
      | [] => (false, w)
      end
  | WindowAlert _ => fun w => (tt, w)
  | ConsoleError _ _ => fun w => (tt, w)
  | ConsoleLog _ => fun w => (tt, w)
  | Navigate _ => fun w => (tt, w)
  | SetTimeout _ _ => fun w => (tt, w)
  | PreventDefault => fun w => (tt, w)
  | DateNow => fun w => (now_ms w, w)
  | DateToISOString => fun w => (now_iso w, w)
  | MathRandomBase36 => fun w => ("k3v9x0q1z", w)
  | CreateObjectURL file => fun w => ("blob:" ++ File.name file, w)
  | RevokeObjectURL _ => fun w => (tt, w)
  | Spawn _ => fun w => (tt, w)
  | OnFilesUpload _ => fun w => (tt, w)
  | OnImageUpload _ _ => fun w => (tt, w)
  end.

(** The failing answer of a remote call. *)
Definition refuse {X} (e : Eff X) : option X :=
  match e in Eff X return option X with
  | SelectBlogs _ => Some (Failure remote_failure)
  | CountBlogs => Some (Failure remote_failure)
  | SelectBlogById _ => Some (Failure remote_failure)
  | InsertBlog _ => Some (Failure remote_failure)
  | UpdateBlog _ _ => Some (Failure remote_failure)
  | DeleteBlog _ => Some (Failure remote_failure)
  | SelectComments _ => Some (Failure remote_failure)
  | InsertComment _ => Some (Failure remote_failure)
  | DeleteComment _ _ => Some (Failure remote_failure)
  | SelectAttachments _ => Some (Failure remote_failure)
  | InsertAttachments _ => Some (Failure remote_failure)
  | StorageUpload _ _ _ => Some (Failure remote_failure)
  | StorageRemove _ _ => Some (Failure remote_failure)
  | _ => None
  end.

(** The store as an environment: a remote call takes the next entry of
    [faults] and fails, leaving the rows alone, when the entry says so. *)
Definition env : Env t :=
  fun X e w =>
    match refuse e, faults w with
    | Some failed, true :: rest => (failed, with_faults rest w)
    | Some _, false :: rest => serve e (with_faults rest w)
    | _, _ => serve e w
    end.

End Semantics.

Definition empty : t :=
  {| blogs := []; comments := []; attachments := []; objects := [];
     next_id := 1; now_ms := 0; now_iso := "2024-01-01T00:00:00.000Z";
     faults := []; confirms := [] |}.

End Store.

(** ** The event loop around a view

    A view's handlers run one at a time and stop at each [await]; the
    answer to an awaited call arrives later, and other tasks run in
    between.  A task is [Waiting] from the moment its call is sent until
    the backend has answered it, [Ready] while the answer travels, and
    runs on, up to its next [await], when it is resumed. *)

Module Async.

Section Loop.

Context {U St W : Type} `{Component U St}.

Variable h : Env W.

(** What a change notification (and the opening of the view) starts. *)
Variable on_notify : Prog U unit.

Inductive TaskState : Type :=
| Waiting {X : Type} (e : Eff X) (k : X -> Prog U unit)
| Ready (p : Prog U unit)
| Done.

(** Run a task up to its next awaited call; calls that are not awaited
    are answered on the spot. *)
Fixpoint advance (p : Prog U unit) (st : St) (w : W) : TaskState * St * W :=
  match p with
  | Ret _ => (Done, st, w)
  | Upd u k => advance k (apply u st) w
  | Vis e k =>
      if is_remote e then (Waiting e k, st, w)
      else let (x, w') := @h _ e w in advance (k x) st w'
  end.

Record Loop := {
  view : St;
  pool : list TaskState;
  store : W
}.

Inductive Tick : Type :=
| Notify
| Serve (i : nat)
| Resume (i : nat)
| External (f : W -> W).

Fixpoint put (i : nat) (t : TaskState) (l : list TaskState) : list TaskState :=
  match l, i with
  | [], _ => []
  | _ :: rest, O => t :: rest
  | x :: rest, S j => x :: put j t rest
  end.

Definition step (s : Loop) (t : Tick) : Loop :=
  match t with
  | Notify =>
      let '(task, st, w) := advance on_notify (view s) (store s) in
      {| view := st; pool := pool s ++ [task]; store := w |}
  | Serve i =>
      match nth_error (pool s) i with
      | Some (Waiting e k) =>
          let (x, w') := @h _ e (store s) in
          {| view := view s; pool := put i (Ready (k x)) (pool s); store := w' |}
      | _ => s
      end
  | Resume i =>
      match nth_error (pool s) i with
      | Some (Ready p) =>
          let '(task, st, w) := advance p (view s) (store s) in
          {| view := st; pool := put i task (pool s); store := w |}
      | _ => s
      end
  | External f =>
      {| view := view s; pool := pool s; store := f (store s) |}
  end.

Definition play (s : Loop) (ts : list Tick) : Loop := fold_left step ts s.

Definition is_done (t : TaskState) : bool :=
  match t with
  | Done => true
  | _ => false
  end.

(** Every task of the pool has run to its end. *)
Definition settled (s : Loop) : bool := forallb is_done (pool s).

End Loop.

End Async.


(** * The vocabulary of the statements *)

(** ** Pages and joins (C1, C2, C3, C9) *)

(** A library function keeps no component state. *)
#[global] Instance stateless : Component Empty_set unit :=
  {| apply := fun _ s => s |}.

(** The query both list fetchers send for a page. *)
Definition page_query (page size : Z) (filter : option string) : BlogQuery.t :=
  {| BlogQuery.order_column := "created_at";
     BlogQuery.ascending := false;
     BlogQuery.range_from := (page - 1) * size;
     BlogQuery.range_to := (page - 1) * size + size - 1;
     BlogQuery.or_filter := filter |}.

(** The list queries a trace sends. *)
Definition queried {U} (t : list (Event U)) : list BlogQuery.t :=
  flat_map
    (fun ev =>
       match ev with
       | Called e _ =>
           match e with
           | SelectBlogs q => [q]
           | _ => []
           end
       | Updated _ => []
       end) t.

(** The window read literally from the specification: for every page and
    size from 1 on, the library fetcher asks for the rows [(page-1)*size]
    to [(page-1)*size + size - 1]. *)
Definition C1_as_stated : Prop :=
  forall (page size : Z) W (h : Env W) (w : W),
    1 <= page -> 1 <= size ->
    queried (trace (run h (Lib.fetchBlogs (U := Empty_set) page size) tt w))
    = [page_query page size None].

(** [ceil (n / d)], computed exactly. *)
Definition exact_ceil (n d : Z) : Z := Qceiling (inject_Z n / inject_Z d).

(** The page count read literally from the specification: for every
    number [N] of rows the page reports [ceil (N / 6)] pages. *)
Definition C7_as_stated : Prop :=
  forall (N : Z) W (h : Env W) (w w' : W) (st : BlogList.State),
    0 <= N ->
    h _ CountBlogs w = (Success (Some N), w') ->
    BlogList.pagesShown (state (run h BlogList.fetchTotalCount st w))
    = exact_ceil N BlogList.ITEMS_PER_PAGE.

(** Newest first: [a] may stand before [b]. *)
Definition newer_first {A} (key : A -> string) (a b : A) : Prop :=
  String.leb (key b) (key a) = true.

(** A comment row with the answer to its lookup merged on: the rows of a
    successful lookup as they came, nothing for a failed one. *)
Definition merged (cr : CommentRow.t * PostgrestResponse (list FileAttachment.t))
    : Comment.t :=
  {| Comment.row := fst cr;
     Comment.attachments :=
       match snd cr with
       | Success rows => rows
       | Failure _ => []
       end |}.

(** The lookup sent for a comment row, with its answer. *)
Definition lookup (cr : CommentRow.t * PostgrestResponse (list FileAttachment.t))
    : Event Comments.Setter :=
  Called (SelectAttachments (CommentRow.id (fst cr))) (snd cr).

(** The row [handleSubmit] inserts for a user. *)
Definition commentRow (u : User.t) (blogId : string) (s : Comments.State)
    : CommentInsert.t :=
  {| CommentInsert.blog_id := blogId;
     CommentInsert.author_id := User.id u;
     CommentInsert.author_email := User.email u;
     CommentInsert.content := JS.trim (Comments.content s) |}.

(** A remote write of [handleSubmit], and whether it failed. *)
Definition is_write {U} (ev : Event U) : bool :=
  match ev with
  | Called e _ =>
      match e with
      | InsertComment _ | InsertAttachments _ => true
      | _ => false
      end
  | Updated _ => false
  end.

Definition is_failed_write {U} (ev : Event U) : bool :=
  match ev with
  | Called e x =>
      match e in Eff X return X -> bool with
      | InsertComment _ =>
          fun r => match r with Failure _ => true | Success _ => false end
      | InsertAttachments _ =>
          fun r => match r with Failure _ => true | Success _ => false end
      | _ => fun _ => false
      end x
  | Updated _ => false
  end.

(** ** Sample data *)

Module Sample.

Definition alice : User.t := {| User.id := "alice"; User.email := Some "alice@example.org" |}.
Definition bob : User.t := {| User.id := "bob"; User.email := Some "bob@example.org" |}.

Definition row1 : CommentRow.t :=
  {| CommentRow.id := "c1"; CommentRow.blog_id := "b1";
     CommentRow.author_id := "alice";
     CommentRow.author_email := Some "alice@example.org";
     CommentRow.content := "first";
     CommentRow.created_at := "2024-01-01T10:00:00.000Z";
     CommentRow.updated_at := "2024-01-01T10:00:00.000Z" |}.

Definition row2 : CommentRow.t :=
  {| CommentRow.id := "c2"; CommentRow.blog_id := "b1";
     CommentRow.author_id := "bob";
     CommentRow.author_email := Some "bob@example.org";
     CommentRow.content := "second";
     CommentRow.created_at := "2024-01-02T10:00:00.000Z";
     CommentRow.updated_at := "2024-01-02T10:00:00.000Z" |}.

Definition picture : FileAttachment.t :=
  {| FileAttachment.id := Some "a1";
     FileAttachment.file_url := "https://storage.example/comment-files/a.png";
     FileAttachment.file_name := "a.png";
     FileAttachment.file_type := "image/png";
     FileAttachment.file_size := Some 2048;
     FileAttachment.comment_id := Some "c1";
     FileAttachment.uploaded_at := Some "2024-01-01T10:00:01.000Z" |}.

Definition comment1 : Comment.t :=
  {| Comment.row := row1; Comment.attachments := [picture] |}.

Definition post1 : Blog.t :=
  {| Blog.id := "b1"; Blog.title := "Hello"; Blog.content := "World";
     Blog.author_id := "alice"; Blog.author_email := Some "alice@example.org";
     Blog.image_url := None; Blog.image_path := None;
     Blog.created_at := "2024-01-01T09:00:00.000Z";
     Blog.updated_at := "2024-01-01T09:00:00.000Z" |}.

(** A store with one post, one comment on it and the comment's picture;
    the person at the browser says yes once. *)
Definition store1 : Store.t :=
  {| Store.blogs := [post1]; Store.comments := [row1];
     Store.attachments := [picture];
     Store.objects := [("comment-files", "comment-files/a.png")];
     Store.next_id := 2; Store.now_ms := 1704103200000;
     Store.now_iso := "2024-01-03T10:00:00.000Z";
     Store.faults := []; Store.confirms := [true] |}.

Definition no_filter (_ : string) (_ : Blog.t) : bool := true.

(** The comment form with a text typed in and one staged file. *)
Definition staged : UploadedFile.t :=
  {| UploadedFile.url := "https://storage.example/comment-files/n.pdf";
     UploadedFile.path := "comment-files/n.pdf";
     UploadedFile.file :=
       {| File.name := "notes.pdf"; File.type := "application/pdf";
          File.size := 4096 |} |}.

Definition typing : Comments.State :=
  {| Comments.comments := []; Comments.loading := false;
     Comments.submitting := false; Comments.error := "";
     Comments.content := " nice post "; Comments.uploadedFiles := [staged];
     Comments.editingCommentId := None; Comments.editContent := "" |}.

Definition small_file : File.t :=
  {| File.name := "a.png"; File.type := "image/png"; File.size := 2048 |}.

Definition huge_file : File.t :=
  {| File.name := "movie.zip"; File.type := "application/zip";
     File.size := 10 * 1024 * 1024 + 1 |}.

(** The sample store with twenty posts. *)
Definition twenty : Store.t := Store.with_blogs (repeat post1 20) store1.

(** The post form with a title and a body typed in. *)
Definition draft : CreateBlog.State :=
  {| CreateBlog.title := "A title"; CreateBlog.content := "A body";
     CreateBlog.imageUrl := ""; CreateBlog.imagePath := "";
     CreateBlog.loading := false; CreateBlog.error := "" |}.

End Sample.

(** ** Deleting (C4) *)

Definition is_storage_remove {U} (ev : Event U) : bool :=
  match ev with
  | Called e _ => match e with StorageRemove _ _ => true | _ => false end
  | Updated _ => false
  end.

Definition is_row_delete {U} (ev : Event U) : bool :=
  match ev with
  | Called e _ =>
      match e with
      | DeleteBlog _ | DeleteComment _ _ => true
      | _ => false
      end
  | Updated _ => false
  end.

(** A storage removal is sent, and the row delete is sent after it. *)
Fixpoint files_removed_first {U} (t : list (Event U)) : bool :=
  match t with
  | [] => false
  | ev :: rest =>
      if is_storage_remove ev then existsb is_row_delete rest
      else if is_row_delete ev then false
      else files_removed_first rest
  end.

(** The order of the two deletes as the specification has it, on the two
    handlers it describes: once the prompt is confirmed, an entity that has a
    stored file has the file removed before its row is deleted. *)
Definition C4_as_stated : Prop :=
  (forall W (h : Env W) id (s st : EditBlog.State) (w : W),
      fst (h _ (WindowConfirm
          "Are you sure you want to delete this blog? This action cannot be undone.") w)
      = true ->
      JS.truthy (EditBlog.imagePath s) = true ->
      files_removed_first (trace (run h (EditBlog.handleDelete id s) st w)) = true)
  /\ (forall W (h : Env W) user comment (st : Comments.State) (w : W),
         fst (h _ (WindowConfirm "Are you sure you want to delete this comment?") w)
         = true ->
         Comments.filePathsOf comment <> [] ->
         files_removed_first
           (trace (run h (Comments.handleDelete user comment) st w)) = true).

(** ** Editing (C5) *)

Definition is_update {U} (ev : Event U) : bool :=
  match ev with
  | Called e _ => match e with UpdateBlog _ _ => true | _ => false end
  | Updated _ => false
  end.

(** A visit of the edit page: the page opens, the visitor types a title and
    a body, and submits.  Each handler sees the state the one before left. *)
Definition edit_visit {W} (h : Env W) (id : option string)
    (user : option User.t) (typedTitle typedContent : string) (w : W)
    : list (Event EditBlog.Setter) :=
  let opened := run h (EditBlog.onMount id user) EditBlog.initial w in
  let typed :=
    run h (EditBlog.onTitleChange typedTitle ;;
           EditBlog.onContentChange typedContent)
      (state opened) (world opened) in
  let submitted :=
    run h (EditBlog.handleSubmit id user (state typed))
      (state typed) (world typed) in
  trace opened ++ trace typed ++ trace submitted.

(** The specification read literally: a visitor who is not the author of
    the loaded post never causes an update call. *)
Definition C5_as_stated : Prop :=
  forall W (h : Env W) (id : string) (user : option User.t)
         (typedTitle typedContent : string) (w w' : W) (data : Blog.t),
    h _ (SelectBlogById (Some id)) w = (Success data, w') ->
    option_map User.id user <> Some (Blog.author_id data) ->
    existsb is_update (edit_visit h (Some id) user typedTitle typedContent w)
    = false.

(** The patch [handleSubmit] sends. *)
Definition patchOf (u : User.t) (s : EditBlog.State) (updated : string)
    : BlogUpdate.t :=
  {| BlogUpdate.title := JS.trim (EditBlog.title s);
     BlogUpdate.content := JS.trim (EditBlog.content s);
     BlogUpdate.author_email := User.email u;
     BlogUpdate.image_url := EditBlog.imageUrl s;
     BlogUpdate.image_path := EditBlog.imagePath s;
     BlogUpdate.updated_at := updated |}.

(** ** Creating (C6) *)

Definition is_confirmation {U} (ev : Event U) : bool :=
  match ev with
  | Called e _ => match e with WindowAlert _ => true | _ => false end
  | Updated _ => false
  end.

Definition is_navigation {U} (ev : Event U) : bool :=
  match ev with
  | Called e _ =>
      match e with
      | Navigate _ | SetTimeout (NavigateTo _) _ => true
      | _ => false
      end
  | Updated _ => false
  end.

(** The insert of a post that succeeded. *)
Definition is_created {U} (ev : Event U) : bool :=
  match ev with
  | Called e x =>
      match e in Eff X return X -> bool with
      | InsertBlog _ =>
          fun r => match r with Success _ => true | Failure _ => false end
      | _ => fun _ => false
      end x
  | Updated _ => false
  end.

(** A confirmation is shown, and the navigation comes after it. *)
Fixpoint confirmed_before_leaving {U} (t : list (Event U)) : bool :=
  match t with
  | [] => false
  | ev :: rest =>
      if is_confirmation ev then existsb is_navigation rest
      else if is_navigation ev then false
      else confirmed_before_leaving rest
  end.

(** The specification read literally, on the post form: when the insert
    has succeeded the confirmation precedes the navigation. *)
Definition C6_as_stated : Prop :=
  forall W (h : Env W) (user : option User.t) (s st : CreateBlog.State) (w : W),
    let t := trace (run h (CreateBlog.handleSubmit user s) st w) in
    existsb is_created t = true ->
    confirmed_before_leaving t = true.

(** The row the post form inserts. *)
Definition blogRow (u : User.t) (s : CreateBlog.State) (created updated : string)
    : BlogInsert.t :=
  {| BlogInsert.title := JS.trim (CreateBlog.title s);
     BlogInsert.content := JS.trim (CreateBlog.content s);
     BlogInsert.author_id := User.id u;
     BlogInsert.author_email := User.email u;
     BlogInsert.image_url := CreateBlog.imageUrl s;
     BlogInsert.image_path := CreateBlog.imagePath s;
     BlogInsert.created_at := created;
     BlogInsert.updated_at := updated |}.

(** ** Uploading (C10) *)

(** The files a trace sends to object storage. *)
Definition uploaded {U} (t : list (Event U)) : list File.t :=
  flat_map
    (fun ev =>
       match ev with
       | Called e _ =>
           match e with
           | StorageUpload _ _ file => [file]
           | _ => []
           end
       | Updated _ => []
       end) t.

Definition is_files_callback {U} (ev : Event U) : bool :=
  match ev with
  | Called e _ => match e with OnFilesUpload _ => true | _ => false end
  | Updated _ => false
  end.

Definition within_comment_limit (f : File.t) : Prop :=
  File.size f <= 10 * 1024 * 1024.


Definition staged_within_limit (u : UploadedFile.t) : Prop :=
  within_comment_limit (UploadedFile.file u).

(** ** What a task still has to write

    Under a backend whose answers are given by [ans], a program can be
    followed without running it: [writes] lists the values it will give to
    the watched part of the view, in order. *)

Section Watch.

Context {U V : Type}.

(** The answers of a quiet backend, and the setter calls under watch. *)
Variable ans : forall X, Eff X -> X.
Variable watch : U -> option V.

Definition written (u : U) : list V :=
  match watch u with
  | Some v => [v]
  | None => []
  end.

Fixpoint writes {A} (p : Prog U A) : list V :=
  match p with
  | Ret _ => []
  | Upd u k => (written u ++ writes k)%list
  | Vis e k => writes (k (@ans _ e))
  end.

(** What a program returns when the quiet backend answers it. *)
Fixpoint value {A} (p : Prog U A) : A :=
  match p with
  | Ret a => a
  | Upd _ k => value k
  | Vis e k => value (k (@ans _ e))
  end.

Definition task_writes (t : @Async.TaskState U) : list V :=
  match t with
  | Async.Waiting e k => writes (k (@ans _ e))
  | Async.Ready p => writes p
  | Async.Done => []
  end.

(** What a notification starts, and the one value it ever writes. *)
Variable on_notify : Prog U unit.
Variable J : V.

Definition only_J (t : @Async.TaskState U) : Prop :=
  forall v, In v (task_writes t) -> v = J.

Definition untouched (t : @Async.TaskState U) : Prop :=
  task_writes t = writes on_notify.

Context {St W : Type}.

(** The watched part of the view, and the view the first fetch finds. *)
Variable shown : St -> V.
Variable st0 : St.

(** Either the view shows [J] already, or no task has written yet. *)
Definition inv (s : @Async.Loop U St W) : Prop :=
  Forall only_J (Async.pool s)
  /\ ((shown (Async.view s) = J /\ (writes on_notify <> [] \/ shown st0 = J))
      \/ (shown (Async.view s) = shown st0 /\ Forall untouched (Async.pool s))).

End Watch.

(** ** Bursts of notifications (C8) *)

Definition watchComments (u : Comments.Setter) : option (list Comment.t) :=
  match u with
  | Comments.setComments v => Some v
  | _ => None
  end.

Fixpoint notifications {W} (ticks : list (@Async.Tick W)) : nat :=
  match ticks with
  | [] => O
  | Async.Notify :: rest => S (notifications rest)
  | _ :: rest => notifications rest
  end.

(** The specification read literally: whatever the backend does during
    the burst and in whatever order the fetches end, once all have ended
    the view shows what a fresh fetch would show. *)
Definition C8_as_stated : Prop :=
  forall (w0 : Store.t) (ticks : list (@Async.Tick Store.t)),
    let env := Store.env Sample.no_filter in
    let fetch := Comments.fetchComments "b1" in
    let s := Async.play env fetch
               {| Async.view := Comments.initial; Async.pool := [];
                  Async.store := w0 |} ticks in
    Async.settled s = true ->
    Async.pool s <> [] ->
    Comments.comments (Async.view s) =
    Comments.comments (state (run env fetch Comments.initial (Async.store s))).

(** The view opens and its fetch reads the one comment there is; a second
    comment arrives and its notification starts a second fetch, which ends
    first; the first fetch ends last and puts the older list back. *)
Definition overtaken : list (@Async.Tick Store.t) :=
  [Async.Notify; Async.Serve 0;
   Async.External (Store.with_comments [Sample.row1; Sample.row2]);
   Async.Notify; Async.Serve 1; Async.Resume 1; Async.Serve 1; Async.Resume 1;
   Async.Serve 1; Async.Resume 1;
   Async.Resume 0; Async.Serve 0; Async.Resume 0].

(** A store that stays as it is, and two notifications against it, the
    second fetch answered before the first. *)
Definition quiet_store : Env unit :=
  fun X e w => (fst (Store.serve Sample.no_filter e Sample.store1), w).

(** A backend whose table of posts holds [n] rows: the count query
    answers [n]. *)
Definition counting (n : Z) : Env unit :=
  fun X e w =>
    match e in Eff X return X * unit with
    | CountBlogs => (Success (Some n), w)
    | e' => (fst (Store.serve Sample.no_filter e' Store.empty), w)
    end.

(** A body that holds nothing but a no-break space. *)
Definition blank_body : Comments.State :=
  {| Comments.comments := []; Comments.loading := false;
     Comments.submitting := false; Comments.error := "";
     Comments.content := String (ascii_of_nat 160) EmptyString;
     Comments.uploadedFiles := [];
     Comments.editingCommentId := None; Comments.editContent := "" |}.

Definition interleaved : list (@Async.Tick unit) :=
  [Async.Notify; Async.Notify; Async.Serve 1; Async.Serve 0; Async.Resume 1;
   Async.Resume 0; Async.Serve 1; Async.Serve 0; Async.Resume 0; Async.Resume 1].



(** * More of the client

    The handlers and helpers of the same files that the statements above
    do not reach. *)

(** ** [BlogList]: the page strip and the search buttons *)

Module BlogListControls.

Definition maxVisiblePages : Z := 5.

(** [Math.floor]. *)
Definition floor (q : Q) : Z := Qfloor q.

(** The [for] loop of [getPageNumbers]: [i] runs up to [endPage]. *)
Fixpoint pushPages (fuel : nat) (i endPage : Z) (pages : list Z) : list Z :=
  match fuel with
  | O => pages
  | S fuel' =>
      if i <=? endPage then pushPages fuel' (i + 1) endPage (pages ++ [i])%list
      else pages
  end.

Definition getPageNumbers (s : BlogList.State) : list Z :=
  let startPage :=
    Z.max 1 (BlogList.currentPage s - floor (JSMath.div maxVisiblePages 2)) in
  let endPage :=
    Z.min (BlogList.totalPages s) (startPage + maxVisiblePages - 1) in
  let startPage :=
    if (endPage - startPage + 1 <? maxVisiblePages)
    then Z.max 1 (endPage - maxVisiblePages + 1)
    else startPage in
  pushPages (S (Z.to_nat (endPage - startPage + 1))) startPage endPage [].

(** [handleSearch] and [handleClearSearch] end by calling [fetchBlogs], the
    function of the same render: it reads the page and the search text of
    the state [s] the handler was created in. *)
Definition handleSearch (s : BlogList.State) : Prog BlogList.Setter unit :=
  set (BlogList.setCurrentPage 1) ;;
  BlogList.fetchBlogs s.

Definition handleClearSearch (s : BlogList.State) : Prog BlogList.Setter unit :=
  set (BlogList.setSearch "") ;;
  set (BlogList.setCurrentPage 1) ;;
  BlogList.fetchBlogs s.

End BlogListControls.

(** ** [CommentFileUpload]: taking staged files back *)

Module CommentFileRemoval.

(** [obj[key]]. *)
Fixpoint lookup (key : string) (obj : CommentFileUpload.Previews) : option string :=
  match obj with
  | [] => None
  | (k, v) :: rest => if (k =? key)%string then Some v else lookup key rest
  end.

(** [delete obj[key]]. *)
Definition delete (key : string) (obj : CommentFileUpload.Previews)
    : CommentFileUpload.Previews :=
  filter (fun kv => negb (fst kv =? key)%string) obj.

(** [files.filter((_, i) => i !== index)]. *)
Fixpoint withoutIndex {A} (index : nat) (files : list A) : list A :=
  match files, index with
  | [], _ => []
  | _ :: rest, O => rest
  | f :: rest, S i => f :: withoutIndex i rest
  end.

(** The message of the [TypeError] raised by reading [path] of
    [undefined] (the text V8 gives). *)
Definition undefinedPath : string :=
  "Cannot read properties of undefined (reading 'path')".

(** [index] is the position of the clicked row in the rendered list. *)
Definition handleRemoveFile (index : nat) (s : CommentFileUpload.State)
    : Prog CommentFileUpload.Setter unit :=
  match nth_error (CommentFileUpload.uploadedFiles s) index with
  | None =>
      set (CommentFileUpload.setError ("Failed to remove file: " ++ undefinedPath))
  | Some fileToRemove =>
      let name := File.name (UploadedFile.file fileToRemove) in
      _ <- call (StorageRemove "comment-files" [UploadedFile.path fileToRemove]) ;;
      (if JS.opt_truthy (lookup name (CommentFileUpload.previews s)) then
         call (RevokeObjectURL
                 (JS.opt_or_else (lookup name (CommentFileUpload.previews s)) "")) ;;
         set (CommentFileUpload.setPreviews
                (delete name (CommentFileUpload.previews s)))
       else Ret tt) ;;
      let newFiles := withoutIndex index (CommentFileUpload.uploadedFiles s) in
      set (CommentFileUpload.setUploadedFiles newFiles) ;;
      call (OnFilesUpload newFiles)
  end.

Definition handleClearAll (s : CommentFileUpload.State)
    : Prog CommentFileUpload.Setter unit :=
  let count := Z.of_nat (List.length (CommentFileUpload.uploadedFiles s)) in
  if (count =? 0) then Ret tt
  else
    ok <- call (WindowConfirm
                  ("Remove all " ++ JS.number_to_string count ++ " files?")) ;;
    if negb ok then Ret tt
    else
      let paths := map UploadedFile.path (CommentFileUpload.uploadedFiles s) in
      _ <- call (StorageRemove "comment-files" paths) ;;
      _ <- mapM (fun url => call (RevokeObjectURL url))
             (CommentFileUpload.values (CommentFileUpload.previews s)) ;;
      set (CommentFileUpload.setUploadedFiles []) ;;
      set (CommentFileUpload.setPreviews []) ;;
      call (OnFilesUpload []).

End CommentFileRemoval.

(** ** The image controls of the post forms *)

Module ImageControls.

(** [ImageUpload.handleRemoveImage]. *)
Definition handleRemoveImage (currentImage : option string)
    : Prog ImageUpload.Setter unit :=
  if negb (JS.opt_truthy currentImage) then Ret tt
  else
    set (ImageUpload.setPreview "") ;;
    call (OnImageUpload "" "").

(** [handleImageUpload] of the two post forms: what [OnImageUpload] runs. *)
Definition editHandleImageUpload (url path : string) : Prog EditBlog.Setter unit :=
  set (EditBlog.setImageUrl url) ;;
  set (EditBlog.setImagePath path).

Definition createHandleImageUpload (url path : string)
    : Prog CreateBlog.Setter unit :=
  set (CreateBlog.setImageUrl url) ;;
  set (CreateBlog.setImagePath path).

(** [EditBlog.handleDeleteImage]. *)
Definition handleDeleteImage (s : EditBlog.State) : Prog EditBlog.Setter unit :=
  if negb (JS.truthy (EditBlog.imagePath s)) then Ret tt
  else
    r <- call (StorageRemove "blog-images" [EditBlog.imagePath s]) ;;
    match r with
    | Failure storageError =>
        set (EditBlog.setError ("Failed to delete image: " ++ message storageError))
    | Success _ =>
        set (EditBlog.setImageUrl "") ;;
        set (EditBlog.setImagePath "")
    end.

(** [EditBlog.handleCancel] and [CreateBlog.handleCancel]. *)
Definition editHandleCancel : Prog EditBlog.Setter unit :=
  ok <- call (WindowConfirm "Are you sure you want to discard changes?") ;;
  if ok then call (Navigate "/") else Ret tt.

Definition createHandleCancel (s : CreateBlog.State) : Prog CreateBlog.Setter unit :=
  if (JS.truthy (CreateBlog.title s) || JS.truthy (CreateBlog.content s))%bool then
    ok <- call (WindowConfirm "Discard this blog post?") ;;
    if negb ok then Ret tt
    else call (Navigate "/")
  else call (Navigate "/").

End ImageControls.

(** ** [src/lib/storage.ts] and the rest of the blog library *)

Module LibStorage.

Record Uploaded := { url : string; path : string }.

Definition uploadBlogImage {U} (file : File.t) : Prog U (Completion Uploaded) :=
  let fileExt := JS.pop (JS.split "." (File.name file)) in
  now <- call DateNow ;;
  rnd <- call MathRandomBase36 ;;
  let fileName := JS.number_to_string now ++ "_" ++ rnd ++ "." ++ fileExt in
  let filePath := "blog-images/" ++ fileName in
  r <- call (StorageUpload "blog-images" filePath file) ;;
  match r with
  | Failure uploadError => Ret (Throw uploadError)
  | Success _ =>
      publicUrl <- call (StorageGetPublicUrl "blog-images" filePath) ;;
      Ret (Return {| url := publicUrl; path := filePath |})
  end.

Definition deleteBlogImage {U} (path : string) : Prog U (Completion unit) :=
  if negb (JS.truthy path) then Ret (Return tt)
  else
    r <- call (StorageRemove "blog-images" [path]) ;;
    match r with
    | Failure error => Ret (Throw error)
    | Success _ => Ret (Return tt)
    end.

Definition deleteBlog {U} (id : string) : Prog U (Completion unit) :=
  r <- call (DeleteBlog (Some id)) ;;
  match r with
  | Failure error => Ret (Throw error)
  | Success _ => Ret (Return tt)
  end.

End LibStorage.

(** ** [Comments]: opening and closing the editor of a comment *)

Module CommentEditor.

Definition startEdit (comment : Comment.t) : Prog Comments.Setter unit :=
  set (Comments.setEditingCommentId (Some (Comment.id comment))) ;;
  set (Comments.setEditContent (CommentRow.content (Comment.row comment))).

Definition cancelEdit : Prog Comments.Setter unit :=
  set (Comments.setEditingCommentId None) ;;
  set (Comments.setEditContent "").

End CommentEditor.


(** ** Calls the handlers above do not make

    Four more handlers need calls that [Eff] does not have: an update of
    a comment, the query for the posts' comment rows, the lookup of a
    post's author and the scrolling of the window.  [EffX] adds them to
    [Eff]; programs over it are built and run like the ones over [Eff]. *)

Module CommentUpdate.
Record t := mk { content : string; updated_at : string }.
End CommentUpdate.

Inductive EffX : Type -> Type :=
| Core {X : Type} (e : Eff X) : EffX X
| UpdateComment (id : string) (author_id : option string)
    (patch : CommentUpdate.t) : EffX (PostgrestResponse unit)
| SelectCommentBlogIds (blogIds : list string)
    : EffX (PostgrestResponse (list string))
| SelectUserById (id : string) : EffX (PostgrestResponse User.t)
| WindowScrollTo (top : Z) (behavior : string) : EffX unit.

Definition is_remoteX {X} (e : EffX X) : bool :=
  match e with
  | Core e => is_remote e
  | UpdateComment _ _ _ | SelectCommentBlogIds _ | SelectUserById _ => true
  | WindowScrollTo _ _ => false
  end.

Inductive ProgX (U A : Type) : Type :=
| RetX (a : A)
| UpdX (u : U) (k : ProgX U A)
| VisX {X : Type} (e : EffX X) (k : X -> ProgX U A).
Arguments RetX {U A} a.
Arguments UpdX {U A} u k.
Arguments VisX {U A X} e k.

Fixpoint bindX {U A B} (p : ProgX U A) (f : A -> ProgX U B) : ProgX U B :=
  match p with
  | RetX a => f a
  | UpdX u k => UpdX u (bindX k f)
  | VisX e k => VisX e (fun x => bindX (k x) f)
  end.

Definition callX {U X} (e : EffX X) : ProgX U X := VisX e (fun x => RetX x).
Definition setX {U} (u : U) : ProgX U unit := UpdX u (RetX tt).

Declare Scope progx_scope.
Delimit Scope progx_scope with progx.
Notation "x <- p ;; q" := (bindX p (fun x => q))
  (at level 61, p at next level, right associativity) : progx_scope.
Notation "p ;; q" := (bindX p (fun _ => q))
  (at level 61, right associativity) : progx_scope.

Inductive EventX (U : Type) : Type :=
| CalledX {X : Type} (e : EffX X) (x : X)
| UpdatedX (u : U).
Arguments CalledX {U X} e x.
Arguments UpdatedX {U} u.

Definition event_is_remoteX {U} (ev : EventX U) : bool :=
  match ev with
  | CalledX e _ => is_remoteX e
  | UpdatedX _ => false
  end.

Definition EnvX (W : Type) : Type := forall X, EffX X -> W -> X * W.

Record OutcomeX (U St W A : Type) := {
  resultX : A;
  stateX : St;
  worldX : W;
  traceX : list (EventX U)
}.

Fixpoint runX {U St W A} `{Component U St} (h : EnvX W) (p : ProgX U A)
    (st : St) (w : W) : OutcomeX U St W A :=
  match p with
  | RetX a => {| resultX := a; stateX := st; worldX := w; traceX := [] |}
  | UpdX u k =>
      let o := runX h k (apply u st) w in
      {| resultX := resultX o; stateX := stateX o; worldX := worldX o;
         traceX := UpdatedX u :: traceX o |}
  | VisX e k =>
      let (x, w') := h _ e w in
      let o := runX h (k x) st w' in
      {| resultX := resultX o; stateX := stateX o; worldX := worldX o;
         traceX := CalledX e x :: traceX o |}
  end.

Definition remote_callsX {U} (t : list (EventX U)) : list (EventX U) :=
  filter event_is_remoteX t.

Module BlogListX.

Local Open Scope progx_scope.

Definition goToPage (page : Z) (s : BlogList.State) : ProgX BlogList.Setter unit :=
  if ((page <? 1) || (BlogList.totalPages s <? page))%bool then RetX tt
  else
    setX (BlogList.setCurrentPage page) ;;
    callX (WindowScrollTo 0 "smooth").

(** [counts[key] = (counts[key] || 0) + 1]. *)
Fixpoint bump (key : string) (counts : list (string * Z)) : list (string * Z) :=
  match counts with
  | [] => [(key, 0 + 1)]
  | (k, v) :: rest =>
      if (k =? key)%string then (k, v + 1) :: rest
      else (k, v) :: bump key rest
  end.

(** The [forEach] of [fetchCommentCounts] over the rows returned. *)
Definition countByBlog (data : list string) : list (string * Z) :=
  fold_left (fun counts blog_id => bump blog_id counts) data [].

Definition fetchCommentCounts (s : BlogList.State) : ProgX BlogList.Setter unit :=
  let blogIds := map Blog.id (BlogList.blogs s) in
  r <- callX (SelectCommentBlogIds blogIds) ;;
  match r with
  | Failure err =>
      callX (Core (ConsoleError "Error fetching comment counts:" err))
  | Success data => setX (BlogList.setCommentCounts (countByBlog data))
  end.

(** The effect on [blogs]: counts are fetched for a list that is not empty. *)
Definition onBlogsChange (s : BlogList.State) : ProgX BlogList.Setter unit :=
  if (0 <? Z.of_nat (List.length (BlogList.blogs s))) then fetchCommentCounts s
  else RetX tt.

(** [commentCounts[blog.id] || 0], as a card of the list shows it. *)
Fixpoint commentCount (blogId : string) (counts : list (string * Z)) : Z :=
  match counts with
  | [] => 0
  | (k, v) :: rest => if (k =? blogId)%string then v else commentCount blogId rest
  end.

End BlogListX.

Module CommentsX.

Local Open Scope progx_scope.

Definition handleUpdate (user : option User.t) (commentId : string)
    (s : Comments.State) : ProgX Comments.Setter unit :=
  if negb (JS.truthy (JS.trim (Comments.editContent s))) then RetX tt
  else
    updated <- callX (Core DateToISOString) ;;
    r <- callX (UpdateComment commentId (option_map User.id user)
                  {| CommentUpdate.content := JS.trim (Comments.editContent s);
                     CommentUpdate.updated_at := updated |}) ;;
    match r with
    | Failure error => setX (Comments.setError (message error))
    | Success _ =>
        setX (Comments.setEditingCommentId None) ;;
        setX (Comments.setEditContent "") ;;
        callX (Core (Spawn FetchCommentsTask))
    end.

End CommentsX.

(** ** [BlogDetail]: loading the post and its author

    The page keeps the author next to the state of [BlogDetail]. *)

Module BlogDetailX.

Local Open Scope progx_scope.

Record State := {
  page : BlogDetail.State;
  author : option User.t
}.

Inductive Setter :=
| onPage (u : BlogDetail.Setter)
| setAuthor (v : option User.t).

Definition apply_setter (u : Setter) (s : State) : State :=
  match u with
  | onPage u => {| page := BlogDetail.apply_setter u (page s); author := author s |}
  | setAuthor v => {| page := page s; author := v |}
  end.

#[global] Instance component : Component Setter State :=
  {| apply := apply_setter |}.

(** The lookup of the author answers with a response; the inner [catch]
    is for a call that throws, which the calls modelled here do not. *)
Definition fetchBlog (id : option string) : ProgX Setter unit :=
  let finally := setX (onPage (BlogDetail.setLoading false)) in
  r <- callX (Core (SelectBlogById id)) ;;
  match r with
  | Failure err =>
      setX (onPage (BlogDetail.setError
                      (JS.or_else (message err) "Failed to load blog"))) ;;
      finally
  | Success data =>
      setX (onPage (BlogDetail.setBlog (Some data))) ;;
      (if JS.truthy (Blog.author_id data) then
         u <- callX (SelectUserById (Blog.author_id data)) ;;
         match u with
         | Success userData => setX (setAuthor (Some userData))
         | Failure _ => RetX tt
         end
       else RetX tt) ;;
      finally
  end.

(** The effect run when the page opens. *)
Definition onMount (id : option string) : ProgX Setter unit :=
  if negb (JS.opt_truthy id) then
    setX (onPage (BlogDetail.setError "No blog ID provided")) ;;
    setX (onPage (BlogDetail.setLoading false))
  else fetchBlog id.

End BlogDetailX.

(** The reference store answering the added calls.  It keeps no table of
    users: the lookup of an author fails; the other added calls do not. *)
Module StoreX.

Definition patch_comment (patch : CommentUpdate.t) (c : CommentRow.t)
    : CommentRow.t :=
  {| CommentRow.id := CommentRow.id c;
     CommentRow.blog_id := CommentRow.blog_id c;
     CommentRow.author_id := CommentRow.author_id c;
     CommentRow.author_email := CommentRow.author_email c;
     CommentRow.content := CommentUpdate.content patch;
     CommentRow.created_at := CommentRow.created_at c;
     CommentRow.updated_at := CommentUpdate.updated_at patch |}.

Definition env (matches_or : string -> Blog.t -> bool) : EnvX Store.t :=
  fun X e =>
    match e in EffX X return Store.t -> X * Store.t with
    | Core e => Store.env matches_or e
    | UpdateComment id author_id patch => fun w =>
        (Success tt,
         Store.with_comments
           (map (fun c =>
                   if ((CommentRow.id c =? id)%string
                       && Store.opt_eqb author_id (CommentRow.author_id c))%bool
                   then patch_comment patch c else c)
              (Store.comments w)) w)
    | SelectCommentBlogIds blogIds => fun w =>
        (Success
           (map CommentRow.blog_id
              (filter (fun c => existsb (String.eqb (CommentRow.blog_id c)) blogIds)
                 (Store.comments w))), w)
    | SelectUserById _ => fun w => (Failure Store.remote_failure, w)
    | WindowScrollTo _ _ => fun w => (tt, w)
    end.

End StoreX.


(** ** Words for the statements about the rest of the client *)

(** [n] consecutive numbers from [first] on. *)
Definition consecutive (first : Z) (n : nat) : list Z :=
  map (fun k => first + Z.of_nat k) (seq 0 n).

(** The list page on page [page] of [pages]. *)
Definition on_page (page pages : Z) : BlogList.State :=
  {| BlogList.blogs := []; BlogList.loading := false; BlogList.error := "";
     BlogList.search := ""; BlogList.currentPage := page;
     BlogList.totalBlogs := 6 * pages; BlogList.totalPages := pages;
     BlogList.commentCounts := [] |}.

(** The error a remote call answered with, if it failed. *)
Definition failure_of {X} (e : Eff X) : X -> option JsError :=
  let failed {T} (r : PostgrestResponse T) : option JsError :=
    match r with
    | Failure err => Some err
    | Success _ => None
    end in
  match e in Eff X return X -> option JsError with
  | SelectBlogs _ => failed
  | CountBlogs => failed
  | SelectBlogById _ => failed
  | InsertBlog _ => failed
  | UpdateBlog _ _ => failed
  | DeleteBlog _ => failed
  | SelectComments _ => failed
  | InsertComment _ => failed
  | DeleteComment _ _ => failed
  | SelectAttachments _ => failed
  | InsertAttachments _ => failed
  | StorageUpload _ _ _ => failed
  | StorageRemove _ _ => failed
  | _ => fun _ => None
  end.

(** The errors of the remote calls of a trace, in order. *)
Definition failures {U} (t : list (Event U)) : list JsError :=
  flat_map
    (fun ev =>
       match ev with
       | Called e x =>
           match failure_of e x with
           | Some err => [err]
           | None => []
           end
       | Updated _ => []
       end) t.

(** The lists a trace hands to the comment form. *)
Definition handed_over {U} (t : list (Event U)) : list (list UploadedFile.t) :=
  flat_map
    (fun ev =>
       match ev with
       | Called e _ =>
           match e with
           | OnFilesUpload files => [files]
           | _ => []
           end
       | Updated _ => []
       end) t.

(** The preview URLs a trace revokes. *)
Definition revoked {U} (t : list (Event U)) : list string :=
  flat_map
    (fun ev =>
       match ev with
       | Called e _ =>
           match e with
           | RevokeObjectURL url => [url]
           | _ => []
           end
       | Updated _ => []
       end) t.

Definition is_spawn {U} (ev : Event U) : bool :=
  match ev with
  | Called e _ => match e with Spawn _ => true | _ => false end
  | Updated _ => false
  end.

Definition is_timer {U} (ev : Event U) : bool :=
  match ev with
  | Called e _ => match e with SetTimeout _ _ => true | _ => false end
  | Updated _ => false
  end.

Definition is_prompt {U} (ev : Event U) : bool :=
  match ev with
  | Called e _ => match e with WindowConfirm _ => true | _ => false end
  | Updated _ => false
  end.

(** [Object.values(commentCounts).reduce((sum, count) => sum + count, 0)]:
    the number of comments the list page shows below the cards. *)
Definition totalComments (counts : list (string * Z)) : Z :=
  fold_left (fun sum count => sum + count) (map snd counts) 0.

(** The image (URL and path) a trace hands to the post form. *)
Definition image_handed {U} (t : list (Event U)) : list (string * string) :=
  flat_map
    (fun ev =>
       match ev with
       | Called e _ =>
           match e with
           | OnImageUpload url path => [(url, path)]
           | _ => []
           end
       | Updated _ => []
       end) t.

(** * Properties *)

(** ** Running programs *)

(** Name the answer the environment [h] gives to the next call of the goal. *)
Ltac answer h :=
  match goal with
  | |- context [h ?X ?e ?w] =>
      let x := fresh "x" in
      let w' := fresh "w" in
      destruct (h X e w) as [x w'];
      try match type of x with unit => destruct x end
  end.

(** Split on an answer the program branches on. *)
Ltac branch :=
  match goal with
  | |- context [match ?r with Success _ => _ | Failure _ => _ end] =>
      is_var r;
      let d := fresh "d" in
      let err := fresh "err" in
      destruct r as [d | err];
      try match type of d with unit => destruct d end
  | |- context [if negb ?b then _ else _] => is_var b; destruct b
  end.

(** Follow a handler through every answer it can get. *)
Ltac drive h := repeat (simpl; first [answer h | branch]); simpl.

Lemma run_bind U St W A B `{Component U St} (h : Env W)
    (p : Prog U A) (f : A -> Prog U B) :
  forall st w,
    run h (bind p f) st w =
    let o1 := run h p st w in
    let o2 := run h (f (result o1)) (state o1) (world o1) in
    {| result := result o2; state := state o2; world := world o2;
       trace := trace o1 ++ trace o2 |}.
Proof.
  induction p as [a | u k IH | X e k IH]; intros st w; simpl.
  - destruct (run h (f a) st w); reflexivity.
  - rewrite IH. reflexivity.
  - destruct (h X e w) as [x w']. rewrite IH. reflexivity.
Qed.

(** ** The offset window (C1) *)

Lemma window_length A (from to : Z) (rows : list A) :
  (List.length (Store.window from to rows) <= Z.to_nat (to - from + 1))%nat.
Proof. unfold Store.window. apply firstn_le_length. Qed.

Lemma window_page A (page size : Z) (rows : list A) :
  1 <= page -> 1 <= size ->
  Store.window ((page - 1) * size) ((page - 1) * size + size - 1) rows =
  firstn (Z.to_nat size) (skipn (Z.to_nat ((page - 1) * size)) rows).
Proof.
  intros Hp Hs. unfold Store.window. f_equal. f_equal. lia.
Qed.

(** The reference store does order newest first. *)
Lemma insert_desc_sorted A (key : A -> string) (x : A) (l : list A) :
  Sorted.Sorted (newer_first key) l ->
  Sorted.Sorted (newer_first key) (Store.insert_desc key x l).
Proof.
  induction l as [| y rest IH]; intros Hs; simpl.
  - repeat constructor.
  - destruct (String.leb (key y) (key x)) eqn:E.
    + constructor; [assumption | constructor; exact E].
    + inversion Hs as [| ? ? Hrest Hhd]; subst.
      constructor; [apply IH; assumption |].
      destruct rest as [| z rest']; simpl.
      * constructor. unfold newer_first.
        destruct (String.leb_total (key x) (key y)) as [Hxy | Hyx]; congruence.
      * destruct (String.leb (key z) (key x)).
        -- constructor. unfold newer_first.
           destruct (String.leb_total (key x) (key y)) as [Hxy | Hyx]; congruence.
        -- inversion Hhd; subst. constructor. assumption.
Qed.

Lemma order_desc_sorted A (key : A -> string) (l : list A) :
  Sorted.Sorted (newer_first key) (Store.order_desc key l).
Proof.
  induction l as [| x rest IH]; simpl.
  - constructor.
  - apply insert_desc_sorted, IH.
Qed.

(** *** Numbers that are exact *)

Lemma nearest_even_spec (num den : Z) :
  0 < den ->
  let m := JSMath.nearest_even num den in
  - den <= 2 * (m * den - num) <= den.
Proof.
  intros Hden m. subst m. unfold JSMath.nearest_even.
  pose proof (Z.div_mod num den ltac:(lia)) as Hdm.
  pose proof (Z.mod_pos_bound num den Hden) as Hb.
  destruct (2 * (num mod den) <? den) eqn:E1.
  - apply Z.ltb_lt in E1. nia.
  - apply Z.ltb_ge in E1.
    destruct (den <? 2 * (num mod den)) eqn:E2.
    + apply Z.ltb_lt in E2. nia.
    + apply Z.ltb_ge in E2. destruct (Z.even (num / den)); nia.
Qed.

Lemma nearest_even_nonneg (num den : Z) :
  0 <= num -> 0 < den -> 0 <= JSMath.nearest_even num den.
Proof.
  intros Hnum Hden. unfold JSMath.nearest_even.
  pose proof (Z.div_pos num den Hnum Hden) as Hq.
  repeat match goal with |- context [if ?c then _ else _] => destruct c end; lia.
Qed.

(** Integers up to [2 ^ 53] in magnitude are numbers as they are. *)
Lemma round_exact (z : Z) : Z.abs z <= 2 ^ 53 -> JSMath.round z = z.
Proof.
  intros Hz. unfold JSMath.round.
  destruct (Z.abs z <? 2 ^ 53) eqn:E; [reflexivity |].
  apply Z.ltb_ge in E.
  change (2 ^ 53) with 9007199254740992 in *.
  assert (Hcase : z = 9007199254740992 \/ z = - 9007199254740992) by lia.
  destruct Hcase as [-> | ->]; vm_compute; reflexivity.
Qed.

Lemma round_nonneg (z : Z) : 0 <= z -> 0 <= JSMath.round z.
Proof.
  intros Hz. unfold JSMath.round.
  destruct (Z.abs z <? 2 ^ 53); [exact Hz |].
  set (ulp := 2 ^ (Z.log2 (Z.abs z) - 52)).
  assert (Hulp : 0 <= ulp) by (apply Z.pow_nonneg; lia).
  assert (Hsgn : 0 <= Z.sgn z) by lia.
  destruct (Z.eq_dec ulp 0) as [H0 | Hpos].
  - rewrite H0. lia.
  - pose proof (@nearest_even_nonneg (Z.abs z) ulp ltac:(lia) ltac:(lia)).
    nia.
Qed.

(** The window of a page is computed exactly while [page * size] is at
    most [2 ^ 53]. *)
Lemma window_exact (page size : Z) :
  1 <= page -> 1 <= size -> page * size <= 2 ^ 53 ->
  JSMath.mul (JSMath.sub page 1) size = (page - 1) * size
  /\ JSMath.sub (JSMath.add (JSMath.mul (JSMath.sub page 1) size) size) 1
     = (page - 1) * size + size - 1.
Proof.
  intros Hpage Hsize Hexact. unfold JSMath.mul, JSMath.sub, JSMath.add.
  rewrite (@round_exact (page - 1)) by nia.
  rewrite (@round_exact ((page - 1) * size)) by nia.
  rewrite (@round_exact ((page - 1) * size + size)) by nia.
  rewrite (@round_exact ((page - 1) * size + size - 1)) by nia.
  split; reflexivity.
Qed.

Lemma window_start_nonneg (page size : Z) :
  1 <= page -> 0 <= size -> 0 <= JSMath.mul (JSMath.sub page 1) size.
Proof.
  intros Hpage Hsize. unfold JSMath.mul, JSMath.sub.
  apply round_nonneg. apply Z.mul_nonneg_nonneg; [| exact Hsize].
  apply round_nonneg. lia.
Qed.

(** The one query of the library fetcher, whatever the environment. *)
Lemma lib_queried W (h : Env W) (page size : Z) (w : W) :
  queried (trace (run h (Lib.fetchBlogs (U := Empty_set) page size) tt w))
  = [{| BlogQuery.order_column := "created_at";
        BlogQuery.ascending := false;
        BlogQuery.range_from := JSMath.mul (JSMath.sub page 1) size;
        BlogQuery.range_to :=
          JSMath.sub (JSMath.add (JSMath.mul (JSMath.sub page 1) size) size) 1;
        BlogQuery.or_filter := None |}].
Proof.
  unfold Lib.fetchBlogs. cbn [bind call run].
  match goal with
  | |- context [h ?X ?e w] => destruct (h X e w) as [[data | err] w']
  end; reflexivity.
Qed.

(** C1, as the code has it.  For a page number [page >= 1] and a page size
    [size >= 1] with [page * size] at most [2 ^ 53], so that the numbers
    of the window are exact, the list fetcher of the library sends exactly
    one query, for the rows [(page-1)*size] to [(page-1)*size + size - 1]
    in descending order of [created_at], whatever the environment answers;
    answered by the reference store, it returns the rows of the ordered
    table from offset [(page-1)*size] on, at most [size] of them, and the
    ordered table is sorted newest first.  The page of [BlogList] does the
    same with the size fixed at [ITEMS_PER_PAGE]. *)
Theorem C1_offset_window (page size : Z) (Hpage : 1 <= page) (Hsize : 1 <= size)
    (Hexact : page * size <= 2 ^ 53) :
  (forall W (h : Env W) (w : W),
      trace (run h (Lib.fetchBlogs (U := Empty_set) page size) tt w) =
      [Called (SelectBlogs (page_query page size None))
         (fst (h _ (SelectBlogs (page_query page size None)) w))])
  /\ (forall matches_or (w : Store.t),
         Store.faults w = [] ->
         let rows := Store.ordered_blogs matches_or (page_query page size None) w in
         let got := firstn (Z.to_nat size)
                      (skipn (Z.to_nat ((page - 1) * size)) rows) in
         result (run (Store.env matches_or)
                   (Lib.fetchBlogs (U := Empty_set) page size) tt w) = Return got
         /\ Z.of_nat (List.length got) <= size)
  /\ (forall W (h : Env W) (w : W) (s st : BlogList.State),
         BlogList.currentPage s = page ->
         page * BlogList.ITEMS_PER_PAGE <= 2 ^ 53 ->
         exists filter,
           BlogList.blogsQuery s = page_query page BlogList.ITEMS_PER_PAGE filter
           /\ remote_calls (trace (run h (BlogList.fetchBlogs s) st w)) =
              [Called (SelectBlogs (BlogList.blogsQuery s))
                 (fst (h _ (SelectBlogs (BlogList.blogsQuery s)) w))])
  /\ (forall matches_or (w : Store.t) (s st : BlogList.State),
         BlogList.currentPage s = page ->
         page * BlogList.ITEMS_PER_PAGE <= 2 ^ 53 ->
         Store.faults w = [] ->
         let rows := Store.ordered_blogs matches_or (BlogList.blogsQuery s) w in
         let got := firstn (Z.to_nat BlogList.ITEMS_PER_PAGE)
                      (skipn (Z.to_nat ((page - 1) * BlogList.ITEMS_PER_PAGE)) rows) in
         BlogList.blogs
           (state (run (Store.env matches_or) (BlogList.fetchBlogs s) st w)) = got
         /\ Z.of_nat (List.length got) <= BlogList.ITEMS_PER_PAGE)
  /\ (forall matches_or (w : Store.t) (filter : option string),
         Sorted.Sorted (newer_first Blog.created_at)
           (Store.ordered_blogs matches_or (page_query page size filter) w)).
Proof.
  assert (H6 : 1 <= BlogList.ITEMS_PER_PAGE) by (unfold BlogList.ITEMS_PER_PAGE; lia).
  destruct (window_exact Hpage Hsize Hexact) as [Hfrom Hto].
  assert (Hlib : forall W (h : Env W) (w : W),
             run h (Lib.fetchBlogs (U := Empty_set) page size) tt w
             = run h (r <- call (SelectBlogs (page_query page size None)) ;;
                      match r with
                      | Failure error => Ret (Throw error)
                      | Success data => Ret (Return data)
                      end) tt w).
  { intros W h w. unfold Lib.fetchBlogs, page_query. cbv zeta.
    rewrite Hto, Hfrom. reflexivity. }
  assert (Hlist : forall s, BlogList.currentPage s = page ->
             page * BlogList.ITEMS_PER_PAGE <= 2 ^ 53 ->
             BlogList.blogsQuery s
             = page_query page BlogList.ITEMS_PER_PAGE
                 (BlogQuery.or_filter (BlogList.blogsQuery s))).
  { intros s Hcur Hsix.
    destruct (window_exact Hpage H6 Hsix) as [Hfrom6 Hto6].
    unfold BlogList.blogsQuery, page_query. cbv zeta.
    rewrite Hcur, Hto6, Hfrom6. reflexivity. }
  split; [| split; [| split; [| split]]].
  - intros W h w. rewrite Hlib. cbn [bind call run].
    destruct (h _ (SelectBlogs (page_query page size None)) w) as [r w'].
    destruct r; reflexivity.
  - intros matches_or w Hfaults rows got. split.
    + rewrite Hlib. cbn [bind call run]. unfold Store.env. simpl.
      rewrite Hfaults. simpl. unfold Store.select_blogs. simpl.
      rewrite (window_page _ Hpage Hsize). reflexivity.
    + unfold got. rewrite length_firstn. lia.
  - intros W h w s st Hcur Hsix.
    exists (BlogQuery.or_filter (BlogList.blogsQuery s)). split.
    + apply Hlist; assumption.
    + unfold BlogList.fetchBlogs. cbn [bind set call run].
      destruct (h _ (SelectBlogs (BlogList.blogsQuery s)) w) as [r w'].
      destruct r; reflexivity.
  - intros matches_or w s st Hcur Hsix Hfaults rows got. split.
    + subst rows got. unfold BlogList.fetchBlogs. cbn [bind set call run].
      rewrite (Hlist s Hcur Hsix).
      unfold Store.env. simpl. rewrite Hfaults. simpl.
      unfold Store.select_blogs. simpl.
      rewrite (window_page _ Hpage H6). reflexivity.
    + unfold got. rewrite length_firstn. lia.
  - intros matches_or w filter. unfold Store.ordered_blogs. simpl.
    apply order_desc_sorted.
Qed.

Lemma C1_offset_window_witness :
  trace (run (Store.env Sample.no_filter)
           (Lib.fetchBlogs (U := Empty_set) 2 6) tt Sample.twenty) =
  [Called (SelectBlogs (page_query 2 6 None))
     (fst (Store.env Sample.no_filter (SelectBlogs (page_query 2 6 None))
             Sample.twenty))].
Proof.
  destruct (@C1_offset_window 2 6 ltac:(lia) ltac:(lia)
              ltac:(vm_compute; discriminate)) as [Hlib _].
  exact (Hlib _ (Store.env Sample.no_filter) Sample.twenty).
Defined.

(** The specification read literally: the window holds for every page and
    size from 1 on.  For page 3002399751580331 and size 3 the first row,
    9007199254740990, is exact, but the sum [from + limit],
    9007199254740993, is not a number: it is rounded to 9007199254740992,
    and the last row asked for is 9007199254740991, not
    9007199254740992. *)
Theorem C1_counterexample : ~ C1_as_stated.
Proof.
  intros Hspec.
  specialize (Hspec 3002399751580331 3 _ (Store.env Sample.no_filter)
                Sample.store1 ltac:(lia) ltac:(lia)).
  rewrite lib_queried in Hspec.
  apply (f_equal (map BlogQuery.range_to)) in Hspec.
  vm_compute in Hspec. discriminate.
Qed.

(** Page 2 of size 6 over 20 rows: the window is rows 6 to 11, six rows. *)
Example page_two_of_twenty :
  BlogQuery.range_from (page_query 2 6 None) = 6
  /\ BlogQuery.range_to (page_query 2 6 None) = 11
  /\ (exists rows,
         result (run (Store.env Sample.no_filter)
                   (Lib.fetchBlogs (U := Empty_set) 2 6) tt Sample.twenty)
         = Return rows
         /\ List.length rows = 6%nat).
Proof.
  split; [reflexivity |]. split; [reflexivity |].
  eexists. split; [vm_compute; reflexivity | reflexivity].
Qed.

(** ** The page count (C7) *)

Lemma exact_ceil_spec (n d : Z) :
  0 < d ->
  let p := exact_ceil n d in
  d * (p - 1) < n <= d * p.
Proof.
  intros Hd p. subst p. unfold exact_ceil, Qceiling, Qfloor.
  destruct d as [| d | d]; try lia.
  cbn -[Z.mul Z.div Z.opp Z.sub]. rewrite Z.mul_1_r.
  pose proof (Z.div_mod (- n) (Z.pos d) ltac:(lia)) as Hdm.
  pose proof (Z.mod_pos_bound (- n) (Z.pos d) ltac:(lia)) as Hb.
  nia.
Qed.

Lemma binade_six (n : Z) : 0 < n <= 2 ^ 53 -> JSMath.binade n 6 <= 50.
Proof.
  intros [Hpos Hn]. unfold JSMath.binade.
  change (Z.log2 6) with 2.
  assert (Hlog : Z.log2 n <= 53).
  { change 53 with (Z.log2 (2 ^ 53)). apply Z.log2_le_mono. exact Hn. }
  destruct (Z.eq_dec (Z.log2 n) 53) as [H53 | Hless].
  - pose proof (Z.log2_spec n Hpos) as [Hlow _]. rewrite H53 in Hlow.
    assert (n = 2 ^ 53) by lia. subst n. vm_compute. discriminate.
  - match goal with |- (if ?c then _ else _) <= _ => destruct c end; lia.
Qed.

(** Up to [2 ^ 53] rows the quotient by 6 is near enough to the exact one
    for [Math.ceil] to give the exact ceiling. *)
Lemma ceil_div_six (n : Z) :
  0 <= n <= 2 ^ 53 ->
  let p := JSMath.ceil (JSMath.div n 6) in
  6 * (p - 1) < n <= 6 * p.
Proof.
  intros [Hpos Hn] p. subst p. unfold JSMath.div.
  destruct (Z.eq_dec n 0) as [-> | Hne];
    [vm_compute; split; [reflexivity | discriminate] |].
  replace (Z.sgn n * Z.sgn 6 <? 0) with false
    by (symmetry; apply Z.ltb_ge; change (Z.sgn 6) with 1; lia).
  rewrite Z.abs_eq by exact Hpos. change (Z.abs 6) with 6.
  unfold JSMath.quotient.
  replace (n =? 0) with false by (symmetry; apply Z.eqb_neq; exact Hne).
  pose proof (@binade_six n ltac:(lia)) as He.
  replace (JSMath.binade n 6 <=? 52) with true by (symmetry; apply Z.leb_le; lia).
  set (scale := 2 ^ (52 - JSMath.binade n 6)).
  assert (Hscale : 4 <= scale).
  { change 4 with (2 ^ 2). apply Z.pow_le_mono_r; lia. }
  pose proof (@nearest_even_spec (n * scale) 6 ltac:(lia)) as Hnear.
  cbv zeta in Hnear.
  set (m := JSMath.nearest_even (n * scale) 6) in *.
  unfold JSMath.ceil, Qceiling, Qfloor. cbn [Qopp Qnum Qden].
  rewrite Z2Pos.id by lia.
  pose proof (Z.div_mod (- m) scale ltac:(lia)) as Hdm.
  pose proof (Z.mod_pos_bound (- m) scale ltac:(lia)) as Hb.
  nia.
Qed.

(** C7, as the code has it.  When the count query answers [N] rows, with
    [N] from 0 to [2 ^ 53], the page stores as its total number of pages
    the least integer [p] with [N <= 6 * p], which is [ceil (N / 6)], the
    page size being [ITEMS_PER_PAGE = 6]; for [N = 20] it stores [4].  The
    header shows the stored number when there is a row, and 1 when there
    is none. *)
Theorem C7_total_pages (N : Z) W (h : Env W) (w w' : W) (st : BlogList.State)
    (Hcount : h _ CountBlogs w = (Success (Some N), w'))
    (Hrows : 0 <= N <= 2 ^ 53) :
  let shown := state (run h BlogList.fetchTotalCount st w) in
  let p := BlogList.totalPages shown in
  BlogList.ITEMS_PER_PAGE = 6
  /\ p = JSMath.ceil (JSMath.div N BlogList.ITEMS_PER_PAGE)
  /\ 6 * (p - 1) < N <= 6 * p
  /\ p = exact_ceil N 6
  /\ (N = 20 -> p = 4)
  /\ BlogList.totalBlogs shown = N
  /\ (1 <= N -> BlogList.pagesShown shown = p)
  /\ (N = 0 -> p = 0 /\ BlogList.pagesShown shown = 1).
Proof.
  unfold BlogList.fetchTotalCount. cbn [bind call run]. rewrite Hcount.
  cbn [bind set run state apply BlogList.component BlogList.apply_setter
       BlogList.totalPages BlogList.totalBlogs JSMath.or_zero].
  change BlogList.ITEMS_PER_PAGE with 6.
  pose proof (ceil_div_six Hrows) as Hc. cbv zeta in Hc.
  pose proof (@exact_ceil_spec N 6 ltac:(lia)) as Hx. cbv zeta in Hx.
  set (p := JSMath.ceil (JSMath.div N 6)) in *.
  unfold BlogList.pagesShown.
  cbn [BlogList.totalPages].
  split; [reflexivity |]. split; [reflexivity |]. split; [exact Hc |].
  split; [lia |]. split; [lia |]. split; [reflexivity |].
  split.
  - intros Hsome. replace (p =? 0) with false by (symmetry; apply Z.eqb_neq; lia).
    reflexivity.
  - intros Hnone. assert (Hp : p = 0) by lia. rewrite Hp. split; reflexivity.
Qed.

Lemma C7_total_pages_witness :
  let shown := state (run (Store.env Sample.no_filter) BlogList.fetchTotalCount
                        BlogList.initial Sample.twenty) in
  let p := BlogList.totalPages shown in
  BlogList.ITEMS_PER_PAGE = 6
  /\ p = JSMath.ceil (JSMath.div 20 BlogList.ITEMS_PER_PAGE)
  /\ 6 * (p - 1) < 20 <= 6 * p
  /\ p = exact_ceil 20 6
  /\ (20 = 20 -> p = 4)
  /\ BlogList.totalBlogs shown = 20
  /\ (1 <= 20 -> BlogList.pagesShown shown = p)
  /\ (20 = 0 -> p = 0 /\ BlogList.pagesShown shown = 1).
Proof.
  apply (@C7_total_pages 20 _ (Store.env Sample.no_filter)
           Sample.twenty Sample.twenty).
  - reflexivity.
  - vm_compute. split; discriminate.
Defined.

(** The specification read literally: the page reports [ceil (N / 6)]
    pages for every [N].  With no row at all the stored number is 0, and
    the header, which shows [totalPages || 1], reports 1 page. *)
Theorem C7_counterexample : ~ C7_as_stated.
Proof.
  intros Hspec.
  specialize (Hspec 0 _ (Store.env Sample.no_filter) Store.empty Store.empty
                BlogList.initial ltac:(lia) eq_refl).
  vm_compute in Hspec. discriminate.
Qed.

Example twenty_rows_four_pages :
  BlogList.totalPages
    (state (run (Store.env Sample.no_filter) BlogList.fetchTotalCount
              BlogList.initial Sample.twenty)) = 4.
Proof. vm_compute. reflexivity. Qed.

(** Past [2 ^ 53] the quotient is rounded before [Math.ceil] sees it:
    27021597764222984 / 6 becomes the integer 4503599627370497, one below
    the exact ceiling. *)
Example page_count_past_the_exact_range :
  BlogList.totalPages
    (state (run (counting 27021597764222984) BlogList.fetchTotalCount
              BlogList.initial tt)) = 4503599627370497
  /\ exact_ceil 27021597764222984 6 = 4503599627370498.
Proof. vm_compute. split; reflexivity. Qed.

(** ** The attachment joiner (C2) *)

Lemma mapM_withAttachments W (h : Env W) (cs : list CommentRow.t) :
  forall (st : Comments.State) w,
  exists rs,
    List.length rs = List.length cs
    /\ result (run h (mapM Comments.withAttachments cs) st w)
       = map merged (combine cs rs)
    /\ state (run h (mapM Comments.withAttachments cs) st w) = st
    /\ trace (run h (mapM Comments.withAttachments cs) st w)
       = map lookup (combine cs rs).
Proof.
  induction cs as [| c cs IH]; intros st w.
  - exists []. simpl. auto.
  - simpl. destruct (h _ (SelectAttachments (CommentRow.id c)) w) as [r w1].
    simpl. rewrite run_bind. simpl.
    destruct (IH st w1) as (rs & Hlen & Hres & Hst & Htr).
    exists (r :: rs). simpl. rewrite Hres, Hst, Htr, app_nil_r.
    unfold merged at 2. simpl. destruct r; auto.
Qed.

(** C2.  When the list of comments is fetched, the joiner sends one lookup
    per comment, keyed by the comment's identifier, in list order, and
    shows every comment with the rows its lookup returned, in the order
    returned; a lookup that returns no row and a lookup that fails both
    leave the comment with an empty attachment list, and no error is
    raised: the join as a whole ends with the error text untouched. *)
Theorem C2_attachment_join W (h : Env W) (blogId : string)
    (st : Comments.State) (w w1 : W) (cs : list CommentRow.t)
    (Hlist : h _ (SelectComments blogId) w = (Success cs, w1)) :
  let o := run h (Comments.fetchComments blogId) st w in
  exists rs,
    List.length rs = List.length cs
    /\ trace o =
       Updated (Comments.setLoading true)
       :: Called (SelectComments blogId) (Success cs)
       :: map lookup (combine cs rs)
       ++ [Updated (Comments.setComments (map merged (combine cs rs)));
           Updated (Comments.setLoading false)]
    /\ Comments.comments (state o) = map merged (combine cs rs)
    /\ (forall c r, In (c, r) (combine cs rs) ->
        (r = Success [] \/ exists err, r = Failure err) ->
        Comment.attachments (merged (c, r)) = [])
    /\ Comments.error (state o) = Comments.error st
    /\ Comments.loading (state o) = false.
Proof.
  unfold Comments.fetchComments. simpl. rewrite Hlist. simpl.
  rewrite run_bind. simpl.
  destruct (mapM_withAttachments h cs (Comments.apply_setter (Comments.setLoading true) st) w1)
    as (rs & Hlen & Hres & Hst & Htr).
  simpl in Hres, Hst, Htr.
  exists rs. rewrite Hres, Hst, Htr. simpl.
  repeat split; auto.
  intros c r _ [-> | [err ->]]; reflexivity.
Qed.

(** The one comment of the sample store, joined with its picture. *)
Lemma C2_attachment_join_witness :
  let o := run (Store.env Sample.no_filter) (Comments.fetchComments "b1")
             Comments.initial Sample.store1 in
  exists rs,
    List.length rs = List.length [Sample.row1]
    /\ trace o =
       Updated (Comments.setLoading true)
       :: Called (SelectComments "b1") (Success [Sample.row1])
       :: map lookup (combine [Sample.row1] rs)
       ++ [Updated (Comments.setComments (map merged (combine [Sample.row1] rs)));
           Updated (Comments.setLoading false)]
    /\ Comments.comments (state o) = map merged (combine [Sample.row1] rs)
    /\ (forall c r, In (c, r) (combine [Sample.row1] rs) ->
        (r = Success [] \/ exists err, r = Failure err) ->
        Comment.attachments (merged (c, r)) = [])
    /\ Comments.error (state o) = Comments.error Comments.initial
    /\ Comments.loading (state o) = false.
Proof.
  apply (@C2_attachment_join _ (Store.env Sample.no_filter) "b1"
           Comments.initial Sample.store1 Sample.store1 [Sample.row1]).
  reflexivity.
Defined.

(** A lookup that fails and a comment without rows both come out empty. *)
Example failed_lookup_is_empty :
  map Comment.attachments
    (Comments.comments
       (state (run (Store.env Sample.no_filter) (Comments.fetchComments "b1")
                 Comments.initial
                 (Store.with_faults [false; true]
                    (Store.with_comments [Sample.row1; Sample.row2]
                       Sample.store1)))))
  = [[]; [Sample.picture]].
Proof. vm_compute. reflexivity. Qed.

(** ** The reference store as an environment *)

Module StoreFacts.

Lemma env_serves matches_or X (e : Eff X) (w : Store.t) (rest : list bool) :
  Store.faults w = false :: rest ->
  is_remote e = true ->
  Store.env matches_or e w = Store.serve matches_or e (Store.with_faults rest w).
Proof.
  intros Hf Hr. unfold Store.env. rewrite Hf.
  destruct e; simpl in *; try reflexivity; discriminate.
Qed.

Lemma env_refuses matches_or X (e : Eff X) (w : Store.t) (rest : list bool) :
  Store.faults w = true :: rest ->
  is_remote e = true ->
  exists failed,
    Store.refuse e = Some failed
    /\ Store.env matches_or e w = (failed, Store.with_faults rest w).
Proof.
  intros Hf Hr. unfold Store.env. rewrite Hf.
  destruct e; simpl in *; try discriminate; eexists; split; reflexivity.
Qed.

Lemma env_calm matches_or X (e : Eff X) (w : Store.t) :
  Store.faults w = [] ->
  Store.env matches_or e w = Store.serve matches_or e w.
Proof.
  intros Hf. unfold Store.env. rewrite Hf. destruct (Store.refuse e); reflexivity.
Qed.

End StoreFacts.

(** ** Posting a comment (C3, C9) *)

Lemma or_else_nonempty (a b : string) : b <> "" -> JS.or_else a b <> "".
Proof.
  intros Hb. unfold JS.or_else, JS.truthy.
  destruct (a =? "")%string eqn:E; simpl; [assumption |].
  apply String.eqb_neq. exact E.
Qed.

(** C3.  [handleSubmit] sends the attachment rows only after the comment
    insert has succeeded, and only when files are staged; when the
    attachment insert fails no further remote call follows (nothing takes
    the comment back) and the error text is set.  Against the reference
    store, a failed attachment insert after a successful comment insert
    leaves the new comment in the table and the attachment table as it was. *)
Theorem C3_attachments_after_comment :
  (forall W (h : Env W) (user : option User.t) (blogId : string)
          (s st : Comments.State) (w : W),
      let o := run h (Comments.handleSubmit user blogId s) st w in
      remote_calls (trace o) = []
      \/ (exists u err,
             remote_calls (trace o) =
             [Called (InsertComment (commentRow u blogId s)) (Failure err)])
      \/ (exists u c,
             Comments.uploadedFiles s = []
             /\ remote_calls (trace o) =
                [Called (InsertComment (commentRow u blogId s)) (Success c)])
      \/ (exists u c r,
             Comments.uploadedFiles s <> []
             /\ remote_calls (trace o) =
                [Called (InsertComment (commentRow u blogId s)) (Success c);
                 Called (InsertAttachments
                           (map (Comments.attachmentToInsert c)
                              (Comments.uploadedFiles s))) r]
             /\ (forall err, r = Failure err ->
                 Comments.error (state o) =
                 JS.or_else (message err) "Failed to post comment"
                 /\ Comments.error (state o) <> "")))
  /\ (forall matches_or (w : Store.t) (u : User.t) (blogId : string)
             (s st : Comments.State) (rest : list bool),
         JS.truthy (JS.trim (Comments.content s)) = true ->
         Comments.uploadedFiles s <> [] ->
         Store.faults w = false :: true :: rest ->
         let o := run (Store.env matches_or)
                    (Comments.handleSubmit (Some u) blogId s) st w in
         Store.comments (world o) =
         (Store.comments w ++ [Store.new_comment (commentRow u blogId s) w])%list
         /\ Store.attachments (world o) = Store.attachments w
         /\ Comments.error (state o) = "remote call failed").
Proof.
  split.
  - intros W h user blogId s st w. unfold Comments.handleSubmit. simpl.
    destruct (h _ PreventDefault w) as [[] w0].
    destruct user as [u |]; [| left; reflexivity].
    destruct (JS.truthy (JS.trim (Comments.content s))); simpl;
      [| left; reflexivity].
    fold (commentRow u blogId s).
    destruct (h _ (InsertComment (commentRow u blogId s)) w0) as [[c | err] w2].
    + destruct (Comments.uploadedFiles s) as [| f fs] eqn:Hfiles.
      * simpl. destruct (h _ (Spawn FetchCommentsTask) w2) as [[] w3]. simpl.
        right; right; left. exists u, c. split; reflexivity.
      * cbn [List.length Z.of_nat]. simpl Z.ltb. cbv iota. simpl.
        destruct (h _ (InsertAttachments
                         (Comments.attachmentToInsert c f
                          :: map (Comments.attachmentToInsert c) fs)) w2)
          as [[[] | err] w3].
        -- simpl. destruct (h _ (Spawn FetchCommentsTask) w3) as [[] w4]. simpl.
           right; right; right. exists u, c, (Success tt).
           split; [discriminate |]. split; [reflexivity |].
           intros err Herr. discriminate.
        -- simpl. right; right; right. exists u, c, (Failure err).
           split; [discriminate |]. split; [reflexivity |].
           intros err' Herr. inversion Herr; subst. split; [reflexivity |].
           apply or_else_nonempty. discriminate.
    + simpl. right; left. exists u, err. reflexivity.
  - intros matches_or w u blogId s st rest Hcontent Hfiles Hfaults.
    unfold Comments.handleSubmit. simpl. rewrite Hcontent. simpl.
    fold (commentRow u blogId s).
    rewrite (StoreFacts.env_serves matches_or (InsertComment (commentRow u blogId s))
               w Hfaults eq_refl).
    simpl.
    destruct (Comments.uploadedFiles s) as [| f fs]; [congruence |].
    cbn [List.length Z.of_nat]. simpl Z.ltb. cbv iota. simpl.
    repeat split.
Qed.

(** C9.  If a write of [handleSubmit] fails, the comment insert or the
    attachment insert after it, the typed text and the staged files are
    as they were and an error text is set; when writes were sent and none
    failed, both are cleared; when no write was sent, both are as they
    were.  So they are cleared only when every write sent has succeeded. *)
Theorem C9_inputs_kept_on_failure W (h : Env W) (user : option User.t)
    (blogId : string) (s st : Comments.State) (w : W) :
  let o := run h (Comments.handleSubmit user blogId s) st w in
  let kept := Comments.content (state o) = Comments.content st
              /\ Comments.uploadedFiles (state o) = Comments.uploadedFiles st in
  (existsb is_failed_write (trace o) = true ->
   kept /\ Comments.error (state o) <> "")
  /\ (existsb is_write (trace o) = true ->
      existsb is_failed_write (trace o) = false ->
      Comments.content (state o) = "" /\ Comments.uploadedFiles (state o) = [])
  /\ (existsb is_write (trace o) = false -> kept).
Proof.
  unfold Comments.handleSubmit. simpl.
  destruct (h _ PreventDefault w) as [[] w0].
  destruct user as [u |]; [| simpl; repeat split; discriminate].
  destruct (JS.truthy (JS.trim (Comments.content s))); simpl;
    [| repeat split; discriminate].
  fold (commentRow u blogId s).
  destruct (h _ (InsertComment (commentRow u blogId s)) w0) as [[c | err] w2].
  - destruct (Comments.uploadedFiles s) as [| f fs].
    + simpl. destruct (h _ (Spawn FetchCommentsTask) w2) as [[] w3]. simpl.
      repeat split; discriminate.
    + cbn [List.length Z.of_nat]. simpl Z.ltb. cbv iota. simpl.
      destruct (h _ (InsertAttachments
                       (Comments.attachmentToInsert c f
                        :: map (Comments.attachmentToInsert c) fs)) w2)
        as [[[] | err] w3].
      * simpl. destruct (h _ (Spawn FetchCommentsTask) w3) as [[] w4]. simpl.
        repeat split; discriminate.
      * simpl. repeat split; try discriminate.
        apply or_else_nonempty. discriminate.
  - simpl. repeat split; try discriminate.
    apply or_else_nonempty. discriminate.
Qed.

(** The attachment insert fails after the comment insert: the comment is
    in the table without its file, and the form keeps text and file. *)
Example comment_without_its_file :
  let o := run (Store.env Sample.no_filter)
             (Comments.handleSubmit (Some Sample.bob) "b1" Sample.typing)
             Sample.typing (Store.with_faults [false; true] Sample.store1) in
  map CommentRow.content (Store.comments (world o)) = ["first"; "nice post"]
  /\ Store.attachments (world o) = [Sample.picture]
  /\ Comments.content (state o) = " nice post "
  /\ Comments.uploadedFiles (state o) = [Sample.staged]
  /\ Comments.error (state o) = "remote call failed".
Proof. vm_compute. repeat split. Qed.

Example comment_with_its_file :
  let o := run (Store.env Sample.no_filter)
             (Comments.handleSubmit (Some Sample.bob) "b1" Sample.typing)
             Sample.typing Sample.store1 in
  map FileAttachment.file_name (Store.attachments (world o)) = ["a.png"; "notes.pdf"]
  /\ Comments.content (state o) = ""
  /\ Comments.uploadedFiles (state o) = [].
Proof. vm_compute. repeat split. Qed.

(** ** Deleting (C4) *)

(** C4 does not hold as written: deleting a comment that has a stored
    picture sends the row delete first. *)
Lemma C4_counterexample : ~ C4_as_stated.
Proof.
  intros [_ Hcomments].
  specialize (Hcomments _ (Store.env Sample.no_filter) (Some Sample.alice)
                Sample.comment1 Comments.initial Sample.store1
                eq_refl ltac:(discriminate)).
  vm_compute in Hcomments. discriminate.
Qed.

Example comment_delete_calls :
  remote_calls
    (trace (run (Store.env Sample.no_filter)
              (Comments.handleDelete (Some Sample.alice) Sample.comment1)
              Comments.initial Sample.store1)) =
  [Called (DeleteComment "c1" (Some "alice")) (Success tt);
   Called (StorageRemove "comment-files" ["comment-files/a.png"]) (Success tt)].
Proof. reflexivity. Qed.

(** On the edit page the order is the one the specification gives. *)
Lemma edit_page_removes_image_first W (h : Env W) (id : option string)
    (s st : EditBlog.State) (w : W) :
  fst (h _ (WindowConfirm
      "Are you sure you want to delete this blog? This action cannot be undone.") w)
  = true ->
  JS.truthy (EditBlog.imagePath s) = true ->
  files_removed_first (trace (run h (EditBlog.handleDelete id s) st w)) = true.
Proof.
  intros Hyes Himg. unfold EditBlog.handleDelete. rewrite Himg.
  cbn [bind call run].
  destruct (h _ (WindowConfirm
      "Are you sure you want to delete this blog? This action cannot be undone.") w)
    as [ok w0].
  simpl in Hyes. subst ok. drive h; reflexivity.
Qed.

Lemma filePathsOf_none (comment : Comment.t) :
  Comment.attachments comment = [] -> Comments.filePathsOf comment = [].
Proof. intros Ha. unfold Comments.filePathsOf. rewrite Ha. reflexivity. Qed.

(** C4, as the code has it.  Every delete handler asks first, and a
    declined prompt ends the handler with no call at all.  After a yes:
    the edit page and the list page remove the stored image (when the post
    has one) and then send the row delete whatever the removal answered,
    the edit page logging a failed removal; the comment list sends the row
    delete first and removes the stored files afterwards, only when the
    row delete succeeded and some attachment lies in the bucket, ignoring
    the answer of the removal; the detail page asks and sends the row
    delete (and asks nothing and sends nothing while no post is loaded). *)
Theorem C4_delete_after_confirmation :
  (forall W (h : Env W) (id : option string) (s st : EditBlog.State) (w : W),
      let o := run h (EditBlog.handleDelete id s) st w in
      exists ok rest,
        trace o =
        Called (WindowConfirm
          "Are you sure you want to delete this blog? This action cannot be undone.")
          ok :: rest
        /\ (ok = false -> rest = [])
        /\ (ok = true ->
            exists r,
              (JS.truthy (EditBlog.imagePath s) = false
               /\ remote_calls rest = [Called (DeleteBlog id) r])
              \/ (exists r1,
                     JS.truthy (EditBlog.imagePath s) = true
                     /\ remote_calls rest =
                        [Called (StorageRemove "blog-images" [EditBlog.imagePath s]) r1;
                         Called (DeleteBlog id) r]
                     /\ (forall err, r1 = Failure err ->
                         In (Called (ConsoleError "Failed to delete image:" err) tt)
                           rest))))
  /\ (forall W (h : Env W) (id title : string) (imagePath : option string)
             (s st : BlogList.State) (w : W),
         let o := run h (BlogList.handleDelete id title imagePath s) st w in
         exists ok rest,
           trace o =
           Called (WindowConfirm
                     ("Are you sure you want to delete " ++ JS.dquote ++ title
                        ++ JS.dquote ++ "?")) ok :: rest
           /\ (ok = false -> rest = [])
           /\ (ok = true ->
               exists r,
                 (JS.opt_truthy imagePath = false
                  /\ remote_calls rest = [Called (DeleteBlog (Some id)) r])
                 \/ (exists path r1,
                        imagePath = Some path
                        /\ JS.truthy path = true
                        /\ remote_calls rest =
                           [Called (StorageRemove "blog-images" [path]) r1;
                            Called (DeleteBlog (Some id)) r])))
  /\ (forall W (h : Env W) (user : option User.t) (comment : Comment.t)
             (st : Comments.State) (w : W),
         let o := run h (Comments.handleDelete user comment) st w in
         let row_delete :=
           DeleteComment (Comment.id comment) (option_map User.id user) in
         exists ok rest,
           trace o =
           Called (WindowConfirm "Are you sure you want to delete this comment?")
             ok :: rest
           /\ (ok = false -> rest = [])
           /\ (ok = true ->
               (exists err,
                   remote_calls rest = [Called row_delete (Failure err)]
                   /\ Comments.error (state o) = message err)
               \/ (Comments.filePathsOf comment = []
                   /\ remote_calls rest = [Called row_delete (Success tt)])
               \/ (exists r2,
                      Comments.filePathsOf comment <> []
                      /\ remote_calls rest =
                         [Called row_delete (Success tt);
                          Called (StorageRemove "comment-files"
                                    (Comments.filePathsOf comment)) r2]
                      /\ state o = st)))
  /\ (forall W (h : Env W) (id : option string) (s st : BlogDetail.State) (w : W),
         let o := run h (BlogDetail.handleDelete id s) st w in
         match BlogDetail.blog s with
         | None => trace o = []
         | Some b =>
             exists ok rest,
               trace o =
               Called (WindowConfirm
                         ("Are you sure you want to delete " ++ JS.dquote
                            ++ Blog.title b ++ JS.dquote ++ "?")) ok :: rest
               /\ (ok = false -> rest = [])
               /\ (ok = true -> exists r, In (Called (DeleteBlog id) r) rest)
         end).
Proof.
  split; [| split; [| split]].
  - intros W h id s st w. unfold EditBlog.handleDelete.
    destruct (JS.truthy (EditBlog.imagePath s)) eqn:Himg; drive h;
      eexists; eexists; (split; [reflexivity |]);
      (split; [first [reflexivity | discriminate] |]);
      try discriminate; intros _; eexists;
      first
        [ left; split; reflexivity
        | right; eexists; split; [reflexivity |]; split; [reflexivity |];
          intros e He; first [discriminate | inversion He; subst; simpl; tauto] ].
  - intros W h id title imagePath s st w. unfold BlogList.handleDelete.
    remember ("Are you sure you want to delete " ++ JS.dquote ++ title
                ++ JS.dquote ++ "?")%string as prompt eqn:Hprompt.
    destruct imagePath as [path |]; [destruct (JS.truthy path) eqn:Hpath |];
      drive h;
      try (destruct ((Z.of_nat (List.length (BlogList.blogs s)) =? 1)
                     && (1 <? BlogList.currentPage s))%bool; simpl);
      eexists; eexists; (split; [reflexivity |]);
      (split; [first [reflexivity | discriminate] |]);
      try discriminate; intros _; eexists;
      first
        [ left; split; [first [reflexivity | assumption] | reflexivity]
        | right; eexists; eexists; split; [reflexivity |];
          split; [assumption | reflexivity] ].
  - intros W h user comment st w. unfold Comments.handleDelete.
    pose proof (filePathsOf_none comment) as Hnone.
    destruct (Comment.attachments comment) as [| a rest];
      [| destruct (Comments.filePathsOf comment) as [| p ps] eqn:Hpaths];
      cbn [List.length Z.of_nat]; drive h;
      eexists; eexists; (split; [reflexivity |]);
      (split; [first [reflexivity | discriminate] |]);
      try discriminate; intros _;
      first
        [ left; eexists; split; reflexivity
        | right; left; split; [first [reflexivity | auto] | reflexivity]
        | right; right; eexists; split; [discriminate |]; split; reflexivity ].
  - intros W h id s st w. unfold BlogDetail.handleDelete.
    destruct (BlogDetail.blog s) as [b |]; [| reflexivity].
    remember ("Are you sure you want to delete " ++ JS.dquote
                ++ Blog.title b ++ JS.dquote ++ "?")%string as prompt eqn:Hprompt.
    drive h;
      eexists; eexists; (split; [reflexivity |]);
      (split; [first [reflexivity | discriminate] |]);
      try discriminate; intros _; eexists; simpl; eauto.
Qed.

(** ** Editing a post (C5) *)

(** C5 does not hold as written: Bob opens Alice's post, types while the
    error is shown, and submits. *)
Lemma C5_counterexample : ~ C5_as_stated.
Proof.
  intros Hspec.
  specialize (Hspec _ (Store.env Sample.no_filter) "b1" (Some Sample.bob)
                "Hijacked" "text" Sample.store1 _ _ eq_refl
                ltac:(vm_compute; discriminate)).
  vm_compute in Hspec. discriminate.
Qed.

(** C5, as the code has it.  The ownership check runs once, when the post
    is loaded: if the loaded post's author is not the current user the
    load shows the permission error, leaves the form as it was, schedules
    the way home and sends nothing else; if it is, the form is filled.
    The submit handler does not look at the author: it sends the update
    exactly when title and body are non-empty after trimming and a user
    with an e-mail address is present. *)
Theorem C5_ownership_checked_on_load :
  (forall W (h : Env W) (id : option string) (user : option User.t)
          (st : EditBlog.State) (w w' : W) (data : Blog.t),
      h _ (SelectBlogById id) w = (Success data, w') ->
      let o := run h (EditBlog.fetchBlog id user) st w in
      (option_map User.id user <> Some (Blog.author_id data) ->
       trace o =
       [Called (SelectBlogById id) (Success data);
        Updated (EditBlog.setError "You don't have permission to edit this blog");
        Called (SetTimeout (NavigateTo "/") 2000) tt;
        Updated (EditBlog.setLoading false)]
       /\ EditBlog.title (state o) = EditBlog.title st
       /\ EditBlog.content (state o) = EditBlog.content st)
      /\ (option_map User.id user = Some (Blog.author_id data) ->
          remote_calls (trace o) = [Called (SelectBlogById id) (Success data)]
          /\ EditBlog.title (state o) = Blog.title data
          /\ EditBlog.content (state o) = Blog.content data
          /\ EditBlog.error (state o) = EditBlog.error st))
  /\ (forall W (h : Env W) (id : option string) (user : option User.t)
             (s st : EditBlog.State) (w : W),
         let o := run h (EditBlog.handleSubmit id user s) st w in
         let ready :=
           (JS.truthy (JS.trim (EditBlog.title s))
            && JS.truthy (JS.trim (EditBlog.content s))
            && match user with
               | Some u => JS.opt_truthy (User.email u)
               | None => false
               end)%bool in
         (ready = false -> remote_calls (trace o) = [])
         /\ (ready = true ->
             exists u updated r,
               user = Some u
               /\ remote_calls (trace o) =
                  [Called (UpdateBlog id (patchOf u s updated)) r])).
Proof.
  split.
  - intros W h id user st w w' data Hload. unfold EditBlog.fetchBlog. simpl.
    rewrite Hload. split.
    + intros Hother.
      assert (Hne : match user with
                    | Some u => (Blog.author_id data =? User.id u)%string
                    | None => false
                    end = false).
      { destruct user as [u |]; [| reflexivity].
        apply String.eqb_neq. intros Heq. apply Hother. simpl. congruence. }
      rewrite Hne. drive h. repeat split.
    + intros Hsame.
      assert (Heq : match user with
                    | Some u => (Blog.author_id data =? User.id u)%string
                    | None => false
                    end = true).
      { destruct user as [u |]; [| discriminate].
        apply String.eqb_eq. simpl in Hsame. congruence. }
      rewrite Heq. drive h. repeat split.
  - intros W h id user s st w. unfold EditBlog.handleSubmit.
    destruct (JS.truthy (JS.trim (EditBlog.title s)));
      destruct (JS.truthy (JS.trim (EditBlog.content s)));
      destruct user as [u |]; try destruct (JS.opt_truthy (User.email u));
      drive h; (split; [intros Hr; first [reflexivity | discriminate] |]);
      intros Hr; try discriminate;
      eexists; eexists; eexists; split; reflexivity.
Qed.

(** ** Creating (C6) *)

(** C6 does not hold as written: Alice publishes a post, the router is
    called, then the alert is shown. *)
Lemma C6_counterexample : ~ C6_as_stated.
Proof.
  intros Hspec.
  specialize (Hspec _ (Store.env Sample.no_filter) (Some Sample.alice)
                Sample.draft Sample.draft Sample.store1 eq_refl).
  vm_compute in Hspec. discriminate.
Qed.

(** C6, as the code has it.  Neither form sends an insert when the body is
    empty after trimming or when nobody is signed in (the post form asks
    for a title and a user e-mail as well).  After a successful insert the
    post form clears title and body, calls the router for the home page
    and then shows the success alert; the comment form clears the body and
    the staged files and starts a re-fetch, with no alert and no
    navigation. *)
Theorem C6_create_guards_and_reset :
  (forall W (h : Env W) (user : option User.t) (s st : CreateBlog.State) (w : W),
      let o := run h (CreateBlog.handleSubmit user s) st w in
      (user = None \/ JS.truthy (JS.trim (CreateBlog.content s)) = false
       \/ JS.truthy (JS.trim (CreateBlog.title s)) = false
       \/ (exists u, user = Some u /\ JS.opt_truthy (User.email u) = false) ->
       remote_calls (trace o) = [] /\ CreateBlog.error (state o) <> "")
      /\ (existsb is_created (trace o) = true ->
          exists u created updated data,
            user = Some u
            /\ trace o =
               [Called PreventDefault tt;
                Updated (CreateBlog.setLoading true);
                Updated (CreateBlog.setError "");
                Called DateToISOString created;
                Called DateToISOString updated;
                Called (InsertBlog (blogRow u s created updated)) (Success data);
                Called (ConsoleLog "Blog created:") tt;
                Updated (CreateBlog.setTitle "");
                Updated (CreateBlog.setContent "");
                Called (Navigate "/") tt;
                Called (WindowAlert "Blog created successfully!") tt;
                Updated (CreateBlog.setLoading false)]
            /\ CreateBlog.title (state o) = ""
            /\ CreateBlog.content (state o) = ""))
  /\ (forall W (h : Env W) (user : option User.t) (blogId : string)
             (s st : Comments.State) (w : W),
         let o := run h (Comments.handleSubmit user blogId s) st w in
         (user = None \/ JS.truthy (JS.trim (Comments.content s)) = false ->
          trace o = [Called PreventDefault tt])
         /\ (existsb is_write (trace o) = true ->
             existsb is_failed_write (trace o) = false ->
             Comments.content (state o) = ""
             /\ Comments.uploadedFiles (state o) = []
             /\ existsb is_confirmation (trace o) = false
             /\ existsb is_navigation (trace o) = false
             /\ In (Called (Spawn FetchCommentsTask) tt) (trace o))).
Proof.
  split.
  - intros W h user s st w. unfold CreateBlog.handleSubmit. split.
    + intros Hguard.
      destruct user as [u |];
        [destruct (JS.truthy (JS.trim (CreateBlog.title s))) eqn:Ht;
         [destruct (JS.truthy (JS.trim (CreateBlog.content s))) eqn:Hc;
          [destruct (JS.opt_truthy (User.email u)) eqn:Hmail |] |] |];
        try (exfalso;
             destruct Hguard as [Hg | [Hg | [Hg | (u' & Hu & Hg)]]];
             [discriminate | discriminate | discriminate
             | inversion Hu; subst u'; congruence]);
        drive h; split; try reflexivity; discriminate.
    + destruct user as [u |];
        [destruct (JS.truthy (JS.trim (CreateBlog.title s)));
         [destruct (JS.truthy (JS.trim (CreateBlog.content s)));
          [destruct (JS.opt_truthy (User.email u)) |] |] |];
        drive h; intros Hdone; try discriminate.
      exists u. eexists; eexists; eexists. repeat split.
  - intros W h user blogId s st w. unfold Comments.handleSubmit. split.
    + intros Hguard.
      destruct user as [u |];
        [destruct (JS.truthy (JS.trim (Comments.content s))) eqn:Hc |];
        try (destruct Hguard as [Hg | Hg]; discriminate);
        drive h; reflexivity.
    + destruct user as [u |];
        [destruct (JS.truthy (JS.trim (Comments.content s))) |];
        [destruct (Comments.uploadedFiles s) as [| f fs];
         cbn [List.length Z.of_nat] | |];
        drive h; intros Hw Hf; try discriminate;
        repeat split; simpl; tauto.
Qed.

(** A no-break space is white space for [trim]: a body made of one is
    empty after trimming, and the comment form sends nothing for it. *)
Example no_break_space_is_trimmed :
  JS.trim (Comments.content blank_body) = ""
  /\ JS.trim (Comments.content blank_body ++ "hi" ++ Comments.content blank_body)
     = "hi"
  /\ trace (run (Store.env Sample.no_filter)
              (Comments.handleSubmit (Some Sample.alice) "b1" blank_body)
              blank_body Sample.store1)
     = [Called PreventDefault tt].
Proof. vm_compute. repeat split. Qed.

(** ** Upload limits (C10) *)

Lemma uploaded_app U (t1 t2 : list (Event U)) :
  uploaded (t1 ++ t2) = (uploaded t1 ++ uploaded t2)%list.
Proof. unfold uploaded. apply flat_map_app. Qed.

Lemma uploadEach_spec W (h : Env W) (files : list File.t) :
  forall (uploadedResults : list UploadedFile.t)
         (newPreviews : CommentFileUpload.Previews)
         (st : CommentFileUpload.State) (w : W),
    let o := run h (CommentFileUpload.uploadEach files uploadedResults newPreviews)
               st w in
    state o = st
    /\ Forall within_comment_limit (uploaded (trace o))
    /\ existsb is_files_callback (trace o) = false
    /\ (fst (fst (result o)) = None ->
        exists more,
          snd (fst (result o)) = (uploadedResults ++ more)%list
          /\ Forall staged_within_limit more
          /\ Forall within_comment_limit files)
    /\ (Exists (fun f => CommentFileUpload.maxSize < File.size f) files ->
        fst (fst (result o)) <> None).
Proof.
  induction files as [| file rest IH]; intros uploadedResults newPreviews st w.
  - simpl. repeat split; auto.
    + intros _. exists []. rewrite app_nil_r. auto.
    + intros Hex. inversion Hex.
  - cbn [CommentFileUpload.uploadEach].
    destruct (CommentFileUpload.maxSize <? File.size file) eqn:Hsize.
    + simpl. repeat split; auto; discriminate.
    + apply Z.ltb_ge in Hsize.
      assert (Hfile : within_comment_limit file)
        by (unfold within_comment_limit;
            unfold CommentFileUpload.maxSize in Hsize; lia).
      assert (Hrest : forall previews' now rnd (w1 : W),
        let o := run h
          (r <- call (StorageUpload "comment-files"
                        ("comment-files/" ++ JS.number_to_string now ++ "_" ++ rnd
                           ++ "." ++ JS.pop (JS.split "." (File.name file)))
                        file) ;;
           match r with
           | Failure uploadError => Ret (Some uploadError, uploadedResults, previews')
           | Success _ =>
               publicUrl <- call (StorageGetPublicUrl "comment-files"
                  ("comment-files/" ++ JS.number_to_string now ++ "_" ++ rnd
                     ++ "." ++ JS.pop (JS.split "." (File.name file)))) ;;
               CommentFileUpload.uploadEach rest
                 (uploadedResults ++
                    [{| UploadedFile.url := publicUrl;
                        UploadedFile.path :=
                          "comment-files/" ++ JS.number_to_string now ++ "_" ++ rnd
                            ++ "." ++ JS.pop (JS.split "." (File.name file));
                        UploadedFile.file := file |}])%list
                 previews'
           end) st w1 in
        state o = st
        /\ Forall within_comment_limit (uploaded (trace o))
        /\ existsb is_files_callback (trace o) = false
        /\ (fst (fst (result o)) = None ->
            exists more,
              snd (fst (result o)) = (uploadedResults ++ more)%list
              /\ Forall staged_within_limit more
              /\ Forall within_comment_limit (file :: rest))
        /\ (Exists (fun f => CommentFileUpload.maxSize < File.size f) (file :: rest) ->
            fst (fst (result o)) <> None)).
      { intros previews' now rnd w1.
        remember ("comment-files/" ++ JS.number_to_string now ++ "_" ++ rnd
                    ++ "." ++ JS.pop (JS.split "." (File.name file)))%string
          as filePath eqn:HfilePath.
        cbn [bind call]. cbn [run].
        destruct (h _ (StorageUpload "comment-files" filePath file) w1)
          as [[[] | uploadError] w2].
        - cbn [bind run].
          destruct (h _ (StorageGetPublicUrl "comment-files" filePath) w2)
            as [publicUrl w3].
          cbn [bind run].
          specialize (IH (uploadedResults ++
                            [{| UploadedFile.url := publicUrl;
                                UploadedFile.path := filePath;
                                UploadedFile.file := file |}])%list
                        previews' st w3).
          cbv zeta in IH. destruct IH as (Hst & Hup & Hcb & Hok & Hbad).
          cbn [result state trace]. repeat split.
          + exact Hst.
          + cbn [uploaded flat_map app]. constructor; assumption.
          + cbn [existsb is_files_callback orb]. exact Hcb.
          + intros Hnone. destruct (Hok Hnone) as (more & Hmore & Hsmall & Hfiles).
            eexists (_ :: more). rewrite Hmore, <- app_assoc. split; [reflexivity |].
            split; constructor; assumption.
          + intros Hex. apply Hbad. inversion Hex as [? ? Hhere | ? ? Hlater]; subst.
            * unfold within_comment_limit in Hfile.
              unfold CommentFileUpload.maxSize in Hhere. lia.
            * assumption.
        - cbn [bind run result state trace]. repeat split.
          + cbn [uploaded flat_map app]. constructor; [assumption | constructor].
          + discriminate.
          + discriminate. }
      destruct (JS.startsWith (File.type file) "image/").
      * cbn [bind call run].
        destruct (h _ (CreateObjectURL file) w) as [previewUrl w0].
        cbn [bind call run].
        destruct (h _ DateNow w0) as [now w1].
        cbn [bind call run].
        destruct (h _ MathRandomBase36 w1) as [rnd w2].
        specialize (Hrest (CommentFileUpload.assign (File.name file) previewUrl
                             newPreviews) now rnd w2).
        cbv zeta in Hrest. destruct Hrest as (Hst & Hup & Hcb & Hok & Hbad).
        cbn [result state trace]. repeat split; assumption.
      * cbn [bind call run].
        destruct (h _ DateNow w) as [now w1].
        cbn [bind call run].
        destruct (h _ MathRandomBase36 w1) as [rnd w2].
        specialize (Hrest newPreviews now rnd w2).
        cbv zeta in Hrest. destruct Hrest as (Hst & Hup & Hcb & Hok & Hbad).
        cbn [result state trace]. repeat split; assumption.
Qed.



(** A drop of a small picture and a file over the limit: the picture is
    sent, the large file is not, and nothing is staged. *)
Example drop_with_a_huge_file :
  let o := run (Store.env Sample.no_filter)
             (CommentFileUpload.onDrop [Sample.small_file; Sample.huge_file]
                CommentFileUpload.initial)
             CommentFileUpload.initial Sample.store1 in
  uploaded (trace o) = [Sample.small_file]
  /\ CommentFileUpload.uploadedFiles (state o) = []
  /\ CommentFileUpload.error (state o)
     = JS.dquote ++ "movie.zip" ++ JS.dquote ++ " exceeds 10MB limit".
Proof. vm_compute. repeat split. Qed.

Example cover_must_be_an_image :
  remote_calls
    (trace (run (Store.env Sample.no_filter)
              (ImageUpload.onDrop None [Sample.huge_file])
              {| ImageUpload.uploading := false; ImageUpload.error := "";
                 ImageUpload.preview := "" |} Sample.store1)) = [].
Proof. reflexivity. Qed.

(** ** Re-fetching on change notifications (C8) *)

Lemma last_cons A (l : list A) :
  forall (a d : A), last (a :: l) d = last l a.
Proof.
  induction l as [| b l IH]; intros a d.
  - reflexivity.
  - change (last (a :: b :: l) d) with (last (b :: l) d).
    rewrite (IH b d), (IH b a). reflexivity.
Qed.

Lemma last_in A (l : list A) (d : A) : l <> [] -> In (last l d) l.
Proof.
  induction l as [| a l IH]; intros Hne; [congruence |].
  destruct l as [| b l]; [left; reflexivity |].
  right. apply IH. discriminate.
Qed.

Section Quiet.

Context {U St W V : Type} `{Component U St}.

Variable h : Env W.

(** The backend is quiet: the answer to a call does not depend on when
    the call is answered. *)
Variable ans : forall X, Eff X -> X.
Hypothesis quiet : forall X (e : Eff X) (w : W), fst (@h X e w) = @ans X e.

Variable shown : St -> V.
Variable watch : U -> option V.
Hypothesis shown_apply :
  forall u st, shown (apply u st) =
               match watch u with
               | Some v => v
               | None => shown st
               end.

Lemma writes_bind A B (p : Prog U A) (f : A -> Prog U B) :
  writes ans watch (bind p f) =
  (writes ans watch p ++ writes ans watch (f (value ans p)))%list.
Proof.
  induction p as [a | u k IH | X e k IH]; cbn [bind writes value].
  - reflexivity.
  - rewrite IH, app_assoc. reflexivity.
  - apply IH.
Qed.

Lemma advance_writes (p : Prog U unit) :
  forall st w,
  exists pre,
    writes ans watch p =
    (pre ++ task_writes ans watch (fst (fst (Async.advance h p st w))))%list
    /\ shown (snd (fst (Async.advance h p st w))) = last pre (shown st).
Proof.
  induction p as [a | u k IH | X e k IH]; intros st w.
  - exists []. split; reflexivity.
  - cbn [Async.advance writes].
    destruct (IH (apply u st) w) as (pre & Hw & Hs).
    exists (written watch u ++ pre)%list. rewrite Hw, app_assoc.
    split; [reflexivity |].
    rewrite Hs, shown_apply. unfold written.
    destruct (watch u) as [v |]; [| reflexivity].
    cbn [app]. symmetry. apply last_cons.
  - cbn [Async.advance writes]. destruct (is_remote e).
    + exists []. split; reflexivity.
    + pose proof (@quiet _ e w) as Hq. destruct (@h _ e w) as [x w'].
      simpl in Hq. subst x. apply IH.
Qed.

Lemma run_shown (p : Prog U unit) :
  forall st w,
    shown (state (run h p st w)) = last (writes ans watch p) (shown st).
Proof.
  induction p as [a | u k IH | X e k IH]; intros st w.
  - reflexivity.
  - cbn [run writes state]. rewrite IH, shown_apply. unfold written.
    destruct (watch u) as [v |]; [| reflexivity].
    cbn [app]. symmetry. apply last_cons.
  - cbn [run writes]. pose proof (@quiet _ e w) as Hq.
    destruct (@h _ e w) as [x w']. simpl in Hq. subst x.
    cbn [state]. apply IH.
Qed.

Lemma put_Forall (P : @Async.TaskState U -> Prop) (t : @Async.TaskState U) :
  forall l i, Forall P l -> P t -> Forall P (Async.put i t l).
Proof.
  induction l as [| x l IH]; intros i Hl Ht.
  - destruct i; constructor.
  - inversion Hl; subst. destruct i; simpl; constructor; auto.
Qed.

Lemma nth_error_Forall (P : @Async.TaskState U -> Prop) l i t :
  Forall P l -> nth_error l i = Some t -> P t.
Proof.
  intros Hl Hn. rewrite Forall_forall in Hl. apply Hl.
  eapply nth_error_In. exact Hn.
Qed.

Variable on_notify : Prog U unit.
Variable st0 : St.
Variable J : V.
Hypothesis all_J : forall v, In v (writes ans watch on_notify) -> v = J.

(** Running a task on either leaves the watched part alone, with all the
    task's writes still to come, or sets it to [J]. *)
Lemma advance_inv (p : Prog U unit) (st : St) (w : W) :
  (forall v, In v (writes ans watch p) -> v = J) ->
  let r := Async.advance h p st w in
  only_J ans watch J (fst (fst r))
  /\ ((shown (snd (fst r)) = shown st
       /\ task_writes ans watch (fst (fst r)) = writes ans watch p)
      \/ (shown (snd (fst r)) = J /\ writes ans watch p <> [])).
Proof.
  intros HJ r. subst r.
  destruct (@advance_writes p st w) as (pre & Hw & Hs).
  split.
  - intros v Hv. apply HJ. rewrite Hw. apply in_or_app. right. exact Hv.
  - destruct pre as [| a pre].
    + left. split; [exact Hs | symmetry; exact Hw].
    + right. split.
      * rewrite Hs. apply HJ. rewrite Hw. apply in_or_app. left.
        apply last_in. discriminate.
      * rewrite Hw. discriminate.
Qed.

Lemma step_inv (s : @Async.Loop U St W) (t : @Async.Tick W) :
  inv ans watch on_notify J shown st0 s ->
  inv ans watch on_notify J shown st0 (Async.step h on_notify s t).
Proof.
  intros [Hall Hview]. destruct t as [| i | i | f].
  - cbn [Async.step].
    pose proof (@advance_inv on_notify (Async.view s) (Async.store s) all_J) as Ha.
    cbv zeta in Ha.
    destruct (Async.advance h on_notify (Async.view s) (Async.store s))
      as [[task st'] w'].
    cbn [fst snd] in Ha. destruct Ha as [HJ Hcase]. split.
    + cbn. apply Forall_app. split; [assumption | constructor; [assumption | constructor]].
    + cbn. destruct Hcase as [[Hsame Hw] | [HJv Hne]].
      * destruct Hview as [[Hv Hor] | [Hv Hun]].
        -- left. split; [congruence | assumption].
        -- right. split; [congruence |].
           apply Forall_app. split; [assumption |].
           constructor; [exact Hw | constructor].
      * left. split; [assumption | left; assumption].
  - cbn [Async.step].
    destruct (nth_error (Async.pool s) i) as [[X e k | p |] |] eqn:Hn;
      try (split; assumption).
    pose proof (@quiet _ e (Async.store s)) as Hq.
    destruct (@h _ e (Async.store s)) as [x w']. simpl in Hq. subst x.
    pose proof (@nth_error_Forall _ _ _ _ Hall Hn) as HJ.
    split.
    + cbn. apply put_Forall; assumption.
    + cbn. destruct Hview as [Hv | [Hv Hun]]; [left; assumption |].
      right. split; [assumption |].
      apply put_Forall; [assumption |].
      exact (@nth_error_Forall _ _ _ _ Hun Hn).
  - cbn [Async.step].
    destruct (nth_error (Async.pool s) i) as [[X e k | p |] |] eqn:Hn;
      try (split; assumption).
    pose proof (@nth_error_Forall _ _ _ _ Hall Hn) as HJ.
    pose proof (@advance_inv p (Async.view s) (Async.store s) HJ) as Ha.
    cbv zeta in Ha.
    destruct (Async.advance h p (Async.view s) (Async.store s))
      as [[task st'] w'].
    cbn [fst snd] in Ha. destruct Ha as [HJ' Hcase]. split.
    + cbn. apply put_Forall; assumption.
    + cbn. destruct Hcase as [[Hsame Hw] | [HJv Hne]].
      * destruct Hview as [[Hv Hor] | [Hv Hun]].
        -- left. split; [congruence | assumption].
        -- right. split; [congruence |].
           apply put_Forall; [assumption |].
           unfold untouched. rewrite Hw.
           exact (@nth_error_Forall _ _ _ _ Hun Hn).
      * left. split; [assumption |].
        destruct Hview as [[Hv Hor] | [Hv Hun]]; [assumption |].
        left. pose proof (@nth_error_Forall _ _ _ _ Hun Hn) as Hp.
        unfold untouched in Hp. cbn [task_writes] in Hp. congruence.
  - cbn [Async.step]. split; assumption.
Qed.

Lemma play_inv (ticks : list (@Async.Tick W)) :
  forall s,
    inv ans watch on_notify J shown st0 s ->
    inv ans watch on_notify J shown st0 (Async.play h on_notify s ticks).
Proof.
  induction ticks as [| t ticks IH]; intros s Hs.
  - exact Hs.
  - cbn [Async.play fold_left]. apply IH. apply step_inv. exact Hs.
Qed.

(** Under a quiet backend, once every fetch has ended the view shows what
    one run of the program from the first view shows. *)
Lemma quiet_settles (ticks : list (@Async.Tick W)) (w0 w : W) :
  let s := Async.play h on_notify
             {| Async.view := st0; Async.pool := []; Async.store := w0 |} ticks in
  Async.settled s = true ->
  Async.pool s <> [] ->
  shown (Async.view s) = shown (state (run h on_notify st0 w)).
Proof.
  intros s Hsettled Hpool. rewrite run_shown.
  assert (Hinv : inv ans watch on_notify J shown st0 s).
  { apply play_inv. split; [constructor |]. right. split; [reflexivity | constructor]. }
  destruct Hinv as [Hall Hview].
  destruct Hview as [[Hv Hor] | [Hv Hun]].
  - rewrite Hv. destruct (writes ans watch on_notify) as [| a l] eqn:Hw.
    + destruct Hor as [Hne | Hst]; [congruence | symmetry; exact Hst].
    + symmetry. apply all_J. apply last_in. discriminate.
  - rewrite Hv. unfold Async.settled in Hsettled.
    destruct (Async.pool s) as [| t rest]; [congruence |].
    inversion Hun as [| ? ? Ht _]; subst.
    cbn [forallb] in Hsettled. apply andb_true_iff in Hsettled.
    destruct Hsettled as [Hdone _].
    destruct t; try discriminate.
    unfold untouched in Ht. cbn [task_writes] in Ht. rewrite <- Ht. reflexivity.
Qed.

End Quiet.

Lemma comments_apply (u : Comments.Setter) (st : Comments.State) :
  Comments.comments (apply u st) =
  match watchComments u with
  | Some v => v
  | None => Comments.comments st
  end.
Proof. destruct u; reflexivity. Qed.

Lemma writes_join ans (cs : list CommentRow.t) :
  writes ans watchComments (mapM Comments.withAttachments cs) = [].
Proof.
  induction cs as [| c cs IH].
  - reflexivity.
  - cbn [mapM]. unfold Comments.withAttachments at 1.
    cbn [bind call writes written watchComments app].
    rewrite writes_bind, IH. reflexivity.
Qed.

Lemma writes_fetchComments ans (blogId : string) :
  (List.length (writes ans watchComments (Comments.fetchComments blogId)) <= 1)%nat.
Proof.
  unfold Comments.fetchComments.
  cbn [bind set call writes written watchComments app].
  destruct (ans _ (SelectComments blogId)) as [cs | err].
  - rewrite writes_bind, writes_join. cbn. lia.
  - cbn. lia.
Qed.

Lemma put_length U (t : @Async.TaskState U) :
  forall l i, List.length (Async.put i t l) = List.length l.
Proof.
  induction l as [| x l IH]; intros i; destruct i; simpl; auto.
Qed.

Lemma play_pool_length U St W `{Component U St} (h : Env W)
    (on_notify : Prog U unit) (ticks : list (@Async.Tick W)) :
  forall s : @Async.Loop U St W,
    List.length (Async.pool (Async.play h on_notify s ticks))
    = (List.length (Async.pool s) + notifications ticks)%nat.
Proof.
  induction ticks as [| t ticks IH]; intros s.
  - simpl. lia.
  - cbn [Async.play fold_left].
    fold (Async.play h on_notify (Async.step h on_notify s t) ticks).
    rewrite IH. destruct t as [| i | i | f]; cbn [Async.step notifications].
    + destruct (Async.advance h on_notify (Async.view s) (Async.store s))
        as [[task st'] w'].
      cbn. rewrite length_app. simpl. lia.
    + destruct (nth_error (Async.pool s) i) as [[X e k | p |] |]; try reflexivity.
      destruct (h X e (Async.store s)) as [x w']. cbn. rewrite put_length. reflexivity.
    + destruct (nth_error (Async.pool s) i) as [[X e k | p |] |]; try reflexivity.
      destruct (Async.advance h p (Async.view s) (Async.store s))
        as [[task st'] w'].
      cbn. rewrite put_length. reflexivity.
    + reflexivity.
Qed.

(** C8 does not hold as written: in the schedule [overtaken] the fetch
    that read the older rows ends last. *)
Lemma C8_counterexample : ~ C8_as_stated.
Proof.
  intros Hspec.
  specialize (Hspec Sample.store1 overtaken eq_refl
                ltac:(vm_compute; discriminate)).
  vm_compute in Hspec. discriminate.
Qed.

(** C8, as the code has it.  Every change notification starts a fetch of
    its own, whatever is in flight: the pool grows by one task that waits
    for the answer to its own list query, and nothing is dropped or merged.
    If the answers of the backend do not change during the burst, then
    once every fetch has ended the view shows what one fresh fetch from the
    first view shows, in whatever order the fetches were answered and
    resumed. *)
Theorem C8_refetch_settles_when_quiet W (h : Env W)
    (ans : forall X, Eff X -> X)
    (Hquiet : forall X (e : Eff X) (w : W), fst (h X e w) = ans X e)
    (blogId : string) (st0 : Comments.State) (w0 w : W)
    (ticks : list (@Async.Tick W)) :
  let fetch := Comments.fetchComments blogId in
  let s := Async.play h fetch
             {| Async.view := st0; Async.pool := []; Async.store := w0 |} ticks in
  (forall s' : @Async.Loop Comments.Setter Comments.State W,
      exists k,
        Async.pool (Async.step h fetch s' Async.Notify) =
        (Async.pool s' ++ [Async.Waiting (SelectComments blogId) k])%list)
  /\ List.length (Async.pool s) = notifications ticks
  /\ (Async.settled s = true ->
      Async.pool s <> [] ->
      Comments.comments (Async.view s) =
      Comments.comments (state (run h fetch st0 w))).
Proof.
  intros fetch s. split; [| split].
  - intros s'. eexists. reflexivity.
  - unfold s. rewrite play_pool_length. reflexivity.
  - intros Hsettled Hpool.
    apply (@quiet_settles _ _ _ _ _ h ans Hquiet Comments.comments watchComments
             comments_apply fetch st0
             (Comments.comments (state (run h fetch st0 w)))); try assumption.
    intros v Hv.
    rewrite (@run_shown _ _ _ _ _ h ans Hquiet Comments.comments watchComments
               comments_apply).
    pose proof (writes_fetchComments ans blogId) as Hlen.
    fold fetch in Hlen.
    destruct (writes ans watchComments fetch) as [| a [| b l]]; simpl in *.
    + contradiction.
    + destruct Hv as [Hv | []]. congruence.
    + lia.
Qed.

Lemma C8_refetch_settles_when_quiet_witness :
  let fetch := Comments.fetchComments "b1" in
  let s := Async.play quiet_store fetch
             {| Async.view := Comments.initial; Async.pool := [];
                Async.store := tt |} interleaved in
  (forall s' : @Async.Loop Comments.Setter Comments.State unit,
      exists k,
        Async.pool (Async.step quiet_store fetch s' Async.Notify) =
        (Async.pool s' ++ [Async.Waiting (SelectComments "b1") k])%list)
  /\ List.length (Async.pool s) = notifications interleaved
  /\ (Async.settled s = true ->
      Async.pool s <> [] ->
      Comments.comments (Async.view s) =
      Comments.comments (state (run quiet_store fetch Comments.initial tt))).
Proof.
  exact (@C8_refetch_settles_when_quiet unit quiet_store
           (fun X e => fst (Store.serve Sample.no_filter e Sample.store1))
           (fun X e w => eq_refl) "b1" Comments.initial tt tt interleaved).
Defined.

Example interleaved_settles :
  Async.settled
    (Async.play quiet_store (Comments.fetchComments "b1")
       {| Async.view := Comments.initial; Async.pool := []; Async.store := tt |}
       interleaved) = true
  /\ map Comment.id
       (Comments.comments
          (Async.view
             (Async.play quiet_store (Comments.fetchComments "b1")
                {| Async.view := Comments.initial; Async.pool := [];
                   Async.store := tt |} interleaved))) = ["c1"].
Proof. vm_compute. split; reflexivity. Qed.

(** * Properties of the rest of the client *)

(** ** The page strip of [BlogList] *)

Lemma consecutive_succ (first : Z) (n : nat) :
  consecutive first (S n) = first :: consecutive (first + 1) n.
Proof.
  unfold consecutive. cbn [seq map]. f_equal; [lia |].
  rewrite <- seq_shift, map_map. apply map_ext. intros k. lia.
Qed.

Lemma pushPages_consecutive (fuel : nat) :
  forall (i endPage : Z) (pages : list Z),
    (Z.to_nat (endPage - i + 1) < fuel)%nat ->
    BlogListControls.pushPages fuel i endPage pages =
    (pages ++ consecutive i (Z.to_nat (endPage - i + 1)))%list.
Proof.
  induction fuel as [| fuel IH]; intros i endPage pages Hfuel; [lia |].
  cbn [BlogListControls.pushPages].
  destruct (i <=? endPage) eqn:Hle.
  - apply Z.leb_le in Hle.
    rewrite IH by lia.
    replace (Z.to_nat (endPage - i + 1))
      with (S (Z.to_nat (endPage - (i + 1) + 1))) by lia.
    rewrite consecutive_succ, <- app_assoc. reflexivity.
  - apply Z.leb_gt in Hle.
    replace (Z.to_nat (endPage - i + 1)) with O by lia.
    unfold consecutive. simpl. rewrite app_nil_r. reflexivity.
Qed.

Lemma in_consecutive (first : Z) (n : nat) (p : Z) :
  In p (consecutive first n) <-> first <= p < first + Z.of_nat n.
Proof.
  unfold consecutive. rewrite in_map_iff. split.
  - intros (k & Hk & Hin). apply in_seq in Hin. lia.
  - intros Hp. exists (Z.to_nat (p - first)). split; [lia |].
    apply in_seq. lia.
Qed.


(** The strip, spelled out: where it starts and how many numbers it has. *)
Lemma getPageNumbers_consecutive (s : BlogList.State) :
  let c := BlogList.currentPage s in
  let T := BlogList.totalPages s in
  let start0 := Z.max 1 (c - 2) in
  let endPage := Z.min T (start0 + 4) in
  let start := if (endPage - start0 + 1 <? 5) then Z.max 1 (endPage - 4) else start0 in
  BlogListControls.getPageNumbers s =
  consecutive start (Z.to_nat (endPage - start + 1)).
Proof.
  intros c T start0 endPage start.
  unfold BlogListControls.getPageNumbers.
  change (BlogListControls.floor
            (JSMath.div BlogListControls.maxVisiblePages 2)) with 2.
  unfold BlogListControls.maxVisiblePages.
  fold c T.
  replace (Z.max 1 (c - 2) + 5 - 1) with (start0 + 4) by (unfold start0; lia).
  fold start0. fold endPage.
  replace (endPage - 5 + 1) with (endPage - 4) by lia.
  fold start.
  rewrite pushPages_consecutive by lia.
  reflexivity.
Qed.

Lemma page_strip_bounds (s : BlogList.State) (p : Z) :
  In p (BlogListControls.getPageNumbers s) -> 1 <= p <= BlogList.totalPages s.
Proof.
  rewrite getPageNumbers_consecutive. cbv zeta.
  set (c := BlogList.currentPage s). set (T := BlogList.totalPages s).
  set (start0 := Z.max 1 (c - 2)).
  set (endPage := Z.min T (start0 + 4)).
  intros Hin. apply in_consecutive in Hin.
  destruct (endPage - start0 + 1 <? 5); unfold endPage, start0 in *; lia.
Qed.




Example page_strip_near_the_end :
  BlogListControls.getPageNumbers (on_page 9 9) = [5; 6; 7; 8; 9]
  /\ BlogListControls.getPageNumbers (on_page 1 3) = [1; 2; 3]
  /\ BlogListControls.getPageNumbers (on_page 1 0) = [].
Proof. vm_compute. repeat split. Qed.

(** ** The storage path of an attachment URL *)

Lemma split_nonempty (sep : ascii) (s : string) : JS.split sep s <> [].
Proof.
  destruct s as [| c s]; simpl; [discriminate |].
  destruct (Ascii.eqb c sep); [discriminate |].
  destruct (JS.split sep s); discriminate.
Qed.

(** Joining what was split gives the text back. *)
Lemma join_split (sep : ascii) (s : string) :
  JS.join (String sep EmptyString) (JS.split sep s) = s.
Proof.
  unfold JS.join. induction s as [| c s IH]; [reflexivity |].
  cbn [JS.split]. destruct (Ascii.eqb c sep) eqn:E.
  - apply Ascii.eqb_eq in E. subst c.
    pose proof (split_nonempty sep s) as Hne.
    destruct (JS.split sep s) as [| h t]; [congruence |].
    cbn [String.concat] in *. rewrite IH. reflexivity.
  - pose proof (split_nonempty sep s) as Hne.
    destruct (JS.split sep s) as [| h t]; [congruence |].
    destruct t as [| h' t'].
    + cbn [String.concat] in *. rewrite IH. reflexivity.
    + cbn [String.concat] in *. rewrite <- IH. reflexivity.
Qed.

Lemma join_cons (sep x : string) (parts : list string) :
  parts <> [] -> JS.join sep (x :: parts) = x ++ sep ++ JS.join sep parts.
Proof. intros Hne. destruct parts; [congruence | reflexivity]. Qed.

Lemma split_app (sep : ascii) (a b : string) :
  JS.split sep (a ++ String sep b) = (JS.split sep a ++ JS.split sep b)%list.
Proof.
  induction a as [| c a IH].
  - simpl. rewrite Ascii.eqb_refl. reflexivity.
  - cbn [append JS.split]. rewrite IH.
    destruct (Ascii.eqb c sep); [reflexivity |].
    pose proof (split_nonempty sep a) as Hne.
    destruct (JS.split sep a) as [| h t]; [congruence | reflexivity].
Qed.

Lemma indexOf_absent (x : string) (parts : list string) :
  ~ In x parts -> JS.indexOf x parts = -1.
Proof.
  induction parts as [| p rest IH]; intros Hnot; [reflexivity |].
  cbn [JS.indexOf]. destruct (p =? x)%string eqn:E.
  - apply String.eqb_eq in E. subst. exfalso. apply Hnot. left. reflexivity.
  - rewrite IH by (intros Hin; apply Hnot; right; exact Hin). reflexivity.
Qed.

Lemma indexOf_first (x : string) (before after : list string) :
  ~ In x before ->
  JS.indexOf x (before ++ x :: after) = Z.of_nat (List.length before).
Proof.
  induction before as [| p rest IH]; intros Hnot.
  - cbn [app JS.indexOf]. rewrite String.eqb_refl. reflexivity.
  - cbn [app JS.indexOf]. destruct (p =? x)%string eqn:E.
    + apply String.eqb_eq in E. subst. exfalso. apply Hnot. left. reflexivity.
    + rewrite IH by (intros Hin; apply Hnot; right; exact Hin).
      destruct (Z.of_nat (List.length rest) <? 0) eqn:Hneg;
        [apply Z.ltb_lt in Hneg; lia |].
      cbn [List.length]. lia.
Qed.

Lemma slice_after (before after : list string) :
  JS.slice (Z.of_nat (List.length before)) (before ++ after) = after.
Proof.
  unfold JS.slice. rewrite length_app.
  destruct (Z.of_nat (List.length before) <? 0) eqn:Hneg;
    [apply Z.ltb_lt in Hneg; lia |].
  replace (Z.to_nat (Z.min (Z.of_nat (List.length before))
                       (Z.of_nat (List.length before + List.length after))))
    with (List.length before) by lia.
  rewrite skipn_app, skipn_all, Nat.sub_diag. reflexivity.
Qed.

Lemma slice_last (parts : list string) :
  parts <> [] -> JS.slice (-1) parts = [JS.pop parts].
Proof.
  intros Hne. unfold JS.slice, JS.pop. cbn [Z.ltb Z.compare].
  induction parts as [| p rest IH]; [congruence |].
  destruct rest as [| q rest'].
  - reflexivity.
  - specialize (IH ltac:(discriminate)).
    replace (Z.to_nat (Z.max (Z.of_nat (List.length (p :: q :: rest')) + -1) 0))
      with (S (Z.to_nat (Z.max (Z.of_nat (List.length (q :: rest')) + -1) 0)))
      by (cbn [List.length]; lia).
    cbn [skipn]. rewrite IH. reflexivity.
Qed.

(** X3.  [handleDelete] takes as storage path of an attachment its URL
    from the first path segment [comment-files] on; a URL that names the
    bucket only inside a longer segment gives its last segment. *)
Theorem X3_storage_path_of_url :
  (forall base rest : string,
      ~ In "comment-files" (JS.split "/" base) ->
      Comments.storagePath (base ++ "/comment-files/" ++ rest)
      = "comment-files/" ++ rest)
  /\ (forall url : string,
         ~ In "comment-files" (JS.split "/" url) ->
         Comments.storagePath url = JS.pop (JS.split "/" url)).
Proof.
  split.
  - intros base rest Hbase. unfold Comments.storagePath.
    change (base ++ "/comment-files/" ++ rest)
      with (base ++ String "/" ("comment-files" ++ String "/" rest)).
    rewrite split_app, split_app.
    change (JS.split "/" "comment-files") with ["comment-files"].
    cbn [app]. rewrite indexOf_first by exact Hbase.
    rewrite slice_after.
    rewrite join_cons by apply split_nonempty.
    rewrite join_split. reflexivity.
  - intros url Hnone. unfold Comments.storagePath.
    rewrite indexOf_absent by exact Hnone.
    rewrite slice_last by apply split_nonempty.
    reflexivity.
Qed.

(** The public URL of the reference store names the bucket before the
    path, so the path derived from it names the bucket twice. *)
Example storage_path_of_a_public_url :
  Comments.storagePath
    "https://storage.example/comment-files/comment-files/17_ab.png"
  = "comment-files/comment-files/17_ab.png"
  /\ Comments.storagePath "https://cdn.example/my-comment-files-x/a.png" = "a.png".
Proof. vm_compute. split; reflexivity. Qed.

(** ** Loading the list of posts *)

(** X4.  [fetchBlogs] ends with the loading flag off whatever happens.  A
    successful answer replaces the list and leaves the error text as it
    was (an earlier error stays on the page); a failed one keeps the list
    and shows the error's message, or [Failed to load blogs] when the
    message is empty. *)
Theorem X4_list_fetch_outcomes W (h : Env W) (s st : BlogList.State) (w : W) :
  let o := run h (BlogList.fetchBlogs s) st w in
  BlogList.loading (state o) = false
  /\ BlogList.currentPage (state o) = BlogList.currentPage st
  /\ match fst (h _ (SelectBlogs (BlogList.blogsQuery s)) w) with
     | Success data =>
         BlogList.blogs (state o) = data
         /\ BlogList.error (state o) = BlogList.error st
     | Failure err =>
         BlogList.blogs (state o) = BlogList.blogs st
         /\ BlogList.error (state o)
            = JS.or_else (message err) "Failed to load blogs"
         /\ BlogList.error (state o) <> ""
     end.
Proof.
  unfold BlogList.fetchBlogs. cbn [bind set call run].
  destruct (h _ (SelectBlogs (BlogList.blogsQuery s)) w) as [[data | err] w'];
    simpl; repeat split.
  apply or_else_nonempty. discriminate.
Qed.

(** X5.  [fetchTotalCount] stores 0 posts and 0 pages when the answer
    holds no count; when the query fails it changes nothing on the page,
    total and page count included, and only logs the error. *)
Theorem X5_count_edge_cases W (h : Env W) (st : BlogList.State) (w : W) :
  let o := run h BlogList.fetchTotalCount st w in
  match fst (h _ CountBlogs w) with
  | Success None =>
      BlogList.totalBlogs (state o) = 0 /\ BlogList.totalPages (state o) = 0
  | Success (Some n) => BlogList.totalBlogs (state o) = n
  | Failure err =>
      state o = st
      /\ trace o = [Called CountBlogs (Failure err);
                    Called (ConsoleError "Error fetching count:" err) tt]
  end.
Proof.
  unfold BlogList.fetchTotalCount. cbn [bind set call run].
  destruct (h _ CountBlogs w) as [[[n |] | err] w']; simpl.
  - reflexivity.
  - split; reflexivity.
  - destruct (h _ (ConsoleError "Error fetching count:" err) w') as [[] w2].
    simpl. split; reflexivity.
Qed.

(** X6.  The two search buttons re-fetch with the function of the render
    they belong to: the query sent is built from the page and the search
    text of that render, not from the page 1 (and the empty text) they
    set; its window starts at row [(currentPage - 1) * 6] of that render
    (while [currentPage * 6] is at most [2 ^ 53], so that the product is
    exact).  After a clear with a search text in the box, the query sent
    still filters by that text while the box is empty. *)
Theorem X6_search_buttons_fetch_the_old_query W (h : Env W)
    (s st : BlogList.State) (w : W) :
  let cleared := run h (BlogListControls.handleClearSearch s) st w in
  let searched := run h (BlogListControls.handleSearch s) st w in
  (exists r,
      remote_calls (trace cleared) = [Called (SelectBlogs (BlogList.blogsQuery s)) r])
  /\ BlogList.search (state cleared) = ""
  /\ BlogList.currentPage (state cleared) = 1
  /\ (exists r,
         remote_calls (trace searched)
         = [Called (SelectBlogs (BlogList.blogsQuery s)) r])
  /\ BlogList.currentPage (state searched) = 1
  /\ (1 <= BlogList.currentPage s -> BlogList.currentPage s * 6 <= 2 ^ 53 ->
      BlogQuery.range_from (BlogList.blogsQuery s)
      = (BlogList.currentPage s - 1) * 6)
  /\ (JS.truthy (JS.trim (BlogList.search s)) = true ->
      BlogQuery.or_filter (BlogList.blogsQuery s) <> None
      /\ BlogQuery.or_filter (BlogList.blogsQuery (state cleared)) = None).
Proof.
  unfold BlogListControls.handleClearSearch, BlogListControls.handleSearch,
    BlogList.fetchBlogs.
  cbn [bind set call run].
  destruct (h _ (SelectBlogs (BlogList.blogsQuery s)) w) as [[data | err] w'];
    simpl; (split; [eexists; reflexivity |]);
    (split; [reflexivity |]); (split; [reflexivity |]);
    (split; [eexists; reflexivity |]);
    (split; [reflexivity |]);
    (split; [intros Hpage Hexact;
             apply (@window_exact (BlogList.currentPage s) 6 Hpage ltac:(lia) Hexact)
            |]);
    intros Hsearch; unfold BlogList.blogsQuery; simpl; rewrite Hsearch;
    split; [discriminate | reflexivity | discriminate | reflexivity].
Qed.

Example clear_search_on_page_one :
  let s := {| BlogList.blogs := []; BlogList.loading := false;
              BlogList.error := ""; BlogList.search := "rocq";
              BlogList.currentPage := 1; BlogList.totalBlogs := 20;
              BlogList.totalPages := 4; BlogList.commentCounts := [] |} in
  let o := run (Store.env Sample.no_filter)
             (BlogListControls.handleClearSearch s) s Sample.twenty in
  BlogList.search (state o) = ""
  /\ map (fun q => BlogQuery.or_filter q)
       [BlogList.blogsQuery s] = [Some "title.ilike.%rocq%,content.ilike.%rocq%"]
  /\ List.length (remote_calls (trace o)) = 1%nat.
Proof. vm_compute. repeat split. Qed.

(** ** Turning pages *)

(** X7.  [goToPage] changes the page only to a number from 1 to the
    number of pages, and scrolls to the top when it does; any other number
    is ignored.  Every number of the page strip is accepted, and the next
    window never starts before row 0. *)
Theorem X7_pages_stay_in_range W (h : EnvX W) (page : Z)
    (s st : BlogList.State) (w : W) :
  let o := runX h (BlogListX.goToPage page s) st w in
  (1 <= page <= BlogList.totalPages s ->
   BlogList.currentPage (stateX o) = page
   /\ exists x,
        traceX o = [UpdatedX (BlogList.setCurrentPage page);
                    CalledX (WindowScrollTo 0 "smooth") x])
  /\ (~ (1 <= page <= BlogList.totalPages s) -> stateX o = st /\ traceX o = [])
  /\ (forall p, In p (BlogListControls.getPageNumbers s) ->
      BlogList.currentPage (stateX (runX h (BlogListX.goToPage p s) st w)) = p)
  /\ (1 <= BlogList.currentPage st ->
      0 <= BlogQuery.range_from (BlogList.blogsQuery (stateX o))).
Proof.
  assert (Hin : forall p, 1 <= p <= BlogList.totalPages s ->
            ((p <? 1) || (BlogList.totalPages s <? p))%bool = false).
  { intros p Hp. apply orb_false_iff. split; [apply Z.ltb_ge | apply Z.ltb_ge]; lia. }
  assert (Hout : ~ (1 <= page <= BlogList.totalPages s) ->
            ((page <? 1) || (BlogList.totalPages s <? page))%bool = true).
  { intros Hp. apply orb_true_iff.
    destruct (page <? 1) eqn:E1; [left; reflexivity |].
    right. apply Z.ltb_ge in E1. apply Z.ltb_lt. lia. }
  cbv zeta. unfold BlogListX.goToPage. repeat split.
  - rewrite (Hin page H). cbn. destruct (h _ (WindowScrollTo 0 "smooth") w). reflexivity.
  - rewrite (Hin page H). cbn. destruct (h _ (WindowScrollTo 0 "smooth") w) as [x w'].
    exists x. reflexivity.
  - rewrite (Hout H). reflexivity.
  - rewrite (Hout H). reflexivity.
  - intros p Hp. rewrite (Hin p (page_strip_bounds s p Hp)). cbn.
    destruct (h _ (WindowScrollTo 0 "smooth") w). reflexivity.
  - intros Hst.
    destruct ((page <? 1) || (BlogList.totalPages s <? page))%bool eqn:E.
    + cbn. apply window_start_nonneg; [exact Hst |].
      unfold BlogList.ITEMS_PER_PAGE. lia.
    + cbn. destruct (h _ (WindowScrollTo 0 "smooth") w). cbn.
      apply orb_false_iff in E. destruct E as [E1 _]. apply Z.ltb_ge in E1.
      apply window_start_nonneg; [exact E1 |].
      unfold BlogList.ITEMS_PER_PAGE. lia.
Qed.

(** ** Counting comments *)

Lemma commentCount_bump (id key : string) (counts : list (string * Z)) :
  BlogListX.commentCount id (BlogListX.bump key counts) =
  BlogListX.commentCount id counts + (if (key =? id)%string then 1 else 0).
Proof.
  induction counts as [| [k v] rest IH]; cbn [BlogListX.bump BlogListX.commentCount].
  - destruct (key =? id)%string; lia.
  - destruct (k =? key)%string eqn:Ekey.
    + apply String.eqb_eq in Ekey. subst k.
      cbn [BlogListX.commentCount]. destruct (key =? id)%string; lia.
    + cbn [BlogListX.commentCount]. destruct (k =? id)%string eqn:Eid.
      * apply String.eqb_eq in Eid. subst k. rewrite String.eqb_sym, Ekey. lia.
      * exact IH.
Qed.

Lemma totalComments_from (values : list Z) (start : Z) :
  fold_left (fun sum count => sum + count) values start
  = start + fold_left (fun sum count => sum + count) values 0.
Proof.
  revert start. induction values as [| v rest IH]; intros start; cbn [fold_left].
  - lia.
  - rewrite (IH (start + v)), (IH (0 + v)). lia.
Qed.

Lemma totalComments_bump (key : string) (counts : list (string * Z)) :
  totalComments (BlogListX.bump key counts) = totalComments counts + 1.
Proof.
  unfold totalComments.
  induction counts as [| [k v] rest IH]; cbn [BlogListX.bump map snd fold_left].
  - reflexivity.
  - destruct (k =? key)%string; cbn [map snd fold_left].
    + rewrite (totalComments_from _ (0 + (v + 1))), (totalComments_from _ (0 + v)). lia.
    + rewrite (totalComments_from _ (0 + v)), IH, (totalComments_from _ (0 + v)). lia.
Qed.

Lemma countByBlog_from (id : string) (data : list string) :
  forall counts,
    BlogListX.commentCount id
      (fold_left (fun counts blog_id => BlogListX.bump blog_id counts) data counts)
    = BlogListX.commentCount id counts
      + Z.of_nat (count_occ string_dec data id)
    /\ totalComments
         (fold_left (fun counts blog_id => BlogListX.bump blog_id counts) data counts)
       = totalComments counts + Z.of_nat (List.length data).
Proof.
  induction data as [| d rest IH]; intros counts; cbn [fold_left count_occ List.length].
  - split; lia.
  - destruct (IH (BlogListX.bump d counts)) as [Hc Ht].
    rewrite Hc, Ht, commentCount_bump, totalComments_bump.
    destruct (string_dec d id) as [Heq | Hne].
    + subst. rewrite String.eqb_refl. split; lia.
    + apply String.eqb_neq in Hne. rewrite Hne. split; lia.
Qed.

(** X8.  After [fetchCommentCounts] the number shown on a post's card is
    the number of comment rows returned for that post (0 for a post with
    none), and the total below the cards is the number of rows; when the
    query fails the counts stay as they were.  While the page shows no
    post the counts are not asked for. *)
Theorem X8_comment_counts W (h : EnvX W) (s st : BlogList.State) (w : W) :
  let o := runX h (BlogListX.fetchCommentCounts s) st w in
  (BlogList.blogs s = [] -> traceX (runX h (BlogListX.onBlogsChange s) st w) = [])
  /\ match fst (h _ (SelectCommentBlogIds (map Blog.id (BlogList.blogs s))) w) with
     | Success data =>
         (forall id,
             BlogListX.commentCount id (BlogList.commentCounts (stateX o))
             = Z.of_nat (count_occ string_dec data id))
         /\ totalComments (BlogList.commentCounts (stateX o))
            = Z.of_nat (List.length data)
     | Failure err => stateX o = st
     end.
Proof.
  cbv zeta. split.
  { intros Hnone. unfold BlogListX.onBlogsChange. rewrite Hnone. reflexivity. }
  unfold BlogListX.fetchCommentCounts. cbn [bindX setX callX runX].
  destruct (h _ (SelectCommentBlogIds (map Blog.id (BlogList.blogs s))) w)
    as [[data | err] w'];
    cbn -[BlogListX.countByBlog totalComments BlogListX.commentCount].
  - unfold BlogListX.countByBlog. split.
    + intros id. destruct (countByBlog_from id data []) as [Hc _].
      rewrite Hc. reflexivity.
    + destruct (countByBlog_from "" data []) as [_ Ht].
      rewrite Ht. reflexivity.
  - destruct (h _ (Core (ConsoleError "Error fetching comment counts:" err)) w').
    reflexivity.
Qed.

Example counts_of_the_sample_store :
  let s := {| BlogList.blogs := [Sample.post1]; BlogList.loading := false;
              BlogList.error := ""; BlogList.search := "";
              BlogList.currentPage := 1; BlogList.totalBlogs := 1;
              BlogList.totalPages := 1; BlogList.commentCounts := [] |} in
  BlogList.commentCounts
    (stateX (runX (StoreX.env Sample.no_filter) (BlogListX.onBlogsChange s) s
               (Store.with_comments [Sample.row1; Sample.row2] Sample.store1)))
  = [("b1", 2)].
Proof. vm_compute. reflexivity. Qed.

(** ** Editing a comment *)

(** X18.  [handleUpdate] sends nothing when the edited text is empty after
    trimming.  Otherwise it sends one update, for the comment's identifier
    and the current user's identifier, carrying the trimmed text; when the
    update succeeds the editor is closed and emptied and a re-fetch is
    started, when it fails the editor stays open with its text and the
    error's message is shown. *)
Theorem X18_comment_update W (h : EnvX W) (user : option User.t)
    (commentId : string) (s st : Comments.State) (w : W) :
  let o := runX h (CommentsX.handleUpdate user commentId s) st w in
  (JS.truthy (JS.trim (Comments.editContent s)) = false -> traceX o = [])
  /\ (JS.truthy (JS.trim (Comments.editContent s)) = true ->
      exists updated r,
        remote_callsX (traceX o)
        = [CalledX (UpdateComment commentId (option_map User.id user)
                      {| CommentUpdate.content := JS.trim (Comments.editContent s);
                         CommentUpdate.updated_at := updated |}) r]
        /\ match r with
           | Success _ =>
               Comments.editingCommentId (stateX o) = None
               /\ Comments.editContent (stateX o) = ""
               /\ Comments.error (stateX o) = Comments.error st
               /\ In (CalledX (Core (Spawn FetchCommentsTask)) tt) (traceX o)
           | Failure err =>
               Comments.editingCommentId (stateX o) = Comments.editingCommentId st
               /\ Comments.editContent (stateX o) = Comments.editContent st
               /\ Comments.error (stateX o) = message err
           end).
Proof.
  cbv zeta. unfold CommentsX.handleUpdate.
  destruct (JS.truthy (JS.trim (Comments.editContent s))); cbn [negb];
    (split; [intros Hb; first [reflexivity | discriminate] |]);
    intros Hb; try discriminate.
  cbn [bindX setX callX runX].
  destruct (h _ (Core DateToISOString) w) as [updated w1].
  cbn [bindX runX].
  destruct (h _ (UpdateComment commentId (option_map User.id user)
                   {| CommentUpdate.content := JS.trim (Comments.editContent s);
                      CommentUpdate.updated_at := updated |}) w1)
    as [[[] | err] w2]; cbn.
  - destruct (h _ (Core (Spawn FetchCommentsTask)) w2) as [[] w3]. cbn.
    exists updated, (Success tt). repeat split. do 4 right. left. reflexivity.
  - exists updated, (Failure err). repeat split.
Qed.

(** ** Taking staged files back *)

Lemma withoutIndex_spec A (index : nat) :
  forall files : list A,
    (index < List.length files)%nat ->
    CommentFileRemoval.withoutIndex index files
    = (firstn index files ++ skipn (S index) files)%list.
Proof.
  induction index as [| i IH]; intros [| f rest] Hlt; simpl in *; try lia.
  - reflexivity.
  - rewrite IH by lia. reflexivity.
Qed.

Lemma withoutIndex_Forall A (P : A -> Prop) (index : nat) :
  forall files : list A,
    Forall P files -> Forall P (CommentFileRemoval.withoutIndex index files).
Proof.
  induction index as [| i IH]; intros [| f rest] Hall; simpl; auto;
    inversion Hall; subst; auto.
Qed.

Lemma run_mapM_revoke_trace W (h : Env W) (urls : list string) :
  forall (st : CommentFileUpload.State) (w : W),
    let o := run h (mapM (fun url => call (U := CommentFileUpload.Setter)
                                       (RevokeObjectURL url)) urls) st w in
    state o = st
    /\ revoked (trace o) = urls
    /\ handed_over (trace o) = []
    /\ remote_calls (trace o) = [].
Proof.
  induction urls as [| url rest IH]; intros st w.
  - simpl. auto.
  - cbn [mapM bind call run].
    destruct (h _ (RevokeObjectURL url) w) as [[] w1].
    cbn [bind]. rewrite run_bind. cbv zeta.
    destruct (IH st w1) as (Hst & Hrev & Hhand & Hrem).
    cbn [result state trace run]. rewrite Hst.
    rewrite app_nil_r.
    cbn [revoked handed_over remote_calls flat_map filter app event_is_remote
         is_remote].
    unfold revoked, handed_over, remote_calls in *.
    rewrite Hrev, Hhand, Hrem. auto.
Qed.

(** X9.  [handleRemoveFile] asks storage once to remove the path of the
    file at the clicked position and does not look at the answer: the file
    leaves the staged list, the others keep their order, the comment form
    is handed the list that is now staged, and no error is set, whether
    storage removed the object or refused.  Files within the size limit
    stay within it. *)
Theorem X9_remove_staged_file W (h : Env W) (index : nat)
    (s st : CommentFileUpload.State) (w : W) :
  let o := run h (CommentFileRemoval.handleRemoveFile index s) st w in
  let files := CommentFileUpload.uploadedFiles s in
  forall fileToRemove,
    nth_error files index = Some fileToRemove ->
    (exists r,
        remote_calls (trace o)
        = [Called (StorageRemove "comment-files" [UploadedFile.path fileToRemove]) r])
    /\ CommentFileUpload.uploadedFiles (state o)
       = (firstn index files ++ skipn (S index) files)%list
    /\ handed_over (trace o) = [CommentFileUpload.uploadedFiles (state o)]
    /\ CommentFileUpload.error (state o) = CommentFileUpload.error st
    /\ (Forall staged_within_limit files ->
        Forall staged_within_limit (CommentFileUpload.uploadedFiles (state o))).
Proof.
  match goal with
  | |- let o := ?r in @?post o => change (post r); remember post as P eqn:HP
  end.
  unfold CommentFileRemoval.handleRemoveFile.
  destruct (nth_error (CommentFileUpload.uploadedFiles s) index)
    as [f |] eqn:Hnth;
    [| subst P; cbv zeta; intros f Hf; congruence].
  assert (Hlt : (index < List.length (CommentFileUpload.uploadedFiles s))%nat).
  { apply nth_error_Some. rewrite Hnth. discriminate. }
  cbn [bind call run].
  destruct (h _ (StorageRemove "comment-files" [UploadedFile.path f]) w)
    as [r w1].
  destruct (JS.opt_truthy
              (CommentFileRemoval.lookup (File.name (UploadedFile.file f))
                 (CommentFileUpload.previews s))).
  - cbn [bind call set run].
    destruct (h _ (RevokeObjectURL _) w1) as [[] w2].
    cbn [bind call set run].
    destruct (h _ (OnFilesUpload _) w2) as [[] w3].
    subst P. cbv zeta. intros f' Hf. rewrite Hnth in Hf.
    assert (Heq : f' = f) by congruence. subst f'. clear Hf.
    rewrite <- (@withoutIndex_spec _ index _ Hlt).
    cbn. repeat split; eauto using withoutIndex_Forall.
  - cbn [bind call set run].
    destruct (h _ (OnFilesUpload _) w1) as [[] w3].
    subst P. cbv zeta. intros f' Hf. rewrite Hnth in Hf.
    assert (Heq : f' = f) by congruence. subst f'. clear Hf.
    rewrite <- (@withoutIndex_spec _ index _ Hlt).
    cbn. repeat split; eauto using withoutIndex_Forall.
Qed.

Lemma X9_remove_staged_file_witness :
  let s := {| CommentFileUpload.uploading := false;
              CommentFileUpload.error := "";
              CommentFileUpload.uploadedFiles := [Sample.staged];
              CommentFileUpload.previews := [] |} in
  let o := run (Store.env Sample.no_filter)
             (CommentFileRemoval.handleRemoveFile 0 s) s Sample.store1 in
  (exists r,
      remote_calls (trace o)
      = [Called (StorageRemove "comment-files" [UploadedFile.path Sample.staged]) r])
  /\ CommentFileUpload.uploadedFiles (state o) = []
  /\ handed_over (trace o) = [CommentFileUpload.uploadedFiles (state o)]
  /\ CommentFileUpload.error (state o) = ""
  /\ (Forall staged_within_limit [Sample.staged] ->
      Forall staged_within_limit (CommentFileUpload.uploadedFiles (state o))).
Proof.
  exact (@X9_remove_staged_file _ (Store.env Sample.no_filter) 0%nat
           {| CommentFileUpload.uploading := false;
              CommentFileUpload.error := "";
              CommentFileUpload.uploadedFiles := [Sample.staged];
              CommentFileUpload.previews := [] |} _ Sample.store1
           Sample.staged eq_refl).
Defined.

(** X10.  [handleClearAll] does nothing while nothing is staged, and
    nothing but the prompt when the prompt is declined.  Confirmed, it
    sends one storage removal for the paths of all staged files, revokes
    every preview URL, empties the staged list and the previews and hands
    the empty list to the comment form; the answer of storage is not
    looked at. *)
Theorem X10_clear_staged_files W (h : Env W)
    (s st : CommentFileUpload.State) (w : W) :
  let o := run h (CommentFileRemoval.handleClearAll s) st w in
  let files := CommentFileUpload.uploadedFiles s in
  let prompt :=
    WindowConfirm ("Remove all "
                     ++ JS.number_to_string (Z.of_nat (List.length files))
                     ++ " files?") in
  (files = [] -> trace o = [])
  /\ (files <> [] -> fst (h _ prompt w) = false ->
      trace o = [Called prompt false] /\ state o = st)
  /\ (files <> [] -> fst (h _ prompt w) = true ->
      (exists r,
          remote_calls (trace o)
          = [Called (StorageRemove "comment-files" (map UploadedFile.path files)) r])
      /\ revoked (trace o)
         = CommentFileUpload.values (CommentFileUpload.previews s)
      /\ CommentFileUpload.uploadedFiles (state o) = []
      /\ CommentFileUpload.previews (state o) = []
      /\ handed_over (trace o) = [[]]
      /\ CommentFileUpload.error (state o) = CommentFileUpload.error st).
Proof.
  cbv zeta. unfold CommentFileRemoval.handleClearAll.
  destruct (CommentFileUpload.uploadedFiles s) as [| f rest] eqn:Hfiles.
  - split; [reflexivity |]. split; intros Hne; exfalso; apply Hne; reflexivity.
  - split; [discriminate |].
    replace (Z.of_nat (List.length (f :: rest)) =? 0) with false
      by (symmetry; apply Z.eqb_neq; simpl List.length; lia).
    remember (WindowConfirm _) as prompt eqn:Hprompt.
    cbn [bind call run].
    destruct (h _ prompt w) as [ok w1]. cbn [fst].
    split; intros _ Hok; subst ok; cbn [negb bind call run].
    + split; reflexivity.
    + destruct (h _ (StorageRemove "comment-files"
                       (map UploadedFile.path (f :: rest))) w1) as [r w2].
      rewrite run_bind. cbv zeta.
      destruct (run_mapM_revoke_trace h
                  (CommentFileUpload.values (CommentFileUpload.previews s)) st w2)
        as (Hst & Hrev & Hhand & Hrem).
      cbn [bind call set run result state trace world].
      match goal with
      | |- context [h _ (OnFilesUpload []) ?w0] =>
          destruct (h _ (OnFilesUpload []) w0) as [[] w3]
      end.
      cbn [result state trace world].
      assert (Hcall : forall X (e : Eff X) (x : X) (t : list (Event CommentFileUpload.Setter)),
                 remote_calls (Called e x :: t)
                 = if is_remote e then Called e x :: remote_calls t
                   else remote_calls t) by reflexivity.
      rewrite Hst.
      split; [| split; [| split; [| split; [| split]]]].
      * exists r. rewrite Hprompt. rewrite !Hcall. cbn [is_remote].
        unfold remote_calls in *. rewrite filter_app, Hrem. reflexivity.
      * rewrite Hprompt. unfold revoked in *. cbn [flat_map app].
        rewrite flat_map_app, Hrev. cbn. rewrite app_nil_r. reflexivity.
      * reflexivity.
      * reflexivity.
      * rewrite Hprompt. unfold handed_over in *. cbn [flat_map app].
        rewrite flat_map_app, Hhand. reflexivity.
      * reflexivity.
Qed.

Example clear_all_asks_with_the_count :
  let s := {| CommentFileUpload.uploading := false;
              CommentFileUpload.error := "";
              CommentFileUpload.uploadedFiles := [Sample.staged; Sample.staged];
              CommentFileUpload.previews := [] |} in
  trace (run (Store.env Sample.no_filter)
           (CommentFileRemoval.handleClearAll s) s
           (Store.with_confirms [false] Sample.store1))
  = [Called (WindowConfirm "Remove all 2 files?") false].
Proof. vm_compute. reflexivity. Qed.

(** ** What a drop leaves behind *)

Lemma assign_keeps (key value k v : string) (obj : CommentFileUpload.Previews) :
  In (k, v) obj -> k <> key -> In (k, v) (CommentFileUpload.assign key value obj).
Proof.
  intros Hin Hne. induction obj as [| [k0 v0] rest IH]; [inversion Hin |].
  cbn [CommentFileUpload.assign].
  destruct (k0 =? key)%string eqn:Ekey.
  - apply String.eqb_eq in Ekey. subst k0.
    destruct Hin as [Hhere | Hlater].
    + inversion Hhere. subst. contradiction.
    + right. exact Hlater.
  - destruct Hin as [Hhere | Hlater]; [left; exact Hhere | right; auto].
Qed.

Lemma uploadEach_outcome W (h : Env W) (files : list File.t) :
  forall (uploadedResults : list UploadedFile.t)
         (newPreviews : CommentFileUpload.Previews)
         (st : CommentFileUpload.State) (w : W),
    let o := run h (CommentFileUpload.uploadEach files uploadedResults newPreviews)
               st w in
    handed_over (trace o) = []
    /\ revoked (trace o) = []
    /\ (forall k v, In (k, v) newPreviews -> ~ In k (map File.name files) ->
        In (k, v) (snd (result o)))
    /\ (fst (fst (result o)) = None ->
        exists more,
          snd (fst (result o)) = (uploadedResults ++ more)%list
          /\ map UploadedFile.file more = files).
Proof.
  induction files as [| file rest IH]; intros uploadedResults newPreviews st w.
  - simpl. repeat split; auto. intros _. exists []. rewrite app_nil_r. auto.
  - match goal with
    | |- let o := ?r in @?post o => change (post r); remember post as P eqn:HP
    end.
    assert (Hfailed : forall (uploadError : JsError) previews' st' w' t,
               (forall k v, In (k, v) newPreviews -> k <> File.name file ->
                            In (k, v) previews') ->
               handed_over t = [] -> revoked t = [] ->
               P {| result := (Some uploadError, uploadedResults, previews');
                    state := st'; world := w'; trace := t |}).
    { intros uploadError previews' st' w' t Hkeep Hhand Hrev. subst P.
      cbn [result trace fst snd]. repeat split; try assumption; try discriminate.
      intros k v Hin Hname. apply Hkeep; [exact Hin |].
      intros Heq. apply Hname. left. symmetry. exact Heq. }
    assert (Hnext : forall publicUrl filePath previews' w' t,
               (forall k v, In (k, v) newPreviews -> k <> File.name file ->
                            In (k, v) previews') ->
               handed_over t = [] -> revoked t = [] ->
               let o' := run h (CommentFileUpload.uploadEach rest
                                  (uploadedResults ++
                                     [{| UploadedFile.url := publicUrl;
                                         UploadedFile.path := filePath;
                                         UploadedFile.file := file |}])%list
                                  previews') st w' in
               P {| result := result o'; state := state o'; world := world o';
                    trace := (t ++ trace o')%list |}).
    { intros publicUrl filePath previews' w' t Hkeep Hhand Hrev.
      match goal with
      | |- let o' := run h (CommentFileUpload.uploadEach rest ?a ?p) ?s0 ?w0 in _ =>
          destruct (IH a p s0 w0) as (Hhand' & Hrev' & Hkeep' & Hok);
          destruct (run h (CommentFileUpload.uploadEach rest a p) s0 w0)
            as [[[err results] previews''] st'' w'' t'']
      end.
      subst P. cbn [result state world trace fst snd] in *.
      unfold handed_over, revoked in *. rewrite !flat_map_app.
      rewrite Hhand, Hrev, Hhand', Hrev'. repeat split.
      - intros k v Hin Hname. apply Hkeep'.
        + apply Hkeep; [exact Hin |].
          intros Heq. apply Hname. left. symmetry. exact Heq.
        + intros Hrest. apply Hname. right. exact Hrest.
      - intros Hnone. destruct (Hok Hnone) as (more & Hmore & Hfiles).
        eexists (_ :: more). rewrite Hmore, <- app_assoc.
        split; [reflexivity |]. cbn [map UploadedFile.file].
        rewrite Hfiles. reflexivity. }
    clear HP IH. cbn [CommentFileUpload.uploadEach].
    destruct (CommentFileUpload.maxSize <? File.size file).
    { cbn [run]. apply Hfailed; [| reflexivity | reflexivity].
      intros k v Hin _. exact Hin. }
    destruct (JS.startsWith (File.type file) "image/"); cbn [bind call run].
    + destruct (h _ (CreateObjectURL file) w) as [previewUrl w0].
      cbn [bind call run].
      destruct (h _ DateNow w0) as [now w1]. cbn [bind call run].
      destruct (h _ MathRandomBase36 w1) as [rnd w2]. cbn [bind call run].
      destruct (h _ (StorageUpload _ _ _) w2) as [[[] | uploadError] w3];
        cbn [bind call run].
      * destruct (h _ (StorageGetPublicUrl _ _) w3) as [publicUrl w4].
        cbn [bind call run result state world trace].
        match goal with
        | |- P {| result := _; state := _; world := _;
                  trace := ?e1 :: ?e2 :: ?e3 :: ?e4 :: ?e5 :: _ |} =>
            apply (Hnext publicUrl _ _ w4 [e1; e2; e3; e4; e5])
        end; [| reflexivity | reflexivity].
        intros k v Hin Hne. apply assign_keeps; assumption.
      * apply Hfailed; [| reflexivity | reflexivity].
        intros k v Hin Hne. apply assign_keeps; assumption.
    + destruct (h _ DateNow w) as [now w1]. cbn [bind call run].
      destruct (h _ MathRandomBase36 w1) as [rnd w2]. cbn [bind call run].
      destruct (h _ (StorageUpload _ _ _) w2) as [[[] | uploadError] w3];
        cbn [bind call run].
      * destruct (h _ (StorageGetPublicUrl _ _) w3) as [publicUrl w4].
        cbn [bind call run result state world trace].
        match goal with
        | |- P {| result := _; state := _; world := _;
                  trace := ?e1 :: ?e2 :: ?e3 :: ?e4 :: _ |} =>
            apply (Hnext publicUrl _ _ w4 [e1; e2; e3; e4])
        end; [| reflexivity | reflexivity].
        intros k v Hin _. exact Hin.
      * apply Hfailed; [| reflexivity | reflexivity].
        intros k v Hin _. exact Hin.
Qed.

(** What [onDrop] comes to, once the loop and the clean-up are known. *)
Lemma onDrop_outcome W (h : Env W) (file : File.t) (rest : list File.t)
    (s st : CommentFileUpload.State) (w : W) :
  let files := file :: rest in
  let o := run h (CommentFileUpload.onDrop files s) st w in
  (exists more,
      handed_over (trace o) = [(CommentFileUpload.uploadedFiles s ++ more)%list]
      /\ CommentFileUpload.uploadedFiles (state o)
         = (CommentFileUpload.uploadedFiles s ++ more)%list
      /\ map UploadedFile.file more = files
      /\ CommentFileUpload.error (state o) = ""
      /\ CommentFileUpload.uploading (state o) = false)
  \/ (handed_over (trace o) = []
      /\ CommentFileUpload.uploadedFiles (state o)
         = CommentFileUpload.uploadedFiles st
      /\ CommentFileUpload.previews (state o) = CommentFileUpload.previews st
      /\ CommentFileUpload.error (state o) <> ""
      /\ CommentFileUpload.uploading (state o) = false
      /\ (forall k v, In (k, v) (CommentFileUpload.previews s) ->
          ~ In k (map File.name files) -> In v (revoked (trace o)))).
Proof.
  intros files.
  match goal with
  | |- let o := ?r in @?post o => change (post r); remember post as P eqn:HP
  end.
  unfold CommentFileUpload.onDrop.
  replace (Z.of_nat (List.length files) =? 0) with false
    by (symmetry; apply Z.eqb_neq; subst files; simpl List.length; lia).
  cbn [bind set run]. rewrite !run_bind. cbv zeta.
  match goal with
  | |- context [run h (CommentFileUpload.uploadEach ?fs ?rs ?ps) ?st0 ?w0] =>
      pose proof (uploadEach_spec h fs rs ps st0 w0) as Hloop;
      cbv zeta in Hloop; destruct Hloop as (Hst & _);
      pose proof (uploadEach_outcome h fs rs ps st0 w0) as Hout;
      cbv zeta in Hout; destruct Hout as (Hhand & Hrev & Hkeep & Hok);
      destruct (run h (CommentFileUpload.uploadEach fs rs ps) st0 w0)
        as [[[err uploadedResults] newPreviews] st1 w1 t1]
  end.
  cbn [result state world trace fst snd] in *. subst st1.
  destruct err as [err |].
  - cbn [bind set run]. rewrite !run_bind. cbv zeta.
    match goal with
    | |- context [run h (mapM ?f ?l) ?st0 ?w0] =>
        destruct (run_mapM_revoke_trace h l st0 w0) as (Hst2 & Hrev2 & Hhand2 & _);
        destruct (run h (mapM f l) st0 w0) as [res2 st2 w2 t2]
    end.
    cbn [result state world trace run] in *. subst st2 P.
    cbn [result state world trace].
    unfold handed_over, revoked in *.
    repeat (rewrite ?flat_map_app; cbn [flat_map app]).
    rewrite Hhand, Hhand2, Hrev, Hrev2. cbn. rewrite !app_nil_r.
    right.
    split; [reflexivity |]. split; [reflexivity |]. split; [reflexivity |].
    split; [apply or_else_nonempty; discriminate |]. split; [reflexivity |].
    intros k v Hin Hname.
    unfold CommentFileUpload.values. change v with (snd (k, v)).
    apply in_map. apply Hkeep; assumption.
  - destruct (Hok eq_refl) as (more & Hmore & Hmap).
    cbn [app] in Hmore. subst uploadedResults.
    cbn [bind set call run].
    answer h.
    cbn [bind run result state trace]. subst P. cbn [result state world trace].
    unfold handed_over, revoked in *.
    repeat (rewrite ?flat_map_app; cbn [flat_map app]).
    rewrite Hhand. cbn.
    left. exists more. repeat split. exact Hmap.
Qed.

(** X11.  Whenever a drop hands a list to the comment form, it hands it
    once, and the list is the one now staged: the files staged in the
    render the drop was made in, followed by one entry per dropped file,
    in the order they were dropped; no error is shown and the uploader is
    no longer busy. *)
Theorem X11_drop_stages_in_order W (h : Env W) (acceptedFiles : list File.t)
    (s st : CommentFileUpload.State) (w : W) :
  let o := run h (CommentFileUpload.onDrop acceptedFiles s) st w in
  forall handed,
    In handed (handed_over (trace o)) ->
    handed_over (trace o) = [handed]
    /\ CommentFileUpload.uploadedFiles (state o) = handed
    /\ (exists more,
           handed = (CommentFileUpload.uploadedFiles s ++ more)%list
           /\ map UploadedFile.file more = acceptedFiles)
    /\ CommentFileUpload.error (state o) = ""
    /\ CommentFileUpload.uploading (state o) = false.
Proof.
  cbv zeta. intros handed Hin.
  destruct acceptedFiles as [| file rest]; [inversion Hin |].
  destruct (onDrop_outcome h file rest s st w)
    as [(more & Hhand & Hfiles & Hmap & Herr & Hbusy)
       | (Hhand & _)];
    rewrite Hhand in Hin.
  - destruct Hin as [Heq | []]. subst handed.
    split; [exact Hhand |]. split; [exact Hfiles |].
    split; [exists more; split; [reflexivity | exact Hmap] |].
    split; assumption.
  - inversion Hin.
Qed.

Lemma X11_drop_stages_in_order_witness :
  let o := run (Store.env Sample.no_filter)
             (CommentFileUpload.onDrop [Sample.small_file] CommentFileUpload.initial)
             CommentFileUpload.initial Sample.store1 in
  let handed := hd [] (handed_over (trace o)) in
  handed_over (trace o) = [handed]
  /\ CommentFileUpload.uploadedFiles (state o) = handed
  /\ (exists more,
         handed = (CommentFileUpload.uploadedFiles CommentFileUpload.initial
                     ++ more)%list
         /\ map UploadedFile.file more = [Sample.small_file])
  /\ CommentFileUpload.error (state o) = ""
  /\ CommentFileUpload.uploading (state o) = false.
Proof.
  apply (@X11_drop_stages_in_order _ (Store.env Sample.no_filter)
           [Sample.small_file] CommentFileUpload.initial
           CommentFileUpload.initial Sample.store1).
  vm_compute. left. reflexivity.
Defined.

(** X12.  A drop that ends with an error hands nothing to the comment
    form and leaves the staged list and the stored previews as they were,
    but it revokes the preview URL of every file staged before whose name
    is not the name of a dropped file: the previews still stored for those
    files point to revoked URLs. *)
Theorem X12_failed_drop_revokes_old_previews W (h : Env W)
    (acceptedFiles : list File.t) (s st : CommentFileUpload.State) (w : W) :
  let o := run h (CommentFileUpload.onDrop acceptedFiles s) st w in
  acceptedFiles <> [] ->
  CommentFileUpload.error (state o) <> "" ->
  handed_over (trace o) = []
  /\ CommentFileUpload.uploadedFiles (state o) = CommentFileUpload.uploadedFiles st
  /\ CommentFileUpload.previews (state o) = CommentFileUpload.previews st
  /\ CommentFileUpload.uploading (state o) = false
  /\ (forall k v,
         In (k, v) (CommentFileUpload.previews s) ->
         ~ In k (map File.name acceptedFiles) ->
         In v (revoked (trace o))).
Proof.
  cbv zeta. intros Hsome Hfailed.
  destruct acceptedFiles as [| file rest]; [contradiction |].
  destruct (onDrop_outcome h file rest s st w)
    as [(more & _ & _ & _ & Herr & _)
       | (Hhand & Hfiles & Hprev & _ & Hbusy & Hrevoked)].
  - contradiction.
  - repeat split; assumption.
Qed.

Lemma X12_failed_drop_revokes_old_previews_witness :
  let s := {| CommentFileUpload.uploading := false;
              CommentFileUpload.error := "";
              CommentFileUpload.uploadedFiles := [];
              CommentFileUpload.previews := [("a.png", "blob:1")] |} in
  let o := run (Store.env Sample.no_filter)
             (CommentFileUpload.onDrop [Sample.huge_file] s) s Sample.store1 in
  handed_over (trace o) = []
  /\ CommentFileUpload.uploadedFiles (state o) = CommentFileUpload.uploadedFiles s
  /\ CommentFileUpload.previews (state o) = CommentFileUpload.previews s
  /\ CommentFileUpload.uploading (state o) = false
  /\ (forall k v,
         In (k, v) (CommentFileUpload.previews s) ->
         ~ In k (map File.name [Sample.huge_file]) ->
         In v (revoked (trace o))).
Proof.
  apply (@X12_failed_drop_revokes_old_previews _ (Store.env Sample.no_filter)
           [Sample.huge_file]).
  - discriminate.
  - vm_compute. discriminate.
Defined.

Example failed_drop_revokes_a_shown_preview :
  let s := {| CommentFileUpload.uploading := false;
              CommentFileUpload.error := "";
              CommentFileUpload.uploadedFiles := [];
              CommentFileUpload.previews := [("a.png", "blob:1")] |} in
  let o := run (Store.env Sample.no_filter)
             (CommentFileUpload.onDrop [Sample.huge_file] s) s Sample.store1 in
  revoked (trace o) = ["blob:1"]
  /\ CommentFileUpload.previews (state o) = [("a.png", "blob:1")].
Proof. vm_compute. split; reflexivity. Qed.

(** ** The cover image of a post *)

(** X13.  The remove button of the image uploader sends nothing to
    storage: it empties the preview and hands two empty strings to the
    form.  The edit form then holds no image path, so neither its image
    button nor its delete button sends a storage removal afterwards: the
    stored image stays in the bucket. *)
Theorem X13_removed_cover_stays_in_storage W (h : Env W) :
  (forall (currentImage : option string) (st : ImageUpload.State) (w : W),
      let o := run h (ImageControls.handleRemoveImage currentImage) st w in
      remote_calls (trace o) = []
      /\ (JS.opt_truthy currentImage = true ->
          trace o = [Updated (ImageUpload.setPreview "");
                     Called (OnImageUpload "" "") tt])
      /\ (JS.opt_truthy currentImage = false -> trace o = []))
  /\ (forall (id : option string) (st : EditBlog.State) (w w1 w2 : W),
         let form := state (run h (ImageControls.editHandleImageUpload "" "") st w) in
         EditBlog.imageUrl form = ""
         /\ EditBlog.imagePath form = ""
         /\ trace (run h (ImageControls.handleDeleteImage form) form w1) = []
         /\ existsb is_storage_remove
              (trace (run h (EditBlog.handleDelete id form) form w2)) = false).
Proof.
  split.
  - intros currentImage st w. unfold ImageControls.handleRemoveImage.
    destruct (JS.opt_truthy currentImage); cbn [negb].
    + cbn [bind set call run].
      destruct (h _ (OnImageUpload "" "") w) as [[] w1]. cbn.
      split; [reflexivity |]. split; [reflexivity | discriminate].
    + cbn. split; [reflexivity |]. split; [discriminate | reflexivity].
  - intros id st w w1 w2. cbn. split; [reflexivity |]. split; [reflexivity |].
    split; [reflexivity |].
    unfold EditBlog.handleDelete. drive h; reflexivity.
Qed.

(** X14.  [handleDeleteImage] sends nothing while the form holds no image
    path.  Otherwise it sends one storage removal for that path and
    nothing else, the post's row is not touched; when the removal succeeds
    the form forgets the image, when it fails the form keeps it and shows
    the error's message. *)
Theorem X14_image_delete_outcomes W (h : Env W) (s st : EditBlog.State) (w : W) :
  let o := run h (ImageControls.handleDeleteImage s) st w in
  (JS.truthy (EditBlog.imagePath s) = false -> trace o = [])
  /\ (JS.truthy (EditBlog.imagePath s) = true ->
      exists r,
        remote_calls (trace o)
        = [Called (StorageRemove "blog-images" [EditBlog.imagePath s]) r]
        /\ match r with
           | Success _ =>
               EditBlog.imageUrl (state o) = ""
               /\ EditBlog.imagePath (state o) = ""
               /\ EditBlog.error (state o) = EditBlog.error st
           | Failure storageError =>
               EditBlog.imageUrl (state o) = EditBlog.imageUrl st
               /\ EditBlog.imagePath (state o) = EditBlog.imagePath st
               /\ EditBlog.error (state o)
                  = "Failed to delete image: " ++ message storageError
           end).
Proof.
  cbv zeta. unfold ImageControls.handleDeleteImage.
  destruct (JS.truthy (EditBlog.imagePath s)); cbn [negb].
  - split; [discriminate |]. intros _. cbn [bind call run].
    destruct (h _ (StorageRemove "blog-images" [EditBlog.imagePath s]) w)
      as [[d | storageError] w1]; cbn.
    + exists (Success d). repeat split.
    + exists (Failure storageError). repeat split.
  - split; [reflexivity | discriminate].
Qed.

(** ** Leaving a form *)

Lemma truthy_false (a : string) : JS.truthy a = false <-> a = "".
Proof.
  unfold JS.truthy. destruct (a =? "")%string eqn:E; simpl.
  - apply String.eqb_eq in E. split; auto.
  - apply String.eqb_neq in E. split; [discriminate | contradiction].
Qed.

Lemma truthy_true (a : string) : JS.truthy a = true <-> a <> "".
Proof.
  unfold JS.truthy. destruct (a =? "")%string eqn:E; simpl.
  - apply String.eqb_eq in E. split; [discriminate | contradiction].
  - apply String.eqb_neq in E. split; auto.
Qed.

(** X15.  The cancel buttons change nothing on the page and send nothing.
    The create form leaves at once when title and body are both empty, and
    asks first when either holds any character, spaces included; the edit
    form always asks.  Both leave only after a yes. *)
Theorem X15_cancel_asks_before_leaving W (h : Env W) :
  (forall (s st : CreateBlog.State) (w : W),
      let o := run h (ImageControls.createHandleCancel s) st w in
      state o = st
      /\ remote_calls (trace o) = []
      /\ (CreateBlog.title s = "" -> CreateBlog.content s = "" ->
          trace o = [Called (Navigate "/") tt])
      /\ (CreateBlog.title s <> "" \/ CreateBlog.content s <> "" ->
          exists ok,
            trace o
            = Called (WindowConfirm "Discard this blog post?") ok
                :: (if ok then [Called (Navigate "/") tt] else [])))
  /\ (forall (st : EditBlog.State) (w : W),
         let o := run h ImageControls.editHandleCancel st w in
         state o = st
         /\ exists ok,
              trace o
              = Called (WindowConfirm "Are you sure you want to discard changes?") ok
                  :: (if ok then [Called (Navigate "/") tt] else [])).
Proof.
  split.
  - intros s st w. cbv zeta. unfold ImageControls.createHandleCancel.
    destruct (JS.truthy (CreateBlog.title s)) eqn:Et;
      [| destruct (JS.truthy (CreateBlog.content s)) eqn:Ec];
      cbn [orb bind call run].
    3: {
      apply truthy_false in Et. apply truthy_false in Ec.
      destruct (h _ (Navigate "/") w) as [[] w1]. cbn.
      repeat split. intros [Hne | Hne]; contradiction. }
    all: destruct (h _ (WindowConfirm "Discard this blog post?") w) as [ok w1];
      destruct ok; cbn [negb bind call run];
      [destruct (h _ (Navigate "/") w1) as [[] w2] |]; cbn;
      (split; [reflexivity |]); (split; [reflexivity |]);
      (split; [| intros _; first [exists true; reflexivity | exists false; reflexivity]]);
      intros Ht Hc; try (apply truthy_true in Et; contradiction);
      apply truthy_true in Ec; contradiction.
  - intros st w. cbv zeta. unfold ImageControls.editHandleCancel.
    cbn [bind call run].
    destruct (h _ (WindowConfirm "Are you sure you want to discard changes?") w)
      as [ok w1].
    destruct ok; cbn [bind call run];
      [destruct (h _ (Navigate "/") w1) as [[] w2] |]; cbn;
      (split; [reflexivity |]);
      first [exists true; reflexivity | exists false; reflexivity].
Qed.

(** ** Opening the edit page *)

(** X16.  The edit page always ends its loading state when it opens.
    Without a post identifier in the route (a missing one or an empty one)
    it asks the backend nothing and shows [No blog ID provided].  When the
    post cannot be loaded it shows the error's message, or
    [Failed to load blog] when the message is empty, leaves the form as it
    was and schedules no navigation. *)
Theorem X16_edit_page_opening W (h : Env W) (id : option string)
    (user : option User.t) (st : EditBlog.State) (w : W) :
  let o := run h (EditBlog.onMount id user) st w in
  EditBlog.loading (state o) = false
  /\ (JS.opt_truthy id = false ->
      remote_calls (trace o) = []
      /\ EditBlog.error (state o) = "No blog ID provided")
  /\ (forall err,
         failures (trace o) = [err] ->
         EditBlog.error (state o) = JS.or_else (message err) "Failed to load blog"
         /\ EditBlog.title (state o) = EditBlog.title st
         /\ EditBlog.content (state o) = EditBlog.content st
         /\ EditBlog.imagePath (state o) = EditBlog.imagePath st
         /\ existsb is_navigation (trace o) = false).
Proof.
  cbv zeta. unfold EditBlog.onMount, EditBlog.fetchBlog.
  destruct (JS.opt_truthy id); cbn [negb].
  - cbn [bind call run].
    destruct (h _ (SelectBlogById id) w) as [[data | err0] w1].
    + destruct (negb _); drive h;
        (split; [reflexivity |]); (split; [discriminate |]);
        intros err Herr; discriminate.
    + cbn. split; [reflexivity |]. split; [discriminate |].
      intros err Herr. inversion Herr. subst. repeat split.
  - cbn. split; [reflexivity |]. split; [intros _; split; reflexivity |].
    intros err Herr. discriminate.
Qed.

(** ** The storage helpers of [src/lib] *)

(** X17.  [uploadBlogImage] uploads the file to the bucket [blog-images]
    under a path inside the folder [blog-images/], and returns that path
    with the public URL asked for the same path; when the upload fails it
    throws the upload error and asks for no URL.  [deleteBlogImage] sends
    nothing for an empty path, and otherwise one removal whose error it
    throws; [deleteBlog] sends one row delete for the identifier and throws
    its error. *)
Theorem X17_library_storage_calls W (h : Env W) (w : W) :
  (forall file : File.t,
      let o := run h (LibStorage.uploadBlogImage (U := Empty_set) file) tt w in
      match result o with
      | Return up =>
          JS.startsWith (LibStorage.path up) "blog-images/" = true
          /\ remote_calls (trace o)
             = [Called (StorageUpload "blog-images" (LibStorage.path up) file)
                  (Success tt)]
          /\ last (trace o) (Called PreventDefault tt)
             = Called (StorageGetPublicUrl "blog-images" (LibStorage.path up))
                 (LibStorage.url up)
      | Throw uploadError =>
          failures (trace o) = [uploadError]
          /\ forall bucket path url,
               ~ In (Called (StorageGetPublicUrl bucket path) url) (trace o)
      end)
  /\ (forall path : string,
         let o := run h (LibStorage.deleteBlogImage (U := Empty_set) path) tt w in
         (path = "" -> trace o = [] /\ result o = Return tt)
         /\ (path <> "" ->
             exists r,
               trace o = [Called (StorageRemove "blog-images" [path]) r]
               /\ match r with
                  | Success _ => result o = Return tt
                  | Failure error => result o = Throw error
                  end))
  /\ (forall id : string,
         let o := run h (LibStorage.deleteBlog (U := Empty_set) id) tt w in
         exists r,
           trace o = [Called (DeleteBlog (Some id)) r]
           /\ match r with
              | Success _ => result o = Return tt
              | Failure error => result o = Throw error
              end).
Proof.
  split; [| split].
  - intros file. cbv zeta. unfold LibStorage.uploadBlogImage.
    cbn [bind call run].
    destruct (h _ DateNow w) as [now w1]. cbn [bind call run].
    destruct (h _ MathRandomBase36 w1) as [rnd w2]. cbn [bind call run].
    destruct (h _ (StorageUpload _ _ _) w2) as [[[] | uploadError] w3];
      cbn [bind call run].
    + destruct (h _ (StorageGetPublicUrl _ _) w3) as [publicUrl w4].
      cbn. repeat split.
      match goal with |- prefix "" ?x = true => destruct x; reflexivity end.
    + cbn. split; [reflexivity |].
      intros bucket path url [Hin | [Hin | [Hin | []]]]; inversion Hin.
  - intros path. cbv zeta. unfold LibStorage.deleteBlogImage, JS.truthy.
    destruct (path =? "")%string eqn:Epath; cbn [negb].
    + apply String.eqb_eq in Epath. split; [intros _; split; reflexivity |].
      intros Hne. contradiction.
    + apply String.eqb_neq in Epath. split; [intros Heq; contradiction |].
      intros _. cbn [bind call run].
      destruct (h _ (StorageRemove "blog-images" [path]) w) as [[d | error] w1];
        cbn; eexists; split; reflexivity.
  - intros id. cbv zeta. unfold LibStorage.deleteBlog. cbn [bind call run].
    destruct (h _ (DeleteBlog (Some id)) w) as [[d | error] w1];
      cbn; eexists; split; reflexivity.
Qed.

(** ** Saving a post *)

(** X19.  When the insert of [CreateBlog.handleSubmit] fails, the form
    keeps the title and the body as typed, shows the error's message (or
    [Failed to create blog] when it is empty), is no longer loading, and
    neither navigates nor shows the success alert.  A signed-in user
    without an e-mail address gets an error and no insert is sent.  While
    no insert is sent the loading flag is not touched. *)
Theorem X19_create_failure_keeps_the_draft W (h : Env W)
    (user : option User.t) (s st : CreateBlog.State) (w : W) :
  let o := run h (CreateBlog.handleSubmit user s) st w in
  (forall err,
      failures (trace o) = [err] ->
      CreateBlog.title (state o) = CreateBlog.title st
      /\ CreateBlog.content (state o) = CreateBlog.content st
      /\ CreateBlog.error (state o)
         = JS.or_else (message err) "Failed to create blog"
      /\ CreateBlog.loading (state o) = false
      /\ existsb is_navigation (trace o) = false
      /\ existsb is_confirmation (trace o) = false)
  /\ (forall u,
         user = Some u -> JS.opt_truthy (User.email u) = false ->
         remote_calls (trace o) = [] /\ CreateBlog.error (state o) <> "")
  /\ (remote_calls (trace o) = [] ->
      CreateBlog.loading (state o) = CreateBlog.loading st).
Proof.
  match goal with
  | |- let o := ?r in @?post o => change (post r); remember post as P eqn:HP
  end.
  unfold CreateBlog.handleSubmit.
  destruct user as [u |];
    [destruct (JS.truthy (JS.trim (CreateBlog.title s)));
     [destruct (JS.truthy (JS.trim (CreateBlog.content s)));
      [destruct (JS.opt_truthy (User.email u)) eqn:Email |] |] |];
    drive h; subst P; simpl;
    (split; [intros e He; inversion He; subst; repeat split |]);
    (split; [intros u' Hu Hmail;
             first [discriminate
                   | inversion Hu; subst u'; congruence
                   | split; [reflexivity | discriminate]] |]);
    intros Hnone; first [reflexivity | discriminate].
Qed.

(** X20.  When the update of [EditBlog.handleSubmit] fails, the page shows
    the error's message (or [Failed to update blog]), shows no success
    text and schedules no navigation.  When it succeeds the page shows the
    success text and leaves by a timer of 1500 ms, not at once.  Either
    way the form keeps title and body and is no longer saving. *)
Theorem X20_edit_submit_outcomes W (h : Env W) (id : option string)
    (user : option User.t) (s st : EditBlog.State) (w : W) :
  let o := run h (EditBlog.handleSubmit id user s) st w in
  (forall err,
      failures (trace o) = [err] ->
      EditBlog.error (state o) = JS.or_else (message err) "Failed to update blog"
      /\ EditBlog.success (state o) = ""
      /\ EditBlog.saving (state o) = false
      /\ existsb is_navigation (trace o) = false)
  /\ (existsb is_update (trace o) = true ->
      failures (trace o) = [] ->
      EditBlog.error (state o) = ""
      /\ EditBlog.success (state o) = "Blog updated successfully!"
      /\ EditBlog.saving (state o) = false
      /\ filter is_navigation (trace o)
         = [Called (SetTimeout (NavigateTo "/") 1500) tt])
  /\ EditBlog.title (state o) = EditBlog.title st
  /\ EditBlog.content (state o) = EditBlog.content st.
Proof.
  match goal with
  | |- let o := ?r in @?post o => change (post r); remember post as P eqn:HP
  end.
  unfold EditBlog.handleSubmit.
  destruct (JS.truthy (JS.trim (EditBlog.title s)));
    [destruct (JS.truthy (JS.trim (EditBlog.content s)));
     [destruct user as [u |];
      [destruct (JS.opt_truthy (User.email u)) |] |] |];
    drive h; subst P; simpl;
    (split; [intros e He; inversion He; subst; repeat split |]);
    (split; [intros Hsent Hfine; try discriminate; repeat split |]);
    split; reflexivity.
Qed.

(** ** Deletes that fail *)

(** X21.  When the row delete fails, no delete handler leaves the page or
    starts a re-fetch.  The edit page and the detail page show
    [Failed to delete blog: ] followed by the error's message, the list
    page shows it in an alert and changes nothing on the page, the comment
    list shows the bare message and removes no stored file.  On the edit
    page the stored image has been asked to go before, although the post
    stays. *)
Theorem X21_failed_delete W (h : Env W) :
  (forall (id : option string) (s st : EditBlog.State) (w : W),
      let o := run h (EditBlog.handleDelete id s) st w in
      forall err,
        failures (filter is_row_delete (trace o)) = [err] ->
        EditBlog.error (state o) = "Failed to delete blog: " ++ message err
        /\ existsb is_navigation (trace o) = false
        /\ existsb is_storage_remove (trace o) = JS.truthy (EditBlog.imagePath s))
  /\ (forall (id title : string) (imagePath : option string)
             (s st : BlogList.State) (w : W),
         let o := run h (BlogList.handleDelete id title imagePath s) st w in
         forall err,
           failures (filter is_row_delete (trace o)) = [err] ->
           state o = st
           /\ last (trace o) (Called PreventDefault tt)
              = Called (WindowAlert ("Failed to delete blog: " ++ message err)) tt
           /\ existsb is_spawn (trace o) = false)
  /\ (forall (id : option string) (s st : BlogDetail.State) (w : W),
         let o := run h (BlogDetail.handleDelete id s) st w in
         forall err,
           failures (filter is_row_delete (trace o)) = [err] ->
           BlogDetail.error (state o) = "Failed to delete blog: " ++ message err
           /\ BlogDetail.deleting (state o) = false
           /\ existsb is_navigation (trace o) = false)
  /\ (forall (user : option User.t) (comment : Comment.t)
             (st : Comments.State) (w : W),
         let o := run h (Comments.handleDelete user comment) st w in
         forall err,
           failures (filter is_row_delete (trace o)) = [err] ->
           Comments.error (state o) = message err
           /\ Comments.comments (state o) = Comments.comments st
           /\ existsb is_storage_remove (trace o) = false
           /\ existsb is_spawn (trace o) = false).
Proof.
  split; [| split; [| split]].
  - intros id s st w. cbv zeta. unfold EditBlog.handleDelete.
    destruct (JS.truthy (EditBlog.imagePath s)); drive h;
      intros e He; inversion He; subst; repeat split.
  - intros id title imagePath s st w. cbv zeta. unfold BlogList.handleDelete.
    remember (WindowConfirm _) as prompt eqn:Hprompt.
    destruct imagePath as [path |]; [destruct (JS.truthy path) |];
      drive h; rewrite ?Hprompt;
      try match goal with
          | |- context [if ?c then set _ else Ret tt] => destruct c
          end;
      simpl; intros e He; inversion He; subst; repeat split.
  - intros id s st w. cbv zeta. unfold BlogDetail.handleDelete.
    destruct (BlogDetail.blog s) as [b |]; [| simpl; intros e He; discriminate].
    remember (WindowConfirm _) as prompt eqn:Hprompt.
    drive h; rewrite ?Hprompt; simpl;
      intros e He; inversion He; subst; repeat split.
  - intros user comment st w. cbv zeta. unfold Comments.handleDelete.
    destruct (0 <? Z.of_nat (List.length (Comment.attachments comment)));
      [destruct (0 <? Z.of_nat (List.length (Comments.filePathsOf comment))) |];
      drive h; intros e He; inversion He; subst; repeat split.
Qed.



Example last_post_of_page_two_deleted :
  let s := {| BlogList.blogs := [Sample.post1]; BlogList.loading := false;
              BlogList.error := ""; BlogList.search := "";
              BlogList.currentPage := 2; BlogList.totalBlogs := 7;
              BlogList.totalPages := 2; BlogList.commentCounts := [] |} in
  BlogList.currentPage
    (state (run (Store.env Sample.no_filter)
              (BlogList.handleDelete "b1" "Hello" None s) s Sample.store1)) = 1.
Proof. vm_compute. reflexivity. Qed.

(** ** Loading the comments *)

(** X23.  When the query for the comments fails, [fetchComments] sends no
    attachment lookup, keeps the comments shown, shows the error's message
    and logs it; whatever the answers, it ends with the loading flag off. *)
Theorem X23_comment_fetch_failure W (h : Env W) (blogId : string)
    (st : Comments.State) (w : W) :
  let o := run h (Comments.fetchComments blogId) st w in
  Comments.loading (state o) = false
  /\ match fst (h _ (SelectComments blogId) w) with
     | Failure err =>
         remote_calls (trace o) = [Called (SelectComments blogId) (Failure err)]
         /\ Comments.comments (state o) = Comments.comments st
         /\ Comments.error (state o) = message err
         /\ In (Called (ConsoleError "Error fetching comments:" err) tt) (trace o)
     | Success commentsData =>
         List.length (Comments.comments (state o)) = List.length commentsData
         /\ List.length (remote_calls (trace o)) = S (List.length commentsData)
     end.
Proof.
  cbv zeta. unfold Comments.fetchComments. cbn [bind set call run].
  destruct (h _ (SelectComments blogId) w) as [[commentsData | err] w1];
    cbn [fst].
  - rewrite run_bind. cbv zeta.
    match goal with
    | |- context [run h (mapM Comments.withAttachments commentsData) ?st0 ?w0] =>
        destruct (mapM_withAttachments h commentsData st0 w0)
          as (rs & Hlen & Hres & Hst & Htr)
    end.
    rewrite Hres, Hst, Htr. cbn.
    split; [reflexivity |]. split.
    + rewrite length_map, length_combine, Hlen. apply Nat.min_id.
    + f_equal. unfold remote_calls. rewrite filter_app. cbn.
      rewrite app_nil_r.
      assert (Hall : forall pairs,
                 filter (@event_is_remote Comments.Setter) (map lookup pairs)
                 = map lookup pairs).
      { induction pairs as [| [c r] pairs IH]; [reflexivity |].
        cbn. rewrite IH. reflexivity. }
      rewrite Hall, length_map, length_combine, Hlen. apply Nat.min_id.
  - drive h. repeat split. right. right. left. reflexivity.
Qed.

(** ** The editor of a comment *)

(** X24.  Opening the editor of a comment puts the comment's text in it;
    cancelling closes and empties it.  Started with the editor closed, the
    two together leave the component as it was, and neither calls anything. *)
Theorem X24_editor_opens_and_closes W (h : Env W) (comment : Comment.t)
    (st : Comments.State) (w : W) :
  Comments.editingCommentId st = None ->
  Comments.editContent st = "" ->
  let opened := run h (CommentEditor.startEdit comment) st w in
  let closed := run h CommentEditor.cancelEdit (state opened) (world opened) in
  Comments.editingCommentId (state opened) = Some (Comment.id comment)
  /\ Comments.editContent (state opened) = CommentRow.content (Comment.row comment)
  /\ state closed = st
  /\ world closed = w
  /\ filter is_spawn (trace opened ++ trace closed) = [].
Proof.
  intros Hid Htext. destruct st. cbn in *. subst. repeat split.
Qed.

Lemma X24_editor_opens_and_closes_witness :
  let opened := run (Store.env Sample.no_filter)
                  (CommentEditor.startEdit Sample.comment1) Sample.typing
                  Sample.store1 in
  let closed := run (Store.env Sample.no_filter) CommentEditor.cancelEdit
                  (state opened) (world opened) in
  Comments.editingCommentId (state opened) = Some (Comment.id Sample.comment1)
  /\ Comments.editContent (state opened)
     = CommentRow.content (Comment.row Sample.comment1)
  /\ state closed = Sample.typing
  /\ world closed = Sample.store1
  /\ filter is_spawn (trace opened ++ trace closed) = [].
Proof.
  apply (@X24_editor_opens_and_closes _ (Store.env Sample.no_filter)
           Sample.comment1 Sample.typing Sample.store1); reflexivity.
Defined.

(** ** Uploading a cover image *)

(** X25.  Of the files dropped on the cover uploader only the first is
    ever sent.  When its upload fails the preview goes back to the current
    image (or to nothing), the error's message is shown (or
    [Failed to upload image]) and the form is handed nothing.  When the
    form is handed an image, it is handed once, with a path inside the
    folder [blog-images/], and no error is shown.  Either way the uploader
    is no longer busy. *)
Theorem X25_cover_upload_outcomes W (h : Env W) (currentImage : option string)
    (file : File.t) (rest : list File.t) (st : ImageUpload.State) (w : W) :
  let o := run h (ImageUpload.onDrop currentImage (file :: rest)) st w in
  (forall f, In f (uploaded (trace o)) -> f = file)
  /\ (forall err,
         failures (trace o) = [err] ->
         ImageUpload.preview (state o) = JS.opt_or_else currentImage ""
         /\ ImageUpload.error (state o)
            = JS.or_else (message err) "Failed to upload image"
         /\ ImageUpload.uploading (state o) = false
         /\ image_handed (trace o) = [])
  /\ (forall url path,
         In (url, path) (image_handed (trace o)) ->
         image_handed (trace o) = [(url, path)]
         /\ JS.startsWith path "blog-images/" = true
         /\ uploaded (trace o) = [file]
         /\ ImageUpload.error (state o) = ""
         /\ ImageUpload.uploading (state o) = false).
Proof.
  match goal with
  | |- let o := ?r in @?post o => change (post r); remember post as P eqn:HP
  end.
  unfold ImageUpload.onDrop.
  destruct (JS.startsWith (File.type file) "image/");
    [destruct (ImageUpload.maxImageSize <? File.size file) |];
    drive h; subst P; simpl;
    (split; [intros f Hin; first [contradiction
                                 | destruct Hin as [Hin | []]; congruence] |]);
    (split; [intros e He; inversion He; subst; repeat split |]);
    intros url path Hin; try contradiction;
    destruct Hin as [Hin | []]; inversion Hin; subst; repeat split;
    unfold JS.startsWith; cbn [prefix];
    repeat match goal with
           | |- context [Ascii.ascii_dec ?a ?b] =>
               destruct (Ascii.ascii_dec a b); [| congruence]
           end;
    match goal with |- prefix "" ?x = true => destruct x; reflexivity end.
Qed.

(** The storage removal of the edit page is served, the row delete is
    refused: the image is gone and the post stays. *)
Example image_gone_post_stays :
  let s := {| EditBlog.title := "Hello"; EditBlog.content := "World";
              EditBlog.imageUrl := "https://storage.example/blog-images/x.png";
              EditBlog.imagePath := "blog-images/x.png";
              EditBlog.loading := false; EditBlog.saving := false;
              EditBlog.error := ""; EditBlog.success := "" |} in
  let o := run (Store.env Sample.no_filter) (EditBlog.handleDelete (Some "b1") s) s
             (Store.with_faults [false; true]
                (Store.with_objects [("blog-images", "blog-images/x.png")]
                   Sample.store1)) in
  EditBlog.error (state o) = "Failed to delete blog: remote call failed"
  /\ Store.blogs (world o) = [Sample.post1]
  /\ Store.objects (world o) = [].
Proof. vm_compute. repeat split. Qed.

(** ** Opening the detail page *)

(** X26.  The detail page always ends its loading state when it opens.
    Without a post identifier in the route it asks the backend nothing.
    When the post is loaded the page shows it and sets no error, and asks
    for the author only when the post names one; a failed lookup of the
    author is silent: the post is shown, the author is left as it was.
    When the post cannot be loaded the error's message is shown (or
    [Failed to load blog]), the author is not asked for, and the delete
    button of a page that had no post does nothing, not even ask. *)
Theorem X26_detail_page_opening W (h : EnvX W) (id : option string)
    (st : BlogDetailX.State) (w : W) :
  let o := runX h (BlogDetailX.onMount id) st w in
  BlogDetail.loading (BlogDetailX.page (stateX o)) = false
  /\ (JS.opt_truthy id = false ->
      remote_callsX (traceX o) = []
      /\ BlogDetail.error (BlogDetailX.page (stateX o)) = "No blog ID provided")
  /\ (JS.opt_truthy id = true ->
      match fst (h _ (Core (SelectBlogById id)) w) with
      | Success data =>
          BlogDetail.blog (BlogDetailX.page (stateX o)) = Some data
          /\ BlogDetail.error (BlogDetailX.page (stateX o))
             = BlogDetail.error (BlogDetailX.page st)
          /\ (JS.truthy (Blog.author_id data) = false ->
              remote_callsX (traceX o)
              = [CalledX (Core (SelectBlogById id)) (Success data)]
              /\ BlogDetailX.author (stateX o) = BlogDetailX.author st)
          /\ (JS.truthy (Blog.author_id data) = true ->
              exists u,
                remote_callsX (traceX o)
                = [CalledX (Core (SelectBlogById id)) (Success data);
                   CalledX (SelectUserById (Blog.author_id data)) u]
                /\ match u with
                   | Success userData =>
                       BlogDetailX.author (stateX o) = Some userData
                   | Failure _ =>
                       BlogDetailX.author (stateX o) = BlogDetailX.author st
                   end)
      | Failure err =>
          remote_callsX (traceX o)
          = [CalledX (Core (SelectBlogById id)) (Failure err)]
          /\ BlogDetail.error (BlogDetailX.page (stateX o))
             = JS.or_else (message err) "Failed to load blog"
          /\ BlogDetailX.author (stateX o) = BlogDetailX.author st
          /\ (BlogDetail.blog (BlogDetailX.page st) = None ->
              forall V (h0 : Env V) (st0 : BlogDetail.State) (v : V),
                trace (run h0 (BlogDetail.handleDelete id
                                 (BlogDetailX.page (stateX o))) st0 v) = [])
      end).
Proof.
  cbv zeta. unfold BlogDetailX.onMount, BlogDetailX.fetchBlog.
  destruct (JS.opt_truthy id); cbn [negb].
  - cbn [bindX setX callX runX].
    destruct (h _ (Core (SelectBlogById id)) w) as [[data | err] w1]; cbn [fst].
    + destruct (JS.truthy (Blog.author_id data)); cbn [bindX setX callX runX].
      * destruct (h _ (SelectUserById (Blog.author_id data)) w1)
          as [[userData | err] w2]; cbn;
          (split; [reflexivity |]); (split; [discriminate |]);
          intros _; (split; [reflexivity |]); (split; [reflexivity |]);
          (split; [discriminate |]); intros _; eexists; split; reflexivity.
      * cbn. split; [reflexivity |]. split; [discriminate |].
        intros _. split; [reflexivity |]. split; [reflexivity |].
        split; [intros _; split; reflexivity | discriminate].
    + cbn. split; [reflexivity |]. split; [discriminate |].
      intros _. split; [reflexivity |]. split; [reflexivity |].
      split; [reflexivity |].
      intros Hnone V h0 st0 v. unfold BlogDetail.handleDelete.
      cbn. rewrite Hnone. reflexivity.
  - cbn. split; [reflexivity |]. split; [intros _; split; reflexivity |].
    discriminate.
Qed.
